(** * Analog Discovery lab scripts: a model of the measurement loops

  The repository is a set of standalone Python scripts that drive a
  Digilent instrument through the WaveForms SDK (the [dwf] shared
  library): open the device, configure the waveform generator and the
  scope, acquire, reduce, close.

  Modelling decisions, used throughout:

  - Python floats and numpy float64 values are modelled by exact
    rationals ([Q]).  The arithmetic of the scripts is [+ - * /] on
    measured voltages; rounding, overflow and signed zeros of binary64
    are not modelled.  Where numpy can produce a non-finite value from
    finite ones (a zero divisor) the model says so explicitly.
  - The SDK is an external collaborator.  Every call a script makes is
    recorded, in order, in a trace; what the device answers (open
    result, polled status, samples) comes from an environment.
  - A user interruption ([KeyboardInterrupt]) is delivered by the
    environment at an arbitrary point of the [try] body.
  - [while True] polling loops are unbounded in the source; the model
    follows them for a number of iterations given by the environment
    and reports [Diverge] when that bound is exhausted. *)

From Stdlib Require Import List String ZArith QArith Qabs Bool Arith Lia.
From Stdlib Require Import Reals Qreals Psatz.
Import ListNotations.

Set Implicit Arguments.
Unset Strict Implicit.

(* ================================================================== *)
(** * Rational helpers *)

Definition Qlt_bool (x y : Q) : bool := negb (Qle_bool y x).

(* ================================================================== *)
(** * Python runtime: outcomes, effects, [try] statements *)

Module Py.

(** Exceptions the scripts can meet. *)
Inductive exn : Type :=
| KeyboardInterrupt
| UnboundLocalError (name : string)
| ZeroDivisionError
| ValueError (msg : string)
| RuntimeError (msg : string).

(** [Exception] is the base of ordinary errors; [KeyboardInterrupt]
    derives from [BaseException] only. *)
Definition isinstance_Exception (e : exn) : bool :=
  match e with
  | KeyboardInterrupt => false
  | _ => true
  end.

Definition is_KeyboardInterrupt (e : exn) : bool :=
  match e with
  | KeyboardInterrupt => true
  | _ => false
  end.

Inductive outcome (A : Type) : Type :=
| Ret (a : A)          (* the statement completed, or the function returned [a] *)
| Raise (e : exn)      (* an exception propagates *)
| Diverge.             (* a polling loop outlived the bound of the model *)

Arguments Ret {A} a.
Arguments Raise {A} e.
Arguments Diverge {A}.

End Py.

(* ================================================================== *)
(** * numpy on one-dimensional float64 arrays *)

Module Numpy.
Local Open Scope Q_scope.

(** A float64 scalar that may fail to be finite.  Arrays of samples
    hold finite values ([list Q]); a quotient or a reduction yields a
    [float64]. *)
Inductive float64 : Type :=
| Float (q : Q)
| PosInf
| NegInf
| NaN.

(** [x / y] on finite floats: a zero divisor gives an infinity, or
    nan for [0 / 0] (numpy warns and goes on). *)
Definition true_divide (x y : Q) : float64 :=
  if Qeq_bool y 0 then
    if Qlt_bool 0 x then PosInf
    else if Qlt_bool x 0 then NegInf
    else NaN
  else Float (x / y).

(** [a > b] for a possibly non-finite [a] and a finite [b]. *)
Definition greater (a : float64) (b : Q) : bool :=
  match a with
  | Float q => Qlt_bool b q
  | PosInf => true
  | NegInf => false
  | NaN => false
  end.

Definition sum (a : list Q) : Q := fold_left Qplus a 0.

Definition square (a : list Q) : list Q := map (fun x => x * x) a.

(** [a - b] on equal shapes; other shapes are not used by the scripts
    and make numpy raise unless one side has a single element. *)
Definition subtract (a b : list Q) : Py.exn + list Q :=
  if Nat.eqb (List.length a) (List.length b)
  then inr (map (fun p => fst p - snd p) (combine a b))
  else match a, b with
       | [x], _ => inr (map (fun y => x - y) b)
       | _, [y] => inr (map (fun x => x - y) a)
       | _, _ => inl (Py.ValueError "operands could not be broadcast together")
       end.

(** [a / r] for an array and a scalar. *)
Definition divide_scalar (a : list Q) (r : Q) : list float64 :=
  map (fun x => true_divide x r) a.

(** [np.mean(a)]: the sum over the count; nan for an empty array. *)
Definition mean (a : list Q) : float64 :=
  true_divide (sum a) (inject_Z (Z.of_nat (List.length a))).

(** [np.var(a, ddof=ddof)]: the squared deviations from the mean,
    summed, over [max(n - ddof, 0)]. *)
Definition var (a : list Q) (ddof : nat) : float64 :=
  match mean a with
  | Float m =>
      true_divide (sum (square (map (fun x => x - m) a)))
                  (inject_Z (Z.of_nat (List.length a - ddof)))
  | _ => NaN
  end.

(** [np.linspace(start, stop, num)] *)
Definition linspace (start stop : Q) (num : nat) : list Q :=
  match num with
  | O => []
  | S O => [start]
  | S div =>
      let step := (stop - start) / inject_Z (Z.of_nat div) in
      map (fun i => inject_Z (Z.of_nat i) * step + start) (seq 0 div)
        ++ [stop]
  end.

(** [np.arange(0, n)] *)
Definition arange (n : nat) : list Q :=
  map (fun i => inject_Z (Z.of_nat i)) (seq 0 n).

End Numpy.

(* ================================================================== *)
(** * The WaveForms SDK as seen by the scripts *)

Module Dwf.

(** Names imported from [dwfconstants]; they are only passed back to
    the driver. *)
Inductive FUNC : Type := funcDC | funcSine | funcSquare | funcRampUp.
Inductive AnalogOutNode : Type := AnalogOutNodeCarrier.
Inductive TRIGSRC : Type :=
  trigsrcNone | trigsrcDetectorAnalogIn | trigsrcAnalogOut1.
Inductive TRIGTYPE : Type := trigtypeEdge.
Inductive TRIGCOND : Type := DwfTriggerSlopeRise | trigcond_int (v : Z).
Inductive ACQMODE : Type := acqmodeRecord.

(** One driver call, with the arguments the script passes (the device
    handle [hdwf], the same in every call, is left out) and, for the
    calls that answer, the answer. *)
Inductive call : Type :=
| FDwfDeviceOpen (idx : Z) (opened : bool)
| FDwfDeviceCloseAll
| FDwfGetLastErrorMsg
| FDwfAnalogOutNodeEnableSet (ch : Z) (node : AnalogOutNode) (enable : bool)
| FDwfAnalogOutNodeFunctionSet (ch : Z) (node : AnalogOutNode) (f : FUNC)
| FDwfAnalogOutNodeFrequencySet (ch : Z) (node : AnalogOutNode) (hz : Q)
| FDwfAnalogOutNodeAmplitudeSet (ch : Z) (node : AnalogOutNode) (v : Q)
| FDwfAnalogOutNodeOffsetSet (ch : Z) (node : AnalogOutNode) (v : Q)
| FDwfAnalogOutRepeatSet (ch : Z) (n : Z)
| FDwfAnalogOutConfigure (ch : Z) (start : bool)
| FDwfAnalogInChannelEnableSet (ch : Z) (enable : bool)
| FDwfAnalogInChannelRangeSet (ch : Z) (v : Q)
| FDwfAnalogInFrequencySet (hz : Q)
| FDwfAnalogInBufferSizeSet (n : nat)
| FDwfAnalogInAcquisitionModeSet (m : ACQMODE)
| FDwfAnalogInRecordLengthSet (x : Q)
| FDwfAnalogInTriggerSourceSet (s : TRIGSRC)
| FDwfAnalogInTriggerChannelSet (ch : Z)
| FDwfAnalogInTriggerTypeSet (t : TRIGTYPE)
| FDwfAnalogInTriggerConditionSet (c : TRIGCOND)
| FDwfAnalogInTriggerLevelSet (v : Q)
| FDwfAnalogInConfigure (reconfigure start : bool)
| FDwfAnalogInStatus (fRead : bool) (sts : option Z)
| FDwfAnalogInStatusSample (ch : Z) (v : Q)
| FDwfAnalogInStatusData (ch : Z) (n : nat)
| FDwfAnalogIOChannelNodeSet (ch node : Z) (v : Q)
| FDwfAnalogIOEnableSet (enable : bool).

(** The values of [dwfconstants] that a script inspects: the terminal
    acquisition state, under its two names. *)
Record dwfconstants : Type := {
  DwfStateDone : Z;
  stsDone : Z
}.

End Dwf.

(* ================================================================== *)
(** * Events, environment, and the monad of script runs *)

Module Run.
Import Py Dwf.

Inductive event : Type :=
| Driver (c : call)
| Sleep (seconds : Q)                      (* time.sleep *)
| Print (text : string)                    (* print; an f-string is kept as written *)
| CurveFit (xdata : list Numpy.float64) (ydata : list Q)
                                           (* scipy.optimize.curve_fit(exp_decay, ...) *)
| Plot (xs ys : list Numpy.float64).       (* matplotlib figure of a curve *)

(** What the outside world decides. *)
Record env : Type := {
  constants : dwfconstants;
  device_opens : bool;                (* FDwfDeviceOpen returned non-zero *)
  status_poll : nat -> Z;             (* state written by the k-th FDwfAnalogInStatus *)
  status_sample : nat -> Q;           (* voltage given by the k-th FDwfAnalogInStatusSample *)
  status_data : nat -> nat -> Q;      (* k-th FDwfAnalogInStatusData call, sample index *)
  curve_fit : list Numpy.float64 -> list Q -> exn + (Q * Q);
  interrupt_at : option nat;          (* events of the try body completed before Ctrl+C *)
  poll_bound : nat                    (* iterations followed in a [while True] loop *)
}.

(** What a run has done so far. *)
Record world : Type := mkWorld {
  trace : list event;                 (* newest first *)
  polls : nat;
  sample_reads : nat;
  data_reads : nat;
  pending : option nat                (* armed interruption, counting down *)
}.

Definition initial : world :=
  {| trace := []; polls := 0; sample_reads := 0; data_reads := 0;
     pending := None |}.

Definition log (e : event) (w : world) : world :=
  {| trace := e :: trace w; polls := polls w;
     sample_reads := sample_reads w; data_reads := data_reads w;
     pending := pending w |}.

Definition set_pending (p : option nat) (w : world) : world :=
  {| trace := trace w; polls := polls w;
     sample_reads := sample_reads w; data_reads := data_reads w;
     pending := p |}.

Definition count_poll (w : world) : world :=
  {| trace := trace w; polls := S (polls w);
     sample_reads := sample_reads w; data_reads := data_reads w;
     pending := pending w |}.

Definition count_sample (w : world) : world :=
  {| trace := trace w; polls := polls w;
     sample_reads := S (sample_reads w); data_reads := data_reads w;
     pending := pending w |}.

Definition count_data (w : world) : world :=
  {| trace := trace w; polls := polls w;
     sample_reads := sample_reads w; data_reads := S (data_reads w);
     pending := pending w |}.

Definition M (A : Type) : Type := env -> world -> outcome A * world.

Definition ret {A} (a : A) : M A := fun _ w => (Ret a, w).

Definition raise {A} (e : exn) : M A := fun _ w => (Raise e, w).

Definition bind {A B} (m : M A) (k : A -> M B) : M B :=
  fun en w =>
    match m en w with
    | (Ret a, w') => k a en w'
    | (Raise e, w') => (Raise e, w')
    | (Diverge, w') => (Diverge, w')
    end.

(** One observable step.  If the armed interruption is due, the step
    does not happen and [KeyboardInterrupt] is raised in its place. *)
Definition effect {A} (f : env -> world -> event * A * world) : M A :=
  fun en w =>
    match pending w with
    | Some O => (Raise KeyboardInterrupt, set_pending None w)
    | Some (S k) =>
        let '(e, a, w') := f en w in (Ret a, log e (set_pending (Some k) w'))
    | None =>
        let '(e, a, w') := f en w in (Ret a, log e w')
    end.

Definition emit (e : event) : M unit := effect (fun _ w => (e, tt, w)).

(** ** Driver calls, [time.sleep], [print] *)

Definition dwf (c : call) : M unit := emit (Driver c).

Definition sleep (seconds : Q) : M unit := emit (Sleep seconds).

Definition print (text : string) : M unit := emit (Print text).

(** [dwf.FDwfDeviceOpen(c_int(idx), byref(hdwf))]; the result is
    compared with 0 by every script. *)
Definition dwf_FDwfDeviceOpen (idx : Z) : M bool :=
  effect (fun en w =>
    (Driver (FDwfDeviceOpen idx (device_opens en)), device_opens en, w)).

(** [dwf.FDwfAnalogInStatus(hdwf, fRead, byref(sts))]; gives [sts.value]. *)
Definition dwf_FDwfAnalogInStatus (fRead : bool) : M Z :=
  effect (fun en w =>
    let v := status_poll en (polls w) in
    (Driver (FDwfAnalogInStatus fRead (Some v)), v, count_poll w)).

(** [dwf.FDwfAnalogInStatus(hdwf, fRead, None)]: the state is not asked for. *)
Definition dwf_FDwfAnalogInStatus_None (fRead : bool) : M unit :=
  effect (fun en w =>
    (Driver (FDwfAnalogInStatus fRead None), tt, count_poll w)).

(** [dwf.FDwfAnalogInStatusSample(hdwf, ch, byref(v))]; gives [v.value]. *)
Definition dwf_FDwfAnalogInStatusSample (ch : Z) : M Q :=
  effect (fun en w =>
    let v := status_sample en (sample_reads w) in
    (Driver (FDwfAnalogInStatusSample ch v), v, count_sample w)).

(** [dwf.FDwfAnalogInStatusData(hdwf, ch, buf, n)] on a ctypes array
    [buf] of [n] doubles; gives the array after the call. *)
Definition dwf_FDwfAnalogInStatusData (ch : Z) (n : nat) : M (list Q) :=
  effect (fun en w =>
    (Driver (FDwfAnalogInStatusData ch n),
     map (status_data en (data_reads w)) (seq 0 n),
     count_data w)).

(** ** Control flow *)

(** [for x in xs: acc = body(x, acc)] *)
Fixpoint for_fold {X S} (xs : list X) (acc : S) (body : X -> S -> M S)
  : M S :=
  match xs with
  | [] => ret acc
  | x :: xs' => bind (body x acc) (fun acc' => for_fold xs' acc' body)
  end.

(** The polling loop of the buffered scripts:
<<
    while True:
        dwf.FDwfAnalogInStatus(hdwf, fRead, byref(sts))
        if sts.value == done: break
        time.sleep(dt)
>>
    followed for at most [fuel] iterations. *)
Fixpoint poll_until (fuel : nat) (fRead : bool) (done : Z) (dt : Q)
  : M unit :=
  match fuel with
  | O => fun _ w => (Diverge, w)
  | S fuel' =>
      bind (dwf_FDwfAnalogInStatus fRead) (fun sts =>
        if Z.eqb sts done then ret tt
        else bind (sleep dt) (fun _ => poll_until fuel' fRead done dt))
  end.

Definition while_True_poll (fRead : bool) (done : dwfconstants -> Z)
    (dt : Q) : M unit :=
  fun en w => poll_until (poll_bound en) fRead (done (constants en)) dt en w.

(** [try: body / except <class>: handler / finally: final], for a try
    statement whose branches all end in [return] (or whose value is
    what the code after it needs).  [handler e] is [None] when no
    except clause matches [e].  The interruption of the environment is
    armed for the body only. *)
Definition try_except_finally {A} (body : M A)
    (handler : exn -> option (M A)) (final : M unit) : M A :=
  fun en w =>
    let '(o, w1) := body en (set_pending (interrupt_at en) w) in
    match o with
    | Diverge => (Diverge, w1)
    | _ =>
        let w1' := set_pending None w1 in
        let '(o2, w2) :=
          match o with
          | Raise e =>
              match handler e with
              | Some h => h en w1'
              | None => (o, w1')
              end
          | _ => (o, w1')
          end in
        match o2 with
        | Diverge => (Diverge, w2)
        | _ =>
            match final en w2 with
            | (Ret _, w3) => (o2, w3)
            | (Raise e, w3) => (Raise e, w3)
            | (Diverge, w3) => (Diverge, w3)
            end
        end
    end.

(** The same statement when the [finally] block itself ends in
    [return]: the block sees the locals bound by the body or by the
    handler ([None] when an exception is still in flight, in which
    case nothing was bound), and its outcome replaces any other. *)
Definition try_except_finally_return {L A} (body : M L)
    (handler : exn -> option (M L)) (final : option L -> M A) : M A :=
  fun en w =>
    let '(o, w1) := body en (set_pending (interrupt_at en) w) in
    match o with
    | Diverge => (Diverge, w1)
    | _ =>
        let w1' := set_pending None w1 in
        let '(o2, w2) :=
          match o with
          | Raise e =>
              match handler e with
              | Some h => h en w1'
              | None => (o, w1')
              end
          | _ => (o, w1')
          end in
        match o2 with
        | Diverge => (Diverge, w2)
        | Ret locals => final (Some locals) en w2
        | Raise _ => final None en w2
        end
    end.

(** [except KeyboardInterrupt: h] and [except Exception as e: h] *)
Definition on_KeyboardInterrupt {A} (h : M A) (e : exn) : option (M A) :=
  if is_KeyboardInterrupt e then Some h else None.

Definition on_Exception {A} (h : M A) (e : exn) : option (M A) :=
  if isinstance_Exception e then Some h else None.

(** A value or an exception of a library call, in the monad. *)
Definition lift {A} (r : exn + A) : M A :=
  match r with
  | inl e => raise e
  | inr a => ret a
  end.

(** [x / y] on two Python floats. *)
Definition truediv (x y : Q) : M Q :=
  if Qeq_bool y 0 then raise ZeroDivisionError else ret (x / y)%Q.

(** [curve_fit(exp_decay, xdata, ydata)]: the fitted [(i, RC)], or the
    exception scipy raises. *)
Definition scipy_curve_fit (xdata : list Numpy.float64) (ydata : list Q)
    : M (Q * Q) :=
  bind (effect (fun en w =>
          (CurveFit xdata ydata, curve_fit en xdata ydata, w)))
       lift.

(** Reading a local variable that may not have been assigned. *)
Definition load_local {A} (name : string) (binding : option A) : M A :=
  match binding with
  | Some v => ret v
  | None => raise (UnboundLocalError name)
  end.

Definition run {A} (m : M A) (en : env) : outcome A * list event :=
  let '(o, w) := m en initial in (o, rev (trace w)).

End Run.

Declare Scope py_scope.
Delimit Scope py_scope with py.
Notation "x <- m ;; k" := (Run.bind m (fun x => k))
(at level 61, m at next level, right associativity) : py_scope.
Notation "m ;; k" := (Run.bind m (fun _ => k))
(at level 61, right associativity) : py_scope.

(* ================================================================== *)
(** * Python built-ins used by the scripts *)

Module Builtins.

(** An insertion-ordered [dict] with float keys: assigning to a key
    that is present replaces its value in place, a new key goes to the
    end. *)
Definition dict (V : Type) : Type := list (Q * V).

Fixpoint setitem {V} (k : Q) (v : V) (d : dict V) : dict V :=
  match d with
  | [] => [(k, v)]
  | (k', v') :: d' =>
      if Qeq_bool k' k then (k', v) :: d' else (k', v') :: setitem k v d'
  end.

Definition keys {V} (d : dict V) : list Q := map fst d.

(** [int(x)] on a float: truncation towards zero. *)
Definition int (x : Q) : Z := Z.quot (Qnum x) (Zpos (Qden x)).

(** [a[start:stop]] for a sequence and two integers (negative ones
    count from the end). *)
Definition slice_index (len : nat) (i : Z) : nat :=
  Z.to_nat (Z.min (Z.of_nat len)
              (if (i <? 0)%Z then Z.max 0 (i + Z.of_nat len) else i)).

Definition slice {A} (a : list A) (start stop : Z) : list A :=
  let s := slice_index (List.length a) start in
  let e := slice_index (List.length a) stop in
  skipn s (firstn e a).

(** [a[start:]] *)
Definition slice_from {A} (a : list A) (start : Z) : list A :=
  skipn (slice_index (List.length a) start) a.

End Builtins.

(* ================================================================== *)
(** * PC2/PC2.py: DC voltage-divider resistance over a list of set-points *)

Module PC2.
Import Py Dwf Run Builtins.
Local Open Scope py_scope.
Local Open Scope Q_scope.

(** The configuration constants of the module. *)
Record globals : Type := {
  R_REF : Q;
  W1_VOLTAGES : list Q;
  N_SAMPLES : nat
}.

(** Their values in the file. *)
Definition script : globals :=
  {| R_REF := 10000.0;
     W1_VOLTAGES := [3.3 / 8; 3.3 / 4; 3.3 / 2; 3.3];
     N_SAMPLES := 1000 |}.

(** The reducer of one sample (lines 81-83): [Some resistance] when
    the guard [vin > v_out and v_out > 0] holds. *)
Definition divider (g : globals) (vin v_out : Q) : option Q :=
  if Qlt_bool v_out vin && Qlt_bool 0 v_out
  then Some (R_REF g * (v_out / (vin - v_out)))
  else None.

(** One turn of [for i in range(N_SAMPLES)] (lines 75-84). *)
Definition sample (g : globals) (vin : Q) (i : nat)
    (measured_resistances : list Q) : M (list Q) :=
  dwf_FDwfAnalogInStatus_None false ;;
  v_out <- dwf_FDwfAnalogInStatusSample 0 ;;
  match divider g vin v_out with
  | Some resistance =>
      let measured_resistances := measured_resistances ++ [resistance] in
      print "\rSample [{i+1:03d}/{N_SAMPLES}] -> R: {resistance:,.2f} Ω" ;;
      ret measured_resistances
  | None => ret measured_resistances
  end.

(** One turn of [for vin in W1_VOLTAGES] (lines 56-88). *)
Definition setpoint (g : globals) (vin : Q)
    (all_results : dict (list Q)) : M (dict (list Q)) :=
  print "\n----- Measuring with Vin = {vin:.3f}V -----" ;;
  dwf (FDwfAnalogOutNodeEnableSet 0 AnalogOutNodeCarrier true) ;;
  dwf (FDwfAnalogOutNodeFunctionSet 0 AnalogOutNodeCarrier funcDC) ;;
  dwf (FDwfAnalogOutNodeOffsetSet 0 AnalogOutNodeCarrier vin) ;;
  dwf (FDwfAnalogOutConfigure 0 true) ;;
  sleep 0.5 ;;
  dwf (FDwfAnalogInChannelEnableSet 0 true) ;;
  dwf (FDwfAnalogInChannelRangeSet 0 (vin + 1.0)) ;;
  dwf (FDwfAnalogInConfigure false false) ;;
  sleep 0.5 ;;
  measured_resistances <-
    for_fold (seq 0 (N_SAMPLES g)) [] (sample g vin) ;;
  let all_results := setitem vin measured_resistances all_results in
  print "\nMeasurement for this voltage is complete." ;;
  ret all_results.

(** [measure_resistance_for_all_voltages()] (lines 42-97); the result
    is the dictionary, or [None]. *)
Definition measure_resistance_for_all_voltages (g : globals)
    : M (option (dict (list Q))) :=
  print "Opening first device..." ;;
  opened <- dwf_FDwfDeviceOpen (-1) ;;
  if negb opened then
    print "Failed to open device" ;;
    ret None
  else
    try_except_finally
      (all_results <- for_fold (W1_VOLTAGES g) [] (setpoint g) ;;
       ret (Some all_results))
      (on_KeyboardInterrupt
         (print "\nMeasurement stopped by user." ;;
          ret None))
      (dwf FDwfDeviceCloseAll ;;
       print "\nDevice closed.").

End PC2.

(* ================================================================== *)
(** * module1/min_1.py: AC voltage-divider resistance from RMS values *)

Module Min1.
Import Py Dwf Run Builtins.
Local Open Scope py_scope.
Local Open Scope Q_scope.

Record globals : Type := {
  R_REF : Q;
  AC_AMPLITUDE : Q;
  AC_FREQUENCY : Q;
  N_SAMPLES : nat;
  SAMPLING_FREQ : Q
}.

Definition script : globals :=
  {| R_REF := 1000.0;
     AC_AMPLITUDE := 1.0;
     AC_FREQUENCY := 1000.0;
     N_SAMPLES := Z.to_nat 8192;
     SAMPLING_FREQ := 200000.0 |}.

(** What [measure_resistance] returns when it does not return
    [None, None, None]. *)
Definition result : Type := (Numpy.float64 * list Q * list Q)%type.

Section WithSqrt.
(** [np.sqrt] on a finite float: a float again.  Nothing below
    depends on which. *)
Variable np_sqrt : Q -> Q.

(** [np.sqrt(np.mean(a**2))] (lines 111-112) *)
Definition rms (a : list Q) : Numpy.float64 :=
  match Numpy.mean (Numpy.square a) with
  | Numpy.Float m => Numpy.Float (np_sqrt m)
  | other => other
  end.

(** Lines 118-123 on two finite RMS values: [None] when the guard
    [v_ref_rms <= 0] fires. *)
Definition divider (g : globals) (vin_rms vx_rms : Q) : option Q :=
  let v_ref_rms := vin_rms - vx_rms in
  if Qle_bool v_ref_rms 0 then None
  else Some (R_REF g * (vx_rms / v_ref_rms)).

(** Lines 107-125. *)
Definition reduce (g : globals) (vin_array vx_array : list Q)
    : M (option result) :=
  match rms vin_array, rms vx_array with
  | Numpy.Float vin_rms, Numpy.Float vx_rms =>
      match divider g vin_rms vx_rms with
      | None =>
          print "Error: Voltage across reference resistor is zero or negative. Check connections." ;;
          ret None
      | Some calculated_resistance =>
          ret (Some (Numpy.Float calculated_resistance, vin_array, vx_array))
      end
  | _, _ =>
      (* an RMS value is nan: [nan <= 0] is False and the quotient is nan *)
      ret (Some (Numpy.NaN, vin_array, vx_array))
  end.

(** [measure_resistance()] (lines 48-132). *)
Definition measure_resistance (g : globals) : M (option result) :=
  print "Opening first device..." ;;
  opened <- dwf_FDwfDeviceOpen (-1) ;;
  if negb opened then
    print "Failed to open device" ;;
    ret None
  else
    try_except_finally
      (print "Setting W1 output: Sine, {AC_AMPLITUDE} V, {AC_FREQUENCY} Hz..." ;;
       dwf (FDwfAnalogOutNodeEnableSet 0 AnalogOutNodeCarrier true) ;;
       dwf (FDwfAnalogOutNodeFunctionSet 0 AnalogOutNodeCarrier funcSine) ;;
       dwf (FDwfAnalogOutNodeFrequencySet 0 AnalogOutNodeCarrier (AC_FREQUENCY g)) ;;
       dwf (FDwfAnalogOutNodeAmplitudeSet 0 AnalogOutNodeCarrier (AC_AMPLITUDE g)) ;;
       dwf (FDwfAnalogOutConfigure 0 true) ;;
       sleep 0.5 ;;
       print "Configuring Scope Channels..." ;;
       dwf (FDwfAnalogInChannelEnableSet 0 true) ;;
       dwf (FDwfAnalogInChannelRangeSet 0 5.0) ;;
       dwf (FDwfAnalogInChannelEnableSet 1 true) ;;
       dwf (FDwfAnalogInChannelRangeSet 1 5.0) ;;
       dwf (FDwfAnalogInTriggerSourceSet trigsrcNone) ;;
       dwf (FDwfAnalogInFrequencySet (SAMPLING_FREQ g)) ;;
       dwf (FDwfAnalogInAcquisitionModeSet acqmodeRecord) ;;
       dwf (FDwfAnalogInRecordLengthSet (inject_Z (Z.of_nat (N_SAMPLES g)))) ;;
       sleep 0.1 ;;
       print "Collecting {N_SAMPLES} samples from each channel..." ;;
       dwf (FDwfAnalogInConfigure false true) ;;
       while_True_poll true DwfStateDone 0.01 ;;
       vin_samples <- dwf_FDwfAnalogInStatusData 0 (N_SAMPLES g) ;;
       vx_samples <- dwf_FDwfAnalogInStatusData 1 (N_SAMPLES g) ;;
       print "Acquisition complete." ;;
       reduce g vin_samples vx_samples)
      (on_KeyboardInterrupt
         (print "\nMeasurement stopped by user." ;;
          ret None))
      (dwf FDwfDeviceCloseAll ;;
       print "Device closed.").

End WithSqrt.

End Min1.

(* ================================================================== *)
(** * PC3/diode_character_test.py: LED I-V curve from a ramp sweep *)

Module Diode.
Import Py Dwf Run Builtins.
Local Open Scope py_scope.
Local Open Scope Q_scope.

Record globals : Type := {
  R_LIMIT : Q;
  V_START : Q;
  V_END : Q;
  SWEEP_TIME : Q;
  SAMPLING_FREQ : Q;
  BUFFER_SIZE : nat          (* int(SAMPLING_FREQ * SWEEP_TIME) *)
}.

Definition script : globals :=
  {| R_LIMIT := 100.0;
     V_START := 0.0;
     V_END := 3.3;
     SWEEP_TIME := 5.0;
     SAMPLING_FREQ := 10000.0;
     BUFFER_SIZE := Z.to_nat (int (10000.0 * 5.0)) |}.

(** Lines 105-106: the current through the limiting resistor,
<<
    v_resistor = v_in - v_led
    i_led = v_resistor / R_LIMIT
>>
*)
Definition current (g : globals) (v_in v_led : list Q)
    : exn + list Numpy.float64 :=
  match Numpy.subtract v_in v_led with
  | inl e => inl e
  | inr v_resistor => inr (Numpy.divide_scalar v_resistor (R_LIMIT g))
  end.

(** Lines 101-109: from the two buffers to the returned pair. *)
Definition reduce (g : globals) (buffer_ch1 buffer_ch2 : list Q)
    : M (list Q * list Numpy.float64) :=
  let v_led := buffer_ch1 in
  let v_in := buffer_ch2 in
  i_led <- lift (current g v_in v_led) ;;
  ret (slice v_led 100 (-100), slice i_led 100 (-100)).

(** [measure_led_iv_curve()] (lines 47-117). *)
Definition measure_led_iv_curve (g : globals)
    : M (option (list Q * list Numpy.float64)) :=
  print "Opening first device..." ;;
  opened <- dwf_FDwfDeviceOpen (-1) ;;
  if negb opened then
    print "Failed to open device" ;;
    ret None
  else
    try_except_finally
      (dwf (FDwfAnalogOutNodeEnableSet 0 AnalogOutNodeCarrier true) ;;
       dwf (FDwfAnalogOutNodeFunctionSet 0 AnalogOutNodeCarrier funcRampUp) ;;
       hz <- truediv 1.0 (SWEEP_TIME g) ;;
       dwf (FDwfAnalogOutNodeFrequencySet 0 AnalogOutNodeCarrier hz) ;;
       dwf (FDwfAnalogOutNodeOffsetSet 0 AnalogOutNodeCarrier
              ((V_END g - V_START g) / 2)) ;;
       dwf (FDwfAnalogOutNodeAmplitudeSet 0 AnalogOutNodeCarrier
              ((V_END g - V_START g) / 2)) ;;
       dwf (FDwfAnalogInChannelEnableSet 0 true) ;;
       dwf (FDwfAnalogInChannelEnableSet 1 true) ;;
       dwf (FDwfAnalogInChannelRangeSet 0 5.0) ;;
       dwf (FDwfAnalogInChannelRangeSet 1 5.0) ;;
       dwf (FDwfAnalogInFrequencySet (SAMPLING_FREQ g)) ;;
       dwf (FDwfAnalogInBufferSizeSet (BUFFER_SIZE g)) ;;
       dwf (FDwfAnalogInTriggerSourceSet trigsrcAnalogOut1) ;;
       dwf (FDwfAnalogInTriggerTypeSet trigtypeEdge) ;;
       dwf (FDwfAnalogInTriggerConditionSet (trigcond_int 0)) ;;
       dwf (FDwfAnalogInTriggerLevelSet 0.1) ;;
       print "Starting measurement..." ;;
       dwf (FDwfAnalogOutConfigure 0 true) ;;
       sleep 0.1 ;;
       dwf (FDwfAnalogInConfigure true true) ;;
       while_True_poll true stsDone 0.1 ;;
       print "Measurement complete. Acquiring data..." ;;
       buffer_ch1 <- dwf_FDwfAnalogInStatusData 0 (BUFFER_SIZE g) ;;
       buffer_ch2 <- dwf_FDwfAnalogInStatusData 1 (BUFFER_SIZE g) ;;
       r <- reduce g buffer_ch1 buffer_ch2 ;;
       ret (Some r))
      (on_KeyboardInterrupt
         (print "\nMeasurement stopped by user." ;;
          ret None))
      (dwf (FDwfAnalogOutConfigure 0 false) ;;
       dwf FDwfDeviceCloseAll ;;
       print "Device closed.").

End Diode.

(* ================================================================== *)
(** * PC3_test_min.py: RC discharge, decay start and exponential fit *)

Module PC3Test.
Import Py Dwf Run Builtins.
Local Open Scope py_scope.
Local Open Scope Q_scope.

Record globals : Type := {
  R_SENSE_OHMS : Q;
  SQUARE_WAVE_FREQ_HZ : Q;
  N_SAMPLES : nat;
  SAMPLING_FREQUENCY_HZ : Q;
  WAVEGEN_AMPLITUDE_V : Q;
  WAVEGEN_OFFSET_V : Q
}.

(** Lines 19-51: the derived constants are computed when the module
    is loaded. *)
Definition script : globals :=
  let R_SENSE_OHMS := 1000.0 in
  let CAPACITOR_FARADS := 10e-6 in
  let TAU := R_SENSE_OHMS * CAPACITOR_FARADS in
  let CHARGING_PERIOD_FACTOR := 20.0 in
  let SQUARE_WAVE_FREQ_HZ := 1.0 / (TAU * CHARGING_PERIOD_FACTOR) in
  let MAX_BUFFER_SIZE := Z.to_nat 16384 in
  let N_SAMPLES := MAX_BUFFER_SIZE in
  {| R_SENSE_OHMS := R_SENSE_OHMS;
     SQUARE_WAVE_FREQ_HZ := SQUARE_WAVE_FREQ_HZ;
     N_SAMPLES := N_SAMPLES;
     SAMPLING_FREQUENCY_HZ :=
       inject_Z (Z.of_nat N_SAMPLES) * SQUARE_WAVE_FREQ_HZ;
     WAVEGEN_AMPLITUDE_V := 1.65;
     WAVEGEN_OFFSET_V := 1.65 |}.

(** The threshold of line 143. *)
Definition threshold : Q := 1.000005.

(** [v_source[i]/v_source[i+1] > 1.000005] *)
Definition exceeds (v_source : list Q) (i : nat) : bool :=
  Numpy.greater
    (Numpy.true_divide (nth i v_source 0) (nth (i + 1) v_source 0))
    threshold.

(** Lines 142-144: the value of [i] after
<<
    for i in range(len(v_source)-1):
        if v_source[i]/v_source[i+1]>1.000005:
            break
>>
    given its binding before ([None]: not bound). *)
Fixpoint for_break (range : list nat) (v_source : list Q) (i : option nat)
  : option nat :=
  match range with
  | [] => i
  | j :: range' =>
      if exceeds v_source j then Some j
      else for_break range' v_source (Some j)
  end.

Definition decay_start (v_source : list Q) : option nat :=
  for_break (seq 0 (List.length v_source - 1)) v_source None.

(** [plot_results(t, v_source, v_cap, current)] (lines 140-162). *)
Definition plot_results (t : list Numpy.float64) (v_source v_cap : list Q)
    (current_amperes : list Numpy.float64) : M (Q * Q) :=
  i <- load_local "i" (decay_start v_source) ;;
  params <- scipy_curve_fit (slice_from t (Z.of_nat i))
                            (slice_from v_source (Z.of_nat i)) ;;
  ret params.

(** Lines 124-125: the current through the sense resistor,
<<
    v_resistor = v_source - v_capacitor
    current_amperes = v_resistor / R_SENSE_OHMS
>>
*)
Definition current (g : globals) (v_source v_capacitor : list Q)
    : exn + list Numpy.float64 :=
  match Numpy.subtract v_source v_capacitor with
  | inl e => inl e
  | inr v_resistor => inr (Numpy.divide_scalar v_resistor (R_SENSE_OHMS g))
  end.

(** [measure_rc_circuit()] (lines 69-135). *)
Definition measure_rc_circuit (g : globals) : M (option (Q * Q)) :=
  opened <- dwf_FDwfDeviceOpen (-1) ;;
  if negb opened then
    print "Failed to open device" ;;
    ret None
  else
    try_except_finally_return
      (dwf (FDwfAnalogOutNodeEnableSet 0 AnalogOutNodeCarrier true) ;;
       dwf (FDwfAnalogOutNodeFunctionSet 0 AnalogOutNodeCarrier funcSquare) ;;
       dwf (FDwfAnalogOutNodeFrequencySet 0 AnalogOutNodeCarrier
              (SQUARE_WAVE_FREQ_HZ g)) ;;
       dwf (FDwfAnalogOutNodeAmplitudeSet 0 AnalogOutNodeCarrier
              (WAVEGEN_AMPLITUDE_V g)) ;;
       dwf (FDwfAnalogOutNodeOffsetSet 0 AnalogOutNodeCarrier
              (WAVEGEN_OFFSET_V g)) ;;
       dwf (FDwfAnalogOutRepeatSet 0 0) ;;
       dwf (FDwfAnalogOutConfigure 0 true) ;;
       sleep 0.5 ;;
       dwf (FDwfAnalogInChannelEnableSet 0 true) ;;
       dwf (FDwfAnalogInChannelEnableSet 1 true) ;;
       dwf (FDwfAnalogInChannelRangeSet 0 5.0) ;;
       dwf (FDwfAnalogInChannelRangeSet 1 5.0) ;;
       dwf (FDwfAnalogInFrequencySet (SAMPLING_FREQUENCY_HZ g)) ;;
       dwf (FDwfAnalogInBufferSizeSet (N_SAMPLES g)) ;;
       dwf (FDwfAnalogInTriggerSourceSet trigsrcDetectorAnalogIn) ;;
       dwf (FDwfAnalogInTriggerChannelSet 0) ;;
       dwf (FDwfAnalogInTriggerTypeSet trigtypeEdge) ;;
       dwf (FDwfAnalogInTriggerConditionSet DwfTriggerSlopeRise) ;;
       dwf (FDwfAnalogInTriggerLevelSet 1.0) ;;
       dwf (FDwfAnalogInConfigure false true) ;;
       while_True_poll true DwfStateDone 0.1 ;;
       voltage_samples_ch1 <- dwf_FDwfAnalogInStatusData 0 (N_SAMPLES g) ;;
       voltage_samples_ch2 <- dwf_FDwfAnalogInStatusData 1 (N_SAMPLES g) ;;
       let v_source := voltage_samples_ch1 in
       let v_capacitor := voltage_samples_ch2 in
       current_amperes <- lift (current g v_source v_capacitor) ;;
       let time_seconds :=
         Numpy.divide_scalar (Numpy.arange (N_SAMPLES g))
                             (SAMPLING_FREQUENCY_HZ g) in
       let total_len := List.length time_seconds in
       let lo := Z.of_nat (total_len / 4) in
       let hi := Z.of_nat (total_len / 2) in
       tmp <- plot_results (slice time_seconds lo hi)
                           (slice v_source lo hi)
                           (slice v_capacitor lo hi)
                           (slice current_amperes lo hi) ;;
       ret (Some tmp))                       (* [tmp] is bound *)
      (on_KeyboardInterrupt
         (print "\nMeasurement stopped by user." ;;
          ret None))                         (* [tmp] is still unbound *)
      (fun locals =>
         dwf FDwfDeviceCloseAll ;;
         tmp <- load_local "tmp"
                  (match locals with Some tmp => tmp | None => None end) ;;
         ret (Some tmp)).

End PC3Test.

(* ================================================================== *)
(** * PC5/opamp.py: transfer curve of an amplifier over a sweep of Vin *)

Module Opamp.
Import Py Dwf Run Builtins.
Local Open Scope py_scope.
Local Open Scope Q_scope.

Record globals : Type := {
  VIN_START : Q;
  VIN_END : Q;
  SWEEP_STEPS : nat;
  V_POSITIVE_SUPPLY : Q;
  V_NEGATIVE_SUPPLY : Q;
  SAMPLES_TO_AVERAGE : nat
}.

Definition script : globals :=
  {| VIN_START := -2.5;
     VIN_END := 2.5;
     SWEEP_STEPS := 101;
     V_POSITIVE_SUPPLY := 5.0;
     V_NEGATIVE_SUPPLY := -5.0;
     SAMPLES_TO_AVERAGE := 1000 |}.

Definition curve : Type := (list Numpy.float64 * list Numpy.float64)%type.

(** One turn of [for v_in_setpoint in vin_setpoints] (lines 114-142). *)
Definition sweep_step (g : globals) (v_in_setpoint : Q) (data : curve)
    : M curve :=
  let '(vin_data, vout_data) := data in
  dwf (FDwfAnalogOutNodeOffsetSet 0 AnalogOutNodeCarrier v_in_setpoint) ;;
  dwf (FDwfAnalogOutConfigure 0 true) ;;
  sleep 0.05 ;;
  dwf (FDwfAnalogInConfigure false true) ;;
  while_True_poll true DwfStateDone 0.01 ;;
  buffer_ch1 <- dwf_FDwfAnalogInStatusData 0 (SAMPLES_TO_AVERAGE g) ;;
  let v_in_actual := Numpy.mean buffer_ch1 in
  buffer_ch2 <- dwf_FDwfAnalogInStatusData 1 (SAMPLES_TO_AVERAGE g) ;;
  let v_out_actual := Numpy.mean buffer_ch2 in
  print "\rVin_target: {v_in_setpoint:+.2f}V | Vin_actual: {v_in_actual:+.3f}V | Vout_actual: {v_out_actual:+.3f}V" ;;
  ret (vin_data ++ [v_in_actual], vout_data ++ [v_out_actual]).

(** The [finally] block (lines 149-154). *)
Definition cleanup : M unit :=
  dwf (FDwfAnalogOutConfigure 0 false) ;;
  dwf (FDwfAnalogIOEnableSet false) ;;
  dwf FDwfDeviceCloseAll ;;
  print "Power supplies OFF. Device closed.".

(** [get_amplifier_transfer_curve()] (lines 57-179); it returns
    nothing.  The figure of lines 160-179 is one [Plot] event carrying
    the measured curve. *)
Definition get_amplifier_transfer_curve (g : globals) : M unit :=
  print "Opening first device..." ;;
  opened <- dwf_FDwfDeviceOpen (-1) ;;
  if negb opened then
    print "Failed to open device" ;;
    dwf FDwfGetLastErrorMsg ;;
    print "str(szerr.value)" ;;
    ret tt
  else
    transfer_curve_data <-
      try_except_finally
        (print "Configuring Power Supplies: V+={V_POSITIVE_SUPPLY}V, V-={V_NEGATIVE_SUPPLY}V" ;;
         dwf (FDwfAnalogIOChannelNodeSet 0 0 1) ;;
         dwf (FDwfAnalogIOChannelNodeSet 0 1 (V_POSITIVE_SUPPLY g)) ;;
         dwf (FDwfAnalogIOChannelNodeSet 1 0 1) ;;
         dwf (FDwfAnalogIOChannelNodeSet 1 1 (V_NEGATIVE_SUPPLY g)) ;;
         dwf (FDwfAnalogIOEnableSet true) ;;
         print "Power supplies ON. Waiting 1 sec to stabilize..." ;;
         sleep 1.0 ;;
         print "Configuring Waveform Generator W1 (as Vin)..." ;;
         dwf (FDwfAnalogOutNodeEnableSet 0 AnalogOutNodeCarrier true) ;;
         dwf (FDwfAnalogOutNodeFunctionSet 0 AnalogOutNodeCarrier funcDC) ;;
         dwf (FDwfAnalogOutNodeEnableSet 1 AnalogOutNodeCarrier false) ;;
         print "Configuring Scope Channels..." ;;
         dwf (FDwfAnalogInChannelEnableSet 0 true) ;;
         dwf (FDwfAnalogInChannelRangeSet 0 5.0) ;;
         dwf (FDwfAnalogInChannelEnableSet 1 true) ;;
         dwf (FDwfAnalogInChannelRangeSet 1 5.0) ;;
         dwf (FDwfAnalogInAcquisitionModeSet acqmodeRecord) ;;
         dwf (FDwfAnalogInFrequencySet 100000) ;;
         dwf (FDwfAnalogInRecordLengthSet
                (inject_Z (Z.of_nat (SAMPLES_TO_AVERAGE g)) / 100000.0)) ;;
         sleep 0.5 ;;
         print "--- Starting Vin sweep from {VIN_START}V to {VIN_END}V ---" ;;
         let vin_setpoints :=
           Numpy.linspace (VIN_START g) (VIN_END g) (SWEEP_STEPS g) in
         data <- for_fold vin_setpoints ([], []) (sweep_step g) ;;
         print "\n\nSweep finished for all Vin values." ;;
         ret (Some data))
        (on_Exception
           (print "\nAn error occurred: {e}" ;;
            ret None))
        cleanup ;;
    match transfer_curve_data with
    | Some (vin, vout) => emit (Plot vin vout)
    | None => ret tt
    end.

End Opamp.

(* ================================================================== *)
(** * Statistics of the histogram plots
    (PC2/250916PC2.py lines 97-99, PC2/PC2.py lines 116-118) *)

Module Histogram.

(** [np.std(data_array, ddof=1)]: the square root of the variance,
    kept as a real number; [None] when the variance is not finite. *)
Definition std (data_array : list Q) (ddof : nat) : option R :=
  match Numpy.var data_array ddof with
  | Numpy.Float v => Some (sqrt (Q2R v))
  | _ => None
  end.

(**
<<
    data_array = np.array(data)
    mean = np.mean(data_array)
    std_dev = np.std(data_array, ddof=1)
>>
*)
Definition statistics (data : list Q) : Numpy.float64 * option R :=
  let data_array := data in
  let mean := Numpy.mean data_array in
  let std_dev := std data_array 1 in
  (mean, std_dev).

End Histogram.

(* ================================================================== *)
(** * PC2/250916PC2.py: repeated readings of W1 and their histogram *)

Module W1Histogram.
Import Py Dwf Run Builtins.
Local Open Scope py_scope.
Local Open Scope Q_scope.

Record globals : Type := {
  W1_VOLTAGE_TO_SET : Q;
  N_SAMPLES : nat
}.

Definition script : globals :=
  {| W1_VOLTAGE_TO_SET := 3.3; N_SAMPLES := 500 |}.

(** [np.max(a)] and [np.min(a)]: numpy raises on an empty array. *)
Definition amax (a : list Q) : exn + Q :=
  match a with
  | [] => inl (ValueError "zero-size array to reduction operation maximum which has no identity")
  | x :: a' => inr (fold_left (fun m y => if Qlt_bool m y then y else m) a' x)
  end.

Definition amin (a : list Q) : exn + Q :=
  match a with
  | [] => inl (ValueError "zero-size array to reduction operation minimum which has no identity")
  | x :: a' => inr (fold_left (fun m y => if Qlt_bool y m then y else m) a' x)
  end.

(** [plot_histogram(data, set_voltage)] (lines 94-134).  The figure is
    one [Plot] event: the data given to [plt.hist] and the position of
    the mean line. *)
Definition plot_histogram (data : list Q) (set_voltage : Q) : M unit :=
  let data_array := data in
  let '(mean, std_dev) := Histogram.statistics data_array in
  print "\n--- Statistics ---" ;;
  print "Mean (평균):           {mean:.5f} V" ;;
  print "Standard Dev (σ):    {std_dev:.5f} V" ;;
  max_value <- lift (amax data_array) ;;
  print "Max Value (최댓값):      {np.max(data_array):.5f} V" ;;
  min_value <- lift (amin data_array) ;;
  print "Min Value (최솟값):      {np.min(data_array):.5f} V" ;;
  emit (Plot (map Numpy.Float data_array) [mean]) ;;
  print "\nPlotting graph...".

(** One turn of [for i in range(N_SAMPLES)] (lines 72-80). *)
Definition sample (g : globals) (i : nat) (measured_voltages : list Q)
    : M (list Q) :=
  dwf_FDwfAnalogInStatus_None false ;;
  v_reading <- dwf_FDwfAnalogInStatusSample 0 ;;
  let measured_voltages := measured_voltages ++ [v_reading] in
  print "\rSample [{i+1:03d}/{N_SAMPLES}] -> {v_reading.value:.5f} V" ;;
  sleep 0.005 ;;
  ret measured_voltages.

(** The [try] body (lines 53-86). *)
Definition acquire (g : globals) : M unit :=
  print "Setting W1 output to {W1_VOLTAGE_TO_SET} V..." ;;
  dwf (FDwfAnalogOutNodeEnableSet 0 AnalogOutNodeCarrier true) ;;
  dwf (FDwfAnalogOutNodeFunctionSet 0 AnalogOutNodeCarrier funcDC) ;;
  dwf (FDwfAnalogOutNodeOffsetSet 0 AnalogOutNodeCarrier
         (W1_VOLTAGE_TO_SET g)) ;;
  dwf (FDwfAnalogOutConfigure 0 true) ;;
  sleep 0.5 ;;
  print "Configuring Scope Channel 1..." ;;
  dwf (FDwfAnalogInChannelEnableSet 0 true) ;;
  dwf (FDwfAnalogInChannelRangeSet 0 5.0) ;;
  dwf (FDwfAnalogInConfigure false false) ;;
  sleep 0.5 ;;
  print "Collecting {N_SAMPLES} samples..." ;;
  measured_voltages <- for_fold (seq 0 (N_SAMPLES g)) [] (sample g) ;;
  print "\n\nMeasurement complete." ;;
  match measured_voltages with
  | [] => ret tt
  | _ :: _ => plot_histogram measured_voltages (W1_VOLTAGE_TO_SET g)
  end.

(** [measure_and_plot_w1()] (lines 41-92); it returns nothing. *)
Definition measure_and_plot_w1 (g : globals) : M unit :=
  print "Opening first device..." ;;
  opened <- dwf_FDwfDeviceOpen (-1) ;;
  if negb opened then
    print "Failed to open device"
  else
    try_except_finally
      (acquire g)
      (on_KeyboardInterrupt
         (print "\nMeasurement stopped by user."))
      (dwf FDwfDeviceCloseAll ;;
       print "Device closed.").

End W1Histogram.

(* ================================================================== *)
(** * PC2/250916readpin.py: continuous readout of scope channel 1 *)

Module ReadPin.
Import Py Dwf Run Builtins.
Local Open Scope py_scope.
Local Open Scope Q_scope.

Record globals : Type := {
  W1_VOLTAGE_TO_SET : Q;
  READ_INTERVAL_SECONDS : Q
}.

Definition script : globals :=
  {| W1_VOLTAGE_TO_SET := 1.5; READ_INTERVAL_SECONDS := 0.5 |}.

(** [while True: body], with no [break] in the body, followed for at
    most [fuel] turns. *)
Fixpoint forever (fuel : nat) (body : M unit) : M unit :=
  match fuel with
  | O => fun _ w => (Diverge, w)
  | S fuel' => body ;; forever fuel' body
  end.

Definition while_True (body : M unit) : M unit :=
  fun en w => forever (poll_bound en) body en w.

(** One turn of the loop (lines 68-79). *)
Definition reading (g : globals) : M unit :=
  dwf_FDwfAnalogInStatus_None false ;;
  v_scope1 <- dwf_FDwfAnalogInStatusSample 0 ;;
  print "\rSet W1: {W1_VOLTAGE_TO_SET:.3f} V   |   Measured (1+ vs 1-): {v_scope1.value:.4f} V  " ;;
  sleep (READ_INTERVAL_SECONDS g).

(** The [try] body (lines 49-79). *)
Definition monitor (g : globals) : M unit :=
  print "Setting W1 output to {W1_VOLTAGE_TO_SET} V..." ;;
  dwf (FDwfAnalogOutNodeEnableSet 0 AnalogOutNodeCarrier true) ;;
  dwf (FDwfAnalogOutNodeFunctionSet 0 AnalogOutNodeCarrier funcDC) ;;
  dwf (FDwfAnalogOutNodeOffsetSet 0 AnalogOutNodeCarrier
         (W1_VOLTAGE_TO_SET g)) ;;
  dwf (FDwfAnalogOutConfigure 0 true) ;;
  sleep 0.5 ;;
  print "Configuring Scope Channel 1..." ;;
  dwf (FDwfAnalogInChannelEnableSet 0 true) ;;
  dwf (FDwfAnalogInChannelRangeSet 0 5.0) ;;
  dwf (FDwfAnalogInConfigure false false) ;;
  sleep 0.5 ;;
  print "\n--- Starting to read voltages ---" ;;
  print "Press Ctrl+C to stop." ;;
  while_True (reading g).

(** [read_voltages()] (lines 39-87); it returns nothing. *)
Definition read_voltages (g : globals) : M unit :=
  print "Opening first device..." ;;
  opened <- dwf_FDwfDeviceOpen (-1) ;;
  if negb opened then
    print "Failed to open device"
  else
    try_except_finally
      (monitor g)
      (on_KeyboardInterrupt
         (print "\n\nMeasurement stopped by user."))
      (dwf (FDwfAnalogOutConfigure 0 false) ;;
       dwf FDwfDeviceCloseAll ;;
       print "Device closed.").

End ReadPin.

(* ================================================================== *)
(** * PC2/PC2.py: the figure of histograms and the script's entry point *)

Module PC2Figure.
Import Py Dwf Run Builtins.
Local Open Scope py_scope.

(** One histogram of the 2x2 grid: the position of its axes in
    [axes.flatten()], the set-point of its title, the data, and the
    statistics written on it. *)
Record histogram : Type := {
  axis : nat;
  vin : Q;
  data : list Q;
  mean : Numpy.float64;
  std_dev : option R
}.

(** The body of the loop (lines 114-133) for one axes and one item. *)
Definition draw (ax : nat) (item : Q * list Q) : list histogram :=
  let '(vin, data) := item in
  match data with
  | [] => []                                  (* if not data: continue *)
  | _ :: _ =>
      let '(mean, std_dev) := Histogram.statistics data in
      [{| axis := ax; vin := vin; data := data;
          mean := mean; std_dev := std_dev |}]
  end.

(** [for ax, (vin, data) in zip(axes.flatten(), all_data.items())],
    with the four axes of [plt.subplots(2, 2)]. *)
Definition histograms (all_data : dict (list Q)) : list histogram :=
  flat_map (fun p => draw (fst p) (snd p)) (combine (seq 0 4) all_data).

(** [plot_histograms_subplot(all_data)] (lines 99-139); each
    [ax.hist] with its mean line is one [Plot] event. *)
Definition plot_histograms_subplot (all_data : dict (list Q)) : M unit :=
  match all_data with
  | [] => print "No data to plot."
  | _ :: _ =>
      for_fold (histograms all_data) tt
        (fun h _ => emit (Plot (map Numpy.Float (data h)) [mean h])) ;;
      print "\nPlotting all graphs..."
  end.

(** The [__main__] block (lines 141-144). *)
Definition main (g : PC2.globals) : M unit :=
  results <- PC2.measure_resistance_for_all_voltages g ;;
  match results with
  | Some ((_ :: _) as all_data) => plot_histograms_subplot all_data
  | _ => ret tt
  end.

End PC2Figure.

(* ================================================================== *)
(** * PC1/led_blink.py: blinking an LED on DIO-0

    The script is straight-line code at module level and uses the
    digital I/O calls of the SDK, which no other script uses; it has
    its own events.  The environment is the one of the other scripts
    (does the device open, when does the user interrupt, how long is
    the loop followed). *)

Module LedBlink.
Import Py.
Local Open Scope Q_scope.

Inductive call : Type :=
| FDwfDeviceOpen (idx : Z) (opened : bool)
| FDwfDigitalIOOutputEnableSet (mask : Z)
| FDwfDigitalIOConfigure
| FDwfDigitalIOOutputSet (mask : Z)
| FDwfDeviceClose.

Inductive event : Type :=
| Driver (c : call)
| Sleep (seconds : Q)
| Print (text : string)
| Quit.                                    (* quit() *)

(** What a run has done so far: the events, newest first, and the
    armed interruption. *)
Record world : Type := mkWorld {
  trace : list event;
  pending : option nat
}.

Definition M (A : Type) : Type := Run.env -> world -> outcome A * world.

Definition ret {A} (a : A) : M A := fun _ w => (Ret a, w).

Definition bind {A B} (m : M A) (k : A -> M B) : M B :=
  fun en w =>
    match m en w with
    | (Ret a, w') => k a en w'
    | (Raise e, w') => (Raise e, w')
    | (Diverge, w') => (Diverge, w')
    end.

Local Notation "x <- m ;; k" := (bind m (fun x => k))
(at level 61, m at next level, right associativity).
Local Notation "m ;; k" := (bind m (fun _ => k))
(at level 61, right associativity).

(** One observable step; the armed interruption is raised in its place
    when it is due. *)
Definition effect {A} (f : Run.env -> event * A) : M A :=
  fun en w =>
    match pending w with
    | Some O =>
        (Raise KeyboardInterrupt, {| trace := trace w; pending := None |})
    | Some (S k) =>
        (Ret (snd (f en)),
         {| trace := fst (f en) :: trace w; pending := Some k |})
    | None =>
        (Ret (snd (f en)),
         {| trace := fst (f en) :: trace w; pending := None |})
    end.

Definition emit (e : event) : M unit := effect (fun _ => (e, tt)).

Definition dwf (c : call) : M unit := emit (Driver c).

Definition sleep (seconds : Q) : M unit := emit (Sleep seconds).

Definition print (text : string) : M unit := emit (Print text).

Definition dwf_FDwfDeviceOpen (idx : Z) : M bool :=
  effect (fun en =>
    (Driver (FDwfDeviceOpen idx (Run.device_opens en)),
     Run.device_opens en)).

(** [while True: body], followed for at most [fuel] turns. *)
Fixpoint forever (fuel : nat) (body : M unit) : M unit :=
  match fuel with
  | O => fun _ w => (Diverge, w)
  | S fuel' => body ;; forever fuel' body
  end.

Definition while_True (body : M unit) : M unit :=
  fun en w => forever (Run.poll_bound en) body en w.

(** [try: body / except KeyboardInterrupt: handler]; the interruption
    of the environment is armed for the body only. *)
Definition try_except_KeyboardInterrupt (body handler : M unit) : M unit :=
  fun en w =>
    let '(o, w1) :=
      body en {| trace := trace w; pending := Run.interrupt_at en |} in
    let w1' := {| trace := trace w1; pending := None |} in
    match o with
    | Ret a => (Ret a, w1')
    | Raise KeyboardInterrupt => handler en w1'
    | Raise e => (Raise e, w1')
    | Diverge => (Diverge, w1)
    end.

(** One turn of the loop (lines 26-34). *)
Definition blink : M unit :=
  dwf (FDwfDigitalIOOutputSet 1) ;;        (* LED ON *)
  dwf FDwfDigitalIOConfigure ;;
  sleep 0.5 ;;
  dwf (FDwfDigitalIOOutputSet 0) ;;        (* LED OFF *)
  dwf FDwfDigitalIOConfigure ;;
  sleep 0.5.

(** The module body (lines 13-40).  [quit()] ends the script. *)
Definition script : M unit :=
  print "Opening first device..." ;;
  opened <- dwf_FDwfDeviceOpen (-1) ;;
  if negb opened then
    print "Failed to open device" ;;
    emit Quit
  else
    dwf (FDwfDigitalIOOutputEnableSet 1) ;;
    dwf FDwfDigitalIOConfigure ;;
    print "Blinking external LED on DIO-0... Press Ctrl+C to stop" ;;
    try_except_KeyboardInterrupt
      (while_True blink)
      (print "Stopped by user") ;;
    dwf FDwfDeviceClose.

Definition initial : world := {| trace := []; pending := None |}.

Definition run {A} (m : M A) (en : Run.env) : outcome A * list event :=
  let '(o, w) := m en initial in (o, rev (trace w)).

(** The value last written to the output register. *)
Definition last_output (tr : list event) : option Z :=
  fold_left (fun acc e => match e with
                          | Driver (FDwfDigitalIOOutputSet mask) => Some mask
                          | _ => acc
                          end) tr None.

(** The last driver call of a trace. *)
Definition last_call (tr : list event) : option call :=
  fold_left (fun acc e => match e with Driver c => Some c | _ => acc end)
            tr None.

End LedBlink.

(* ================================================================== *)
(** * PC3/diode_character_test.py: the figure and the script's entry point *)

Module DiodeFigure.
Import Py Dwf Run Builtins.
Local Open Scope py_scope.
Local Open Scope Q_scope.

(** [a * c] for an array and a scalar. *)
Definition multiply_scalar (a : list Numpy.float64) (c : Q)
    : list Numpy.float64 :=
  map (fun x =>
         match x with
         | Numpy.Float q => Numpy.Float (q * c)
         | Numpy.PosInf =>
             if Qlt_bool 0 c then Numpy.PosInf
             else if Qlt_bool c 0 then Numpy.NegInf else Numpy.NaN
         | Numpy.NegInf =>
             if Qlt_bool 0 c then Numpy.NegInf
             else if Qlt_bool c 0 then Numpy.PosInf else Numpy.NaN
         | Numpy.NaN => Numpy.NaN
         end) a.

(** [plt.plot(x, y, ...)]: matplotlib refuses two sequences of
    different lengths. *)
Definition plt_plot (x y : list Numpy.float64) : M unit :=
  if Nat.eqb (List.length x) (List.length y) then emit (Plot x y)
  else raise (ValueError "x and y must have same first dimension").

(** [plot_iv_curve(v_led, i_led, led_color)] (lines 119-142). *)
Definition plot_iv_curve (v_led : option (list Q))
    (i_led : option (list Numpy.float64)) (led_color : string) : M unit :=
  match v_led, i_led with
  | Some v_led, Some i_led =>
      let i_led_mA := multiply_scalar i_led 1000 in
      plt_plot (map Numpy.Float v_led) i_led_mA
  | _, _ =>
      print "No data to plot."
  end.

(** The [__main__] block (lines 144-150). *)
Definition main (g : Diode.globals) : M unit :=
  let LED_COLOR_NAME := "Blue"%string in
  r <- Diode.measure_led_iv_curve g ;;
  let '(voltage_data, current_data) :=
    match r with
    | Some (v, i) => (Some v, Some i)
    | None => (None, None)               (* return None, None *)
    end in
  match voltage_data with
  | Some _ => plot_iv_curve voltage_data current_data LED_COLOR_NAME
  | None => ret tt
  end.

End DiodeFigure.

(* ================================================================== *)
(** * What a trace shows *)

Module Instrument.
Import Dwf Run.

(** The state the host has commanded, as far as the scripts touch it.
    Whatever else the device does to its outputs when it is closed is
    the driver's business and is not assumed here. *)
Record state : Type := {
  wavegen_running : bool;      (* W1 started by FDwfAnalogOutConfigure *)
  supplies_enabled : bool;     (* V+/V- master enable *)
  handle_open : bool
}.

Definition idle : state :=
  {| wavegen_running := false; supplies_enabled := false;
     handle_open := false |}.

Definition command (s : state) (c : call) : state :=
  match c with
  | FDwfDeviceOpen _ true =>
      {| wavegen_running := wavegen_running s;
         supplies_enabled := supplies_enabled s;
         handle_open := true |}
  | FDwfDeviceCloseAll =>
      {| wavegen_running := wavegen_running s;
         supplies_enabled := supplies_enabled s;
         handle_open := false |}
  | FDwfAnalogOutConfigure _ start =>
      {| wavegen_running := start;
         supplies_enabled := supplies_enabled s;
         handle_open := handle_open s |}
  | FDwfAnalogIOEnableSet enable =>
      {| wavegen_running := wavegen_running s;
         supplies_enabled := enable;
         handle_open := handle_open s |}
  | _ => s
  end.

Definition observe (s : state) (e : event) : state :=
  match e with
  | Driver c => command s c
  | _ => s
  end.

(** The commanded state after a trace (oldest event first). *)
Definition after (tr : list event) : state := fold_left observe tr idle.

(** The last driver call of a trace. *)
Definition last_call (tr : list event) : option call :=
  fold_left (fun acc e => match e with Driver c => Some c | _ => acc end)
            tr None.

(** Something was printed. *)
Definition printed (tr : list event) : Prop :=
  exists text, In (Print text) tr.

End Instrument.

Module Acquisition.
Import Dwf Run.

Definition is_poll_or_arm (e : event) : bool :=
  match e with
  | Driver (FDwfAnalogInStatus _ _) => true
  | Driver (FDwfAnalogInConfigure _ _) => true
  | _ => false
  end.

(** Every read of the acquisition buffer comes after a status poll that
    answered [done], with no other poll and no re-arming in between
    (trace oldest first). *)
Definition read_only_after_done (done : Z) (tr : list event) : Prop :=
  forall pre ch n post,
    tr = pre ++ Driver (FDwfAnalogInStatusData ch n) :: post ->
    exists before fRead between,
      pre = before ++ Driver (FDwfAnalogInStatus fRead (Some done)) :: between
      /\ forallb (fun e => negb (is_poll_or_arm e)) between = true.

(** The same, as a check on the trace of a world (newest first). *)
Fixpoint done_seen (done : Z) (tr : list event) : bool :=
  match tr with
  | [] => false
  | Driver (FDwfAnalogInStatus _ sts) :: _ =>
      match sts with
      | Some s => Z.eqb s done
      | None => false
      end
  | Driver (FDwfAnalogInConfigure _ _) :: _ => false
  | _ :: tr' => done_seen done tr'
  end.

Fixpoint reads_guarded (done : Z) (tr : list event) : bool :=
  match tr with
  | [] => true
  | Driver (FDwfAnalogInStatusData _ _) :: tr' =>
      done_seen done tr' && reads_guarded done tr'
  | _ :: tr' => reads_guarded done tr'
  end.

End Acquisition.

(* ================================================================== *)
(** * Reference quantities, test bench, and the statements to prove *)

(** The quantities as the specification names them, for comparison with
    what the numpy calls of the scripts compute. *)
Module Textbook.
Local Open Scope Q_scope.

Definition count (x : list Q) : Q := inject_Z (Z.of_nat (List.length x)).

(** x1 + (x2 + (... + 0)) *)
Definition total (x : list Q) : Q := fold_right Qplus 0 x.

Definition arithmetic_mean (x : list Q) : Q := total x / count x.

(** Bessel-corrected: the squared deviations from the mean over n - 1. *)
Definition sample_variance (x : list Q) : Q :=
  total (map (fun xi => (xi - arithmetic_mean x) * (xi - arithmetic_mean x)) x)
  / (count x - 1).

End Textbook.

Section Statements.
Import Py Dwf Run Builtins Instrument Acquisition.
Local Open Scope Q_scope.

(** ** Devices and small configurations *)

(** A device that opens and answers [v] to every sample read; the
    user does not interrupt. *)
Definition all_samples (v : Q) : env :=
  {| constants := {| DwfStateDone := 2; stsDone := 2 |};
     device_opens := true;
     status_poll := fun _ => 2%Z;
     status_sample := fun _ => v;
     status_data := fun _ _ => 0;
     curve_fit := fun _ _ => inl (RuntimeError "no fit");
     interrupt_at := None;
     poll_bound := 0 |}.

(** A device that opens, answers "not done" to the first three polls
    and "done" afterwards, and whose k-th buffer read gives the ramp
    [10*(k+1) - i]; the user may interrupt. *)
Definition bench (interrupt : option nat) : env :=
  {| constants := {| DwfStateDone := 2; stsDone := 2 |};
     device_opens := true;
     status_poll := fun k => if (k <? 3)%nat then 1%Z else 2%Z;
     status_sample := fun _ => 0;
     status_data :=
       fun k i => (inject_Z (Z.of_nat (10 * (k + 1)))
                   - inject_Z (Z.of_nat i));
     curve_fit := fun _ _ => inr (2, 1 # 100);
     interrupt_at := interrupt;
     poll_bound := 10 |}.

(** The diode script with a buffer of 203 samples. *)
Definition small_diode : Diode.globals :=
  {| Diode.R_LIMIT := 100; Diode.V_START := 0; Diode.V_END := 3.3;
     Diode.SWEEP_TIME := 5; Diode.SAMPLING_FREQ := 40.6;
     Diode.BUFFER_SIZE := 203 |}.

(** The RC script with a record of 16 samples. *)
Definition small_rc : PC3Test.globals :=
  {| PC3Test.R_SENSE_OHMS := 1000; PC3Test.SQUARE_WAVE_FREQ_HZ := 5;
     PC3Test.N_SAMPLES := 16; PC3Test.SAMPLING_FREQUENCY_HZ := 80;
     PC3Test.WAVEGEN_AMPLITUDE_V := 1.65;
     PC3Test.WAVEGEN_OFFSET_V := 1.65 |}.

(** min_1.py with a record of 4 samples. *)
Definition small_min1 : Min1.globals :=
  {| Min1.R_REF := 1000; Min1.AC_AMPLITUDE := 1; Min1.AC_FREQUENCY := 1000;
     Min1.N_SAMPLES := 4; Min1.SAMPLING_FREQ := 200000 |}.

(** The op-amp script with a sweep of three set-points averaged over
    two samples each. *)
Definition small_opamp : Opamp.globals :=
  {| Opamp.VIN_START := -1; Opamp.VIN_END := 1; Opamp.SWEEP_STEPS := 3;
     Opamp.V_POSITIVE_SUPPLY := 5; Opamp.V_NEGATIVE_SUPPLY := -5;
     Opamp.SAMPLES_TO_AVERAGE := 2 |}.

(** ** Statements about single steps and whole runs *)

(** The world after the two driver calls of one sample. *)
Definition sampled (v_out : Q) (w : world) : world :=
  log (Driver (FDwfAnalogInStatusSample 0 v_out))
    (count_sample (log (Driver (FDwfAnalogInStatus false None))
                     (count_poll w))).

(** The claim as the specification words it, for the DC sweep: a sample
    with [V_in <= V_x] or [V_x <= 0] is reported. *)
Definition guard_failure_reported : Prop :=
  forall (g : PC2.globals) (vin : Q) (i : nat) (acc : list Q) (en : env),
    vin <= status_sample en 0%nat \/ status_sample en 0%nat <= 0 ->
    printed (snd (run (PC2.sample g vin i acc) en)).

(** The claim as the specification words it, for the DC sweep: whatever
    happens, the run leaves the instrument commanded idle. *)
Definition every_exit_commands_idle : Prop :=
  forall (g : PC2.globals) (en : env),
    after (snd (run (PC2.measure_resistance_for_all_voltages g) en)) = idle.

(** No key of the list is equal, as a float, to a later one. *)
Fixpoint all_distinct (ks : list Q) : bool :=
  match ks with
  | [] => true
  | k :: ks' =>
      forallb (fun k' => negb (Qeq_bool k k')) ks' && all_distinct ks'
  end.

(** What the pair returned by [measure_led_iv_curve] is, in terms of
    the two acquired buffers. *)
Definition trimmed_iv (g : Diode.globals)
    (v : list Q) (i : list Numpy.float64) : Prop :=
  exists buffer_ch1 buffer_ch2 i_led,
    List.length buffer_ch1 = Diode.BUFFER_SIZE g /\
    List.length buffer_ch2 = Diode.BUFFER_SIZE g /\
    Diode.current g buffer_ch2 buffer_ch1 = inr i_led /\
    List.length i_led = Diode.BUFFER_SIZE g /\
    v = skipn 100 (firstn (Diode.BUFFER_SIZE g - 100) buffer_ch1) /\
    i = skipn 100 (firstn (Diode.BUFFER_SIZE g - 100) i_led).

(** ** Judgements on computations *)

(** Whenever [m] returns, the value satisfies [P]. *)
Definition returns {A} (m : M A) (P : A -> Prop) : Prop :=
  forall en w a w', m en w = (Ret a, w') -> P a.

(** With no interruption pending, and none to come from the
    environment, the computation returns a value satisfying [P], and
    none is pending afterwards. *)
Definition quiet {A} (en : env) (m : M A) (P : A -> Prop) : Prop :=
  forall w, pending w = None ->
    exists a w', m en w = (Ret a, w') /\ pending w' = None /\ P a.

(** [m] never outlives the bound of the model. *)
Definition halts {A} (m : M A) : Prop :=
  forall en w, fst (m en w) <> Diverge.

(** Events that neither poll, nor arm, nor read. *)
Definition neutral (e : event) : bool :=
  match e with
  | Driver (FDwfAnalogInStatus _ _) => false
  | Driver (FDwfAnalogInConfigure _ _) => false
  | Driver (FDwfAnalogInStatusData _ _) => false
  | _ => true
  end.

(** Started on a trace that passes the check (and, if [b], on which the
    latest poll answered done), [m] leaves a trace that passes the
    check (and, if it returns [a] with [B a], on which the latest poll
    answered done). *)
Definition guarded (en : env) (done : Z) {A} (m : M A) (b : bool)
    (B : A -> bool) : Prop :=
  forall w,
    reads_guarded done (trace w) = true ->
    (b = true -> done_seen done (trace w) = true) ->
    reads_guarded done (trace (snd (m en w))) = true /\
    match fst (m en w) with
    | Ret a => B a = true -> done_seen done (trace (snd (m en w))) = true
    | _ => True
    end.

End Statements.

(* ================================================================== *)
(** * Further statements: judgements, assertions and expected values *)

Section FurtherStatements.
Import Py Dwf Run Builtins Instrument.

(** ** Judgements on computations *)

(** Started in a world satisfying [P], the computation ends in a world
    satisfying [Q a] when it returns [a], and in one satisfying [X]
    when it raises or is cut by the bound of the model. *)
Definition triple {A} (en : env) (P : world -> Prop) (m : M A)
    (Q : A -> world -> Prop) (X : world -> Prop) : Prop :=
  forall w, P w ->
    match m en w with
    | (Ret a, w') => Q a w'
    | (_, w') => X w'
    end.

(** Only exceptions satisfying [E] leave the computation. *)
Definition raises_only {A} (m : M A) (E : exn -> Prop) : Prop :=
  forall en w e w', m en w = (Raise e, w') -> E e.


(** Started with no interruption pending, the computation does not
    raise. *)
Definition safe {A} (en : env) (m : M A) : Prop :=
  forall w, pending w = None ->
    forall e w', m en w <> (Raise e, w').

(** With an interruption armed to fall after [j] more steps, the
    computation is cut when [j < n]; otherwise it completes and has
    used up [n] of the steps. *)
Definition spends {A} (en : env) (m : M A) (n : nat) : Prop :=
  forall w j, pending w = Some j ->
    if (j <? n)%nat
    then exists w', m en w = (Raise KeyboardInterrupt, w')
    else exists a w', m en w = (Ret a, w') /\
                      pending w' = Some (j - n)%nat.

(** An interruption armed to fall within the next [n] steps cuts the
    computation. *)
Definition cut {A} (en : env) (m : M A) (n : nat) : Prop :=
  forall w j, pending w = Some j -> (j < n)%nat ->
    exists w', m en w = (Raise KeyboardInterrupt, w').

(** With no interruption pending the computation outlives the bound
    of the model. *)
Definition outlives {A} (en : env) (m : M A) : Prop :=
  forall w, pending w = None -> fst (m en w) = Diverge.

(** ** Assertions on the trace of a run *)

(** Every figure drawn so far satisfies [G]. *)
Definition plots_only (G : list Numpy.float64 -> list Numpy.float64 -> Prop)
    (w : world) : Prop :=
  forall xs ys, In (Plot xs ys) (trace w) -> G xs ys.

Definition no_plot : world -> Prop := plots_only (fun _ _ => False).

(** The last command to the waveform generator so far was a start. *)
Definition running (w : world) : Prop :=
  wavegen_running (after (rev (trace w))) = true.

(** ** Values the scripts are expected to produce *)

(** The resistances kept from the readings [vs] taken at the set-point
    [vin] (the list comprehension that the loop of lines 75-84 of
    PC2.py amounts to). *)
Definition kept (g : PC2.globals) (vin : Q) (vs : list Q) : list Q :=
  flat_map (fun v_out => match PC2.divider g vin v_out with
                         | Some resistance => [resistance]
                         | None => []
                         end) vs.

(** The dictionary after the set-points [vins], when the first of them
    starts at reading number [k] of the device. *)
Fixpoint sweep_results (g : PC2.globals) (reading : nat -> Q)
    (vins : list Q) (k : nat) (d : dict (list Q)) : dict (list Q) :=
  match vins with
  | [] => d
  | vin :: vins' =>
      sweep_results g reading vins' (k + PC2.N_SAMPLES g)
        (setitem vin
           (kept g vin (map reading (seq k (PC2.N_SAMPLES g)))) d)
  end.

(** The first [n] readings the device gives to
    [FDwfAnalogInStatusSample]. *)
Definition readings (en : env) (n : nat) : list Q :=
  map (status_sample en) (seq 0 n).

(** The figure of 250916PC2.py when it shows every reading of the
    run: the [N_SAMPLES] readings in the order they were taken, and
    their mean. *)
Definition complete_histogram (en : env) (g : W1Histogram.globals)
    (xs ys : list Numpy.float64) : Prop :=
  xs = map Numpy.Float (readings en (W1Histogram.N_SAMPLES g)) /\
  ys = [Numpy.mean (readings en (W1Histogram.N_SAMPLES g))] /\
  (0 < W1Histogram.N_SAMPLES g)%nat.

(** What the first component of the triple returned by
    [measure_resistance] of min_1.py can be, given the two arrays
    returned with it. *)
Definition rms_resistance (np_sqrt : Q -> Q) (g : Min1.globals)
    (r : Numpy.float64) (vin_array vx_array : list Q) : Prop :=
  match r with
  | Numpy.Float q =>
      exists vin_rms vx_rms,
        Min1.rms np_sqrt vin_array = Numpy.Float vin_rms /\
        Min1.rms np_sqrt vx_array = Numpy.Float vx_rms /\
        (vx_rms < vin_rms)%Q /\
        q = (Min1.R_REF g * (vx_rms / (vin_rms - vx_rms)))%Q
  | Numpy.NaN => Min1.N_SAMPLES g = 0%nat
  | _ => False
  end.

(** The exceptions that can leave the [try] body of
    [measure_led_iv_curve]. *)
Definition diode_may_raise (g : Diode.globals) (e : exn) : Prop :=
  e = KeyboardInterrupt \/
  (e = ZeroDivisionError /\ Diode.SWEEP_TIME g == 0).


(** Both lists of a figure have [n] points. *)
Definition curve_of (n : nat) (xs ys : list Numpy.float64) : Prop :=
  List.length xs = n /\ List.length ys = n.

(** [if not data] *)
Definition is_empty {A} (data : list A) : bool :=
  match data with
  | [] => true
  | _ :: _ => false
  end.

(** The histogram [h] shows the item of the dictionary that [zip]
    pairs with its axes, and that item has data. *)
Definition shows_item (all_data : dict (list Q)) (h : PC2Figure.histogram)
    : Prop :=
  (PC2Figure.axis h < 4)%nat /\
  nth_error all_data (PC2Figure.axis h)
  = Some (PC2Figure.vin h, PC2Figure.data h) /\
  PC2Figure.data h <> [] /\
  exists m, PC2Figure.mean h = Numpy.Float m.

(** The trace of a script that gives up after the open attempt. *)
Definition open_attempt_only : list event :=
  [Print "Opening first device...";
   Driver (FDwfDeviceOpen (-1) false);
   Print "Failed to open device"].

(** The events of one turn of the blink loop, in order. *)
Definition blink_events : list LedBlink.event :=
  [LedBlink.Driver (LedBlink.FDwfDigitalIOOutputSet 1);
   LedBlink.Driver LedBlink.FDwfDigitalIOConfigure;
   LedBlink.Sleep 0.5;
   LedBlink.Driver (LedBlink.FDwfDigitalIOOutputSet 0);
   LedBlink.Driver LedBlink.FDwfDigitalIOConfigure;
   LedBlink.Sleep 0.5].

(** The events of the script up to the [try] statement, on a device
    that opens. *)
Definition blink_setup : list LedBlink.event :=
  [LedBlink.Print "Opening first device...";
   LedBlink.Driver (LedBlink.FDwfDeviceOpen (-1) true);
   LedBlink.Driver (LedBlink.FDwfDigitalIOOutputEnableSet 1);
   LedBlink.Driver LedBlink.FDwfDigitalIOConfigure;
   LedBlink.Print "Blinking external LED on DIO-0... Press Ctrl+C to stop"].

(** The value last written to the output register when the loop is
    cut after [k] steps. *)
Definition output_after (k : nat) : option Z :=
  match k with
  | O => None
  | _ => if ((1 <=? k mod 6) && (k mod 6 <=? 3))%nat then Some 1%Z
         else Some 0%Z
  end.

(** ** More devices and small configurations *)

(** PC2.py with two set-points of two samples each. *)
Definition small_sweep : PC2.globals :=
  {| PC2.R_REF := 1000; PC2.W1_VOLTAGES := [2; 3]; PC2.N_SAMPLES := 2 |}.

(** 250916PC2.py with three samples. *)
Definition small_histogram : W1Histogram.globals :=
  {| W1Histogram.W1_VOLTAGE_TO_SET := 3.3; W1Histogram.N_SAMPLES := 3 |}.

(** A device that is done at the first poll and whose first buffer
    holds 2 V and every later one 1 V. *)
Definition divider_bench : env :=
  {| constants := {| DwfStateDone := 2; stsDone := 2 |};
     device_opens := true;
     status_poll := fun _ => 2%Z;
     status_sample := fun _ => 1%Q;
     status_data := fun k _ => if (k =? 0)%nat then 2%Q else 1%Q;
     curve_fit := fun _ _ => inr (2%Q, (1 # 100)%Q);
     interrupt_at := None;
     poll_bound := 1 |}.

(** The diode script with a sweep time of zero. *)
Definition instant_diode : Diode.globals :=
  {| Diode.R_LIMIT := 100; Diode.V_START := 0; Diode.V_END := 3.3;
     Diode.SWEEP_TIME := 0; Diode.SAMPLING_FREQ := 10000;
     Diode.BUFFER_SIZE := 0 |}.

(** A device that cannot be opened. *)
Definition unplugged : env :=
  {| constants := {| DwfStateDone := 2; stsDone := 2 |};
     device_opens := false;
     status_poll := fun _ => 0%Z;
     status_sample := fun _ => 0%Q;
     status_data := fun _ _ => 0%Q;
     curve_fit := fun _ _ => inl (RuntimeError "no fit");
     interrupt_at := None;
     poll_bound := 0 |}.

End FurtherStatements.

(* ================================================================== *)
(** * Reasoning about runs *)

Module Logic.
Import Py Dwf Run.

(** ** Comparisons of rationals *)


Lemma Qlt_bool_false_iff (x y : Q) : Qlt_bool x y = false <-> (y <= x)%Q.
Proof.
  unfold Qlt_bool. rewrite negb_false_iff. apply Qle_bool_iff.
Qed.


(** ** Unfolding the monad *)

Lemma bind_eq {A B} (m : M A) (k : A -> M B) en w :
  bind m k en w =
  match m en w with
  | (Ret a, w') => k a en w'
  | (Raise e, w') => (Raise e, w')
  | (Diverge, w') => (Diverge, w')
  end.
Proof. reflexivity. Qed.

(** ** Runs that return: what the returned value can be *)

Lemma returns_ret {A} (a : A) (P : A -> Prop) : P a -> returns (ret a) P.
Proof. intros H en w a' w' E. inversion E; subst; exact H. Qed.

Lemma returns_bind {A B} (m : M A) (k : A -> M B) P1 P :
  returns m P1 -> (forall a, P1 a -> returns (k a) P) ->
  returns (bind m k) P.
Proof.
  intros Hm Hk en w b w' E. rewrite bind_eq in E.
  destruct (m en w) as [[a|e|] w1] eqn:E1; try discriminate.
  eapply Hk; eauto.
Qed.

Lemma returns_any {A} (m : M A) : returns m (fun _ => True).
Proof. intros en w a w' _. exact I. Qed.

Lemma returns_for_fold {X S} (xs : list X) (body : X -> S -> M S)
    (Inv : list X -> S -> Prop) (acc : S) :
  Inv [] acc ->
  (forall done x acc', Inv done acc' ->
      returns (body x acc') (Inv (done ++ [x]))) ->
  returns (for_fold xs acc body) (Inv xs).
Proof.
  intros H0 Hstep.
  assert (G : forall done acc', Inv done acc' ->
              returns (for_fold xs acc' body) (Inv (done ++ xs))).
  { induction xs as [|x xs IH]; intros done acc' Hd.
    - simpl. rewrite app_nil_r. apply returns_ret. exact Hd.
    - simpl. eapply returns_bind.
      + apply (Hstep done x acc' Hd).
      + intros a Ha. replace (done ++ x :: xs) with ((done ++ [x]) ++ xs)
          by (rewrite <- app_assoc; reflexivity).
        apply IH. exact Ha. }
  exact (G [] acc H0).
Qed.

Lemma returns_try {A} (body : M A) handler final (P : A -> Prop) :
  returns body P ->
  (forall e h, handler e = Some h -> returns h P) ->
  returns (try_except_finally body handler final) P.
Proof.
  intros Hb Hh en w a w' E. unfold try_except_finally in E.
  destruct (body en (set_pending (interrupt_at en) w)) as [[b|e|] w1] eqn:E1;
    try discriminate.
  - destruct (final en (set_pending None w1)) as [[u|e|] w3];
      inversion E; subst. eapply Hb; eauto.
  - destruct (handler e) as [h|] eqn:Eh.
    + destruct (h en (set_pending None w1)) as [[b|e'|] w2] eqn:E2.
      * destruct (final en w2) as [[u|e''|] w3]; inversion E; subst.
        eapply Hh; eauto.
      * destruct (final en w2) as [[u|e''|] w3]; inversion E.
      * discriminate.
    + destruct (final en (set_pending None w1)) as [[u|e''|] w3];
        inversion E.
Qed.

(** ** Runs that are not interrupted *)

Lemma quiet_ret {A} en (a : A) (P : A -> Prop) : P a -> quiet en (ret a) P.
Proof. intros Ha w H. exists a, w. auto. Qed.

Lemma quiet_bind {A B} en (m : M A) (k : A -> M B) P1 P :
  quiet en m P1 -> (forall a, P1 a -> quiet en (k a) P) ->
  quiet en (bind m k) P.
Proof.
  intros Hm Hk w H. destruct (Hm w H) as (a & w1 & E & H1 & Ha).
  rewrite bind_eq, E. apply Hk; assumption.
Qed.

Lemma quiet_weaken {A} en (m : M A) (P P' : A -> Prop) :
  (forall a, P a -> P' a) -> quiet en m P -> quiet en m P'.
Proof.
  intros HP Hm w H. destruct (Hm w H) as (a & w1 & E & H1 & Ha).
  exists a, w1. auto.
Qed.

Lemma quiet_effect {A} en (f : env -> world -> event * A * world) :
  (forall w, pending (snd (f en w)) = pending w) ->
  quiet en (effect f) (fun _ => True).
Proof.
  intros Hf w H. unfold effect. rewrite H.
  specialize (Hf w). destruct (f en w) as [[e a] w']. simpl in *.
  exists a, (log e w'). split; [reflexivity|].
  split; [simpl; congruence | exact I].
Qed.

Lemma quiet_emit en e : quiet en (emit e) (fun _ => True).
Proof. apply quiet_effect. reflexivity. Qed.

Lemma quiet_for_fold {X S} en (xs : list X) (body : X -> S -> M S) acc :
  (forall x a, quiet en (body x a) (fun _ => True)) ->
  quiet en (for_fold xs acc body) (fun _ => True).
Proof.
  intros Hb. revert acc. induction xs as [|x xs IH]; intros acc; simpl.
  - apply quiet_ret. exact I.
  - eapply quiet_bind; [apply Hb|]. intros a _. apply IH.
Qed.

Lemma quiet_try {A} en (body : M A) handler final (P : A -> Prop) :
  interrupt_at en = None ->
  quiet en body P -> quiet en final (fun _ => True) ->
  quiet en (try_except_finally body handler final) P.
Proof.
  intros Hi Hb Hf w H. unfold try_except_finally. rewrite Hi.
  destruct (Hb (set_pending None w) eq_refl) as (a & w1 & E & H1 & Ha).
  rewrite E.
  destruct (Hf (set_pending None w1) eq_refl) as (u & w3 & E3 & H3 & _).
  rewrite E3. exists a, w3. auto.
Qed.

Lemma quiet_effect_value {A} en (f : env -> world -> event * A * world)
    (P : A -> Prop) :
  (forall w, pending (snd (f en w)) = pending w) ->
  (forall w, P (snd (fst (f en w)))) ->
  quiet en (effect f) P.
Proof.
  intros Hf HP w H. unfold effect. rewrite H.
  specialize (Hf w). specialize (HP w).
  destruct (f en w) as [[e a] w']. simpl in *.
  exists a, (log e w'). split; [reflexivity|].
  split; [simpl; congruence | exact HP].
Qed.

Lemma quiet_open en idx :
  quiet en (dwf_FDwfDeviceOpen idx) (fun opened => opened = device_opens en).
Proof. apply quiet_effect_value; reflexivity. Qed.





(** ** Runs that never diverge *)

Lemma halts_ret {A} (a : A) : halts (ret a).
Proof. intros en w. discriminate. Qed.

Lemma halts_bind {A B} (m : M A) (k : A -> M B) :
  halts m -> (forall a, halts (k a)) -> halts (bind m k).
Proof.
  intros Hm Hk en w. rewrite bind_eq. specialize (Hm en w).
  destruct (m en w) as [[a|e|] w1]; simpl in *.
  - apply Hk.
  - discriminate.
  - congruence.
Qed.

Lemma halts_effect {A} (f : env -> world -> event * A * world) :
  halts (effect f).
Proof.
  intros en w. unfold effect.
  destruct (pending w) as [[|k]|]; try discriminate;
    destruct (f en w) as [[e a] w']; discriminate.
Qed.

Lemma halts_for_fold {X S} (xs : list X) (body : X -> S -> M S) acc :
  (forall x a, halts (body x a)) -> halts (for_fold xs acc body).
Proof.
  intros Hb. revert acc. induction xs as [|x xs IH]; intros acc; simpl.
  - apply halts_ret.
  - apply halts_bind; auto.
Qed.

End Logic.

(* ================================================================== *)
(** * The voltage-divider reducers *)

Section Divider.
Import Py Dwf Run Logic.
Local Open Scope Q_scope.







End Divider.

(* ================================================================== *)
(** * Samples that fail the guard *)

Section GuardFailure.
Import Py Dwf Run Builtins Logic Instrument.
Local Open Scope Q_scope.

Lemma PC2_divider_none (g : PC2.globals) (V_in V_x : Q) :
  V_in <= V_x \/ V_x <= 0 -> PC2.divider g V_in V_x = None.
Proof.
  intros H. unfold PC2.divider.
  destruct H as [H|H]; apply Qlt_bool_false_iff in H; rewrite H.
  - reflexivity.
  - rewrite andb_false_r. reflexivity.
Qed.

Lemma Min1_divider_none (g : Min1.globals) (V_in V_x : Q) :
  V_in <= V_x -> Min1.divider g V_in V_x = None.
Proof.
  intros H. unfold Min1.divider.
  assert (E : Qle_bool (V_in - V_x) 0 = true).
  { apply Qle_bool_iff. unfold Qminus. rewrite <- (Qplus_opp_r V_x).
    apply Qplus_le_l. exact H. }
  rewrite E. reflexivity.
Qed.

Lemma PC2_sample_dropped (g : PC2.globals) (vin : Q) (i : nat)
    (acc : list Q) (en : env) (w : world) :
  pending w = None ->
  PC2.divider g vin (status_sample en (sample_reads w)) = None ->
  PC2.sample g vin i acc en w
  = (Ret acc, sampled (status_sample en (sample_reads w)) w).
Proof.
  intros Hp Hd. unfold PC2.sample.
  rewrite bind_eq. unfold dwf_FDwfAnalogInStatus_None at 1.
  unfold effect at 1. rewrite Hp.
  rewrite bind_eq. unfold dwf_FDwfAnalogInStatusSample at 1.
  unfold effect at 1. simpl pending. rewrite Hp.
  change (sample_reads (log (Driver (FDwfAnalogInStatus false None))
                         (count_poll w))) with (sample_reads w).
  rewrite Hd. reflexivity.
Qed.

(** C4, as stated, fails: with W1 at 1.65 V and a reading of 2 V the
    sample step of PC2.py makes its two driver calls and prints
    nothing. *)
Lemma guard_failure_is_silent : ~ guard_failure_reported.
Proof.
  intros H.
  specialize (H PC2.script 1.65 0%nat [] (all_samples 2)).
  destruct H as [text Hin].
  - left. vm_compute. discriminate.
  - vm_compute in Hin. destruct Hin as [E|[E|[]]]; discriminate.
Qed.

(** C4, amended.  A DC sample with [V_in <= V_x] or [V_x <= 0] yields
    no resistance; the sample step leaves the list of results as it
    was, makes its two driver calls and prints nothing, and the loop
    goes on with the remaining samples.  In min_1.py a pair of RMS
    values with [V_in <= V_x] yields no resistance; the script prints
    an error line and returns [None, None, None]. *)
Theorem guard_failure_drops_sample
    (g2 : PC2.globals) (g1 : Min1.globals) (V_in V_x : Q) :
  V_in <= V_x \/ V_x <= 0 ->
  PC2.divider g2 V_in V_x = None /\
  (forall (en : env) (w : world) (i : nat) (rest : list nat) (acc : list Q),
      pending w = None -> status_sample en (sample_reads w) = V_x ->
      PC2.sample g2 V_in i acc en w = (Ret acc, sampled V_x w) /\
      trace (sampled V_x w)
      = Driver (FDwfAnalogInStatusSample 0 V_x)
          :: Driver (FDwfAnalogInStatus false None) :: trace w /\
      for_fold (i :: rest) acc (PC2.sample g2 V_in) en w
      = for_fold rest acc (PC2.sample g2 V_in) en (sampled V_x w)) /\
  (V_in <= V_x ->
   Min1.divider g1 V_in V_x = None /\
   forall (np_sqrt : Q -> Q) (vin_array vx_array : list Q) (en : env)
          (w : world),
     pending w = None ->
     Min1.rms np_sqrt vin_array = Numpy.Float V_in ->
     Min1.rms np_sqrt vx_array = Numpy.Float V_x ->
     Min1.reduce np_sqrt g1 vin_array vx_array en w
     = (Ret None,
        log (Print "Error: Voltage across reference resistor is zero or negative. Check connections.") w)).
Proof.
  intros H. pose proof (PC2_divider_none g2 H) as Hd.
  split; [exact Hd|]. split.
  - intros en w i rest acc Hp Hs.
    assert (E : PC2.sample g2 V_in i acc en w = (Ret acc, sampled V_x w)).
    { rewrite <- Hs. apply PC2_sample_dropped; [exact Hp|].
      rewrite Hs. exact Hd. }
    split; [exact E|]. split; [reflexivity|].
    simpl for_fold. rewrite bind_eq, E. reflexivity.
  - intros Hle. pose proof (Min1_divider_none g1 Hle) as Hm.
    split; [exact Hm|].
    intros np_sqrt vin_array vx_array en w Hp E1 E2.
    unfold Min1.reduce. rewrite E1, E2, Hm.
    rewrite bind_eq. unfold print, emit, effect. rewrite Hp.
    destruct w; reflexivity.
Qed.

Lemma guard_failure_drops_sample_witness :
  PC2.divider PC2.script 1.65 2 = None /\
  (forall (en : env) (w : world) (i : nat) (rest : list nat) (acc : list Q),
      pending w = None -> status_sample en (sample_reads w) = 2 ->
      PC2.sample PC2.script 1.65 i acc en w = (Ret acc, sampled 2 w) /\
      trace (sampled 2 w)
      = Driver (FDwfAnalogInStatusSample 0 2)
          :: Driver (FDwfAnalogInStatus false None) :: trace w /\
      for_fold (i :: rest) acc (PC2.sample PC2.script 1.65) en w
      = for_fold rest acc (PC2.sample PC2.script 1.65) en (sampled 2 w)) /\
  (1.65 <= 2 ->
   Min1.divider Min1.script 1.65 2 = None /\
   forall (np_sqrt : Q -> Q) (vin_array vx_array : list Q) (en : env)
          (w : world),
     pending w = None ->
     Min1.rms np_sqrt vin_array = Numpy.Float 1.65 ->
     Min1.rms np_sqrt vx_array = Numpy.Float 2 ->
     Min1.reduce np_sqrt Min1.script vin_array vx_array en w
     = (Ret None,
        log (Print "Error: Voltage across reference resistor is zero or negative. Check connections.") w)).
Proof.
  apply (@guard_failure_drops_sample PC2.script Min1.script 1.65 2).
  left. vm_compute. discriminate.
Defined.

End GuardFailure.

(* ================================================================== *)
(** * The sweep over set-points (PC2.py) *)

Section Sweep.
Import Py Dwf Run Builtins Logic.
Local Open Scope Q_scope.

Lemma keys_setitem_fresh {V} (k : Q) (v : V) (d : dict V) :
  (forall k', In k' (keys d) -> Qeq_bool k' k = false) ->
  keys (setitem k v d) = keys d ++ [k].
Proof.
  induction d as [|[k0 v0] d IH]; intros H; simpl.
  - reflexivity.
  - rewrite (H k0) by (left; reflexivity). simpl.
    rewrite IH; [reflexivity|]. intros k' Hin. apply H. right. exact Hin.
Qed.

Lemma all_distinct_fresh (done : list Q) (x : Q) (rest : list Q) :
  all_distinct (done ++ x :: rest) = true ->
  forall k', In k' done -> Qeq_bool k' x = false.
Proof.
  induction done as [|k done IH]; intros H k' Hin; [destruct Hin|].
  simpl in H. apply andb_true_iff in H. destruct H as [H1 H2].
  destruct Hin as [->|Hin].
  - rewrite forallb_forall in H1.
    specialize (H1 x). rewrite negb_true_iff in H1. apply H1.
    apply in_or_app. right. left. reflexivity.
  - apply (IH H2 k' Hin).
Qed.

Ltac returns_steps :=
  repeat (eapply returns_bind; [apply returns_any | intros ? _]).

Lemma setpoint_returns (g : PC2.globals) (vin : Q) (d : dict (list Q)) :
  returns (PC2.setpoint g vin d)
          (fun d' => exists l, d' = setitem vin l d).
Proof.
  unfold PC2.setpoint. returns_steps.
  apply returns_ret. eexists. reflexivity.
Qed.

Lemma sweep_returns (g : PC2.globals) :
  all_distinct (PC2.W1_VOLTAGES g) = true ->
  returns (for_fold (PC2.W1_VOLTAGES g) [] (PC2.setpoint g))
          (fun d => keys d = PC2.W1_VOLTAGES g).
Proof.
  intros Hd.
  pose (Inv := fun (done : list Q) (d : dict (list Q)) =>
                 (exists rest, done ++ rest = PC2.W1_VOLTAGES g) ->
                 keys d = done).
  assert (G : returns (for_fold (PC2.W1_VOLTAGES g) [] (PC2.setpoint g))
                      (Inv (PC2.W1_VOLTAGES g))).
  { apply returns_for_fold.
    - intros _. reflexivity.
    - intros done x acc' Hacc en w d' w' E.
      destruct (setpoint_returns E) as [l ->].
      intros [rest Hrest]. rewrite <- app_assoc in Hrest. simpl in Hrest.
      rewrite keys_setitem_fresh.
      + rewrite Hacc; [reflexivity|]. exists (x :: rest). exact Hrest.
      + rewrite Hacc by (exists (x :: rest); exact Hrest).
        apply all_distinct_fresh with (rest := rest).
        rewrite Hrest. exact Hd. }
  intros en w d w' E. apply (G en w d w' E).
  exists []. apply app_nil_r.
Qed.

Lemma measure_returns (g : PC2.globals) :
  all_distinct (PC2.W1_VOLTAGES g) = true ->
  returns (PC2.measure_resistance_for_all_voltages g)
          (fun r => forall d, r = Some d -> keys d = PC2.W1_VOLTAGES g).
Proof.
  intros Hd. unfold PC2.measure_resistance_for_all_voltages.
  returns_steps.
  match goal with |- returns (if negb ?b then _ else _) _ => destruct b end;
    simpl.
  - apply returns_try.
    + eapply returns_bind; [apply (sweep_returns Hd)|].
      intros d Hk. apply returns_ret. intros d' E. inversion E; subst.
      exact Hk.
    + intros e h Eh. unfold on_KeyboardInterrupt in Eh.
      destruct (is_KeyboardInterrupt e); inversion Eh; subst.
      returns_steps. apply returns_ret. discriminate.
  - returns_steps. apply returns_ret. discriminate.
Qed.

Lemma sample_quiet en (g : PC2.globals) vin i acc :
  quiet en (PC2.sample g vin i acc) (fun _ => True).
Proof.
  unfold PC2.sample.
  eapply quiet_bind; [apply quiet_effect; reflexivity | intros _ _].
  eapply quiet_bind; [apply quiet_effect; reflexivity | intros v_out _].
  destruct (PC2.divider g vin v_out).
  - eapply quiet_bind; [apply quiet_emit | intros _ _].
    apply quiet_ret. exact I.
  - apply quiet_ret. exact I.
Qed.

Ltac quiet_steps :=
  repeat (eapply quiet_bind; [apply quiet_emit | intros _ _]).

Lemma setpoint_quiet en (g : PC2.globals) vin d :
  quiet en (PC2.setpoint g vin d) (fun _ => True).
Proof.
  unfold PC2.setpoint, print, dwf, sleep. quiet_steps.
  eapply quiet_bind.
  - apply quiet_for_fold. intros. apply sample_quiet.
  - intros l _. quiet_steps. apply quiet_ret. exact I.
Qed.

Lemma measure_quiet en (g : PC2.globals) :
  device_opens en = true -> interrupt_at en = None ->
  quiet en (PC2.measure_resistance_for_all_voltages g)
        (fun r => exists d, r = Some d).
Proof.
  intros Ho Hi. unfold PC2.measure_resistance_for_all_voltages.
  unfold print at 1. eapply quiet_bind; [apply quiet_emit | intros _ _].
  eapply quiet_bind; [apply quiet_open | intros opened ->].
  rewrite Ho. cbn [negb].
  apply quiet_try; [exact Hi| |].
  - eapply quiet_bind.
    + apply quiet_for_fold. intros. apply setpoint_quiet.
    + intros d _. apply quiet_ret. exists d. reflexivity.
  - unfold dwf, print. quiet_steps. apply quiet_emit.
Qed.

Lemma run_ret {A} (m : M A) en (a : A) :
  fst (run m en) = Ret a -> exists w', m en initial = (Ret a, w').
Proof.
  unfold run. destruct (m en initial) as [o w']. simpl.
  intros ->. exists w'. reflexivity.
Qed.

(** C6.  A completed run of the sweep of PC2.py over its set-points
    [[3.3/8, 3.3/4, 3.3/2, 3.3]] returns a dictionary with exactly four
    entries whose keys are the set-points [0.4125, 0.825, 1.65, 3.3] in
    the order of the list, whatever the samples were (so also when
    samples failed the guard); and a run completes whenever the device
    opens and the user does not interrupt. *)
Theorem sweep_results_keyed_in_order (en : env) :
  (forall d,
      fst (run (PC2.measure_resistance_for_all_voltages PC2.script) en)
      = Ret (Some d) ->
      keys d = PC2.W1_VOLTAGES PC2.script /\
      List.length d = 4%nat /\
      Forall2 Qeq (keys d) [0.4125; 0.825; 1.65; 3.3]) /\
  (device_opens en = true -> interrupt_at en = None ->
   exists d,
     fst (run (PC2.measure_resistance_for_all_voltages PC2.script) en)
     = Ret (Some d)).
Proof.
  split.
  - intros d E. apply run_ret in E. destruct E as [w' E].
    assert (K : keys d = PC2.W1_VOLTAGES PC2.script).
    { eapply (@measure_returns PC2.script); [reflexivity | exact E | reflexivity]. }
    split; [exact K|]. split.
    + rewrite <- (length_map fst). fold (keys d). rewrite K. reflexivity.
    + rewrite K. repeat constructor.
  - intros Ho Hi.
    destruct (@measure_quiet en PC2.script Ho Hi initial eq_refl)
      as (r & w' & E & _ & d & ->).
    exists d. unfold run. rewrite E. reflexivity.
Qed.

End Sweep.

Lemma sweep_results_keyed_in_order_witness :
  exists d,
    fst (Run.run (PC2.measure_resistance_for_all_voltages PC2.script)
                 (all_samples 0))
    = Py.Ret (Some d) /\
    Builtins.keys d = PC2.W1_VOLTAGES PC2.script /\
    List.length d = 4%nat /\
    Forall2 Qeq (Builtins.keys d) [0.4125; 0.825; 1.65; 3.3]%Q.
Proof.
  destruct (sweep_results_keyed_in_order (all_samples 0)) as [H1 H2].
  destruct (H2 eq_refl eq_refl) as [d E].
  exists d. split; [exact E | exact (H1 d E)].
Defined.

(* ================================================================== *)
(** * Decay-start detection (PC3_test_min.py) *)

Section DecayStart.
Import Py Dwf Run Builtins Logic.
Local Open Scope nat_scope.

Lemma slice_index_nat (len i : nat) :
  i <= len -> slice_index len (Z.of_nat i) = i.
Proof.
  intros H. unfold slice_index.
  destruct (Z.ltb_spec (Z.of_nat i) 0); lia.
Qed.

Lemma slice_from_nat {A} (a : list A) (i : nat) :
  i <= List.length a -> slice_from a (Z.of_nat i) = skipn i a.
Proof.
  intros H. unfold slice_from. rewrite slice_index_nat by exact H.
  reflexivity.
Qed.

Lemma for_break_first (v : list Q) (n a : nat) (i0 : option nat) (i : nat) :
  a <= i < a + n ->
  PC3Test.exceeds v i = true ->
  (forall j, a <= j < i -> PC3Test.exceeds v j = false) ->
  PC3Test.for_break (seq a n) v i0 = Some i.
Proof.
  revert a i0. induction n as [|n IH]; intros a i0 Hi He Hb; [lia|].
  simpl. destruct (Nat.eq_dec a i) as [->|Hne].
  - rewrite He. reflexivity.
  - rewrite (Hb a) by lia. apply IH; [lia | exact He |].
    intros j Hj. apply Hb. lia.
Qed.

Lemma for_break_flat (v : list Q) (n a : nat) (i0 : option nat) :
  (forall j, a <= j < a + n -> PC3Test.exceeds v j = false) ->
  PC3Test.for_break (seq a n) v i0
  = match n with O => i0 | S m => Some (a + m) end.
Proof.
  revert a i0. induction n as [|n IH]; intros a i0 Hb; [reflexivity|].
  simpl. rewrite (Hb a) by lia. rewrite IH by (intros j Hj; apply Hb; lia).
  destruct n; f_equal; lia.
Qed.

Lemma for_break_range (v : list Q) (n a : nat) (i0 : option nat) (i : nat) :
  PC3Test.for_break (seq a n) v i0 = Some i ->
  (n = 0 /\ i0 = Some i) \/ a <= i < a + n.
Proof.
  revert a i0. induction n as [|n IH]; intros a i0 H.
  - left. auto.
  - right. simpl in H. destruct (PC3Test.exceeds v a).
    + inversion H. lia.
    + apply IH in H. destruct H as [[-> H]|H]; [inversion H|]; lia.
Qed.

Lemma decay_start_in_range (v : list Q) (i : nat) :
  PC3Test.decay_start v = Some i -> i + 2 <= List.length v.
Proof.
  unfold PC3Test.decay_start. intros H. apply for_break_range in H.
  destruct H as [[_ H]|H]; [discriminate | lia].
Qed.

Lemma for_break_bound (v : list Q) (range : list nat) (j : nat) :
  PC3Test.for_break range v (Some j) <> None.
Proof.
  revert j. induction range as [|a range IH]; intros j; simpl.
  - discriminate.
  - destruct (PC3Test.exceeds v a); [discriminate | apply IH].
Qed.

Lemma decay_start_unbound (v : list Q) :
  PC3Test.decay_start v = None -> List.length v < 2.
Proof.
  unfold PC3Test.decay_start. intros H.
  destruct (List.length v - 1) as [|n] eqn:E; [lia|].
  exfalso. simpl in H. destruct (PC3Test.exceeds v 0); [discriminate|].
  exact (for_break_bound H).
Qed.

(** C3.  The loop of [plot_results] leaves in [i] the first index whose
    ratio [v_source[i]/v_source[i+1]] exceeds 1.000005, when there is
    one (so, for an array that is flat and then decreasing past the
    threshold, the index where the decrease begins).  When no index
    exceeds the threshold, [i] is the last index of the range,
    [len - 2], and the fit runs on the last two samples; when the array
    has fewer than two samples [i] is not bound and the function raises
    before any fit.  In every case the range handed to [curve_fit] has
    at least two samples: the fit is never run on an empty range. *)
Theorem decay_start_detection (v_source : list Q) :
  (forall i,
      i + 1 < List.length v_source ->
      PC3Test.exceeds v_source i = true ->
      (forall j, j < i -> PC3Test.exceeds v_source j = false) ->
      PC3Test.decay_start v_source = Some i) /\
  ((forall j, j + 1 < List.length v_source ->
              PC3Test.exceeds v_source j = false) ->
   2 <= List.length v_source ->
   PC3Test.decay_start v_source = Some (List.length v_source - 2)) /\
  (forall i,
      PC3Test.decay_start v_source = Some i ->
      2 <= List.length (slice_from v_source (Z.of_nat i)) /\
      forall t v_cap current,
        PC3Test.plot_results t v_source v_cap current
        = bind (scipy_curve_fit (slice_from t (Z.of_nat i))
                                (slice_from v_source (Z.of_nat i)))
               (fun params => ret params)) /\
  (PC3Test.decay_start v_source = None ->
   List.length v_source < 2 /\
   forall t v_cap current en w,
     PC3Test.plot_results t v_source v_cap current en w
     = (Raise (UnboundLocalError "i"), w)).
Proof.
  repeat split.
  - intros i Hi He Hb. unfold PC3Test.decay_start.
    apply for_break_first; [lia | exact He |].
    intros j Hj. apply Hb. lia.
  - intros Hflat Hlen. unfold PC3Test.decay_start.
    rewrite for_break_flat by (intros j Hj; apply Hflat; lia).
    destruct (List.length v_source - 1) as [|m] eqn:E; [lia|].
    f_equal. lia.
  - apply decay_start_in_range in H.
    rewrite slice_from_nat by lia. rewrite length_skipn. lia.
  - intros t v_cap current. unfold PC3Test.plot_results. rewrite H.
    reflexivity.
  - apply decay_start_unbound. exact H.
  - intros t v_cap current en w. unfold PC3Test.plot_results. rewrite H.
    reflexivity.
Qed.

Lemma decay_start_detection_witness :
  PC3Test.decay_start [2; 2; 2; 2; 1.5; 1; 0.5; 0.2]%Q = Some 3 /\
  PC3Test.decay_start [2; 2; 2; 2]%Q = Some 2 /\
  2 <= List.length (slice_from [2; 2; 2; 2]%Q 2).
Proof.
  split; [|split].
  - apply (proj1 (decay_start_detection [2; 2; 2; 2; 1.5; 1; 0.5; 0.2]%Q)).
    + simpl. lia.
    + reflexivity.
    + intros j Hj. destruct j as [|[|[|j]]]; [reflexivity ..| lia].
  - apply (proj1 (proj2 (decay_start_detection [2; 2; 2; 2]%Q))).
    + intros j Hj. simpl in Hj.
      destruct j as [|[|[|j]]]; [reflexivity ..| lia].
    + simpl. lia.
  - apply (proj1 (proj1 (proj2 (proj2
             (decay_start_detection [2; 2; 2; 2]%Q))) 2 eq_refl)).
Defined.

End DecayStart.

(* ================================================================== *)
(** * Current through a sense resistor (diode_character_test.py,
      PC3_test_min.py) *)

Section SenseCurrent.
Import Py Dwf Run Builtins Logic.
Local Open Scope Q_scope.

Lemma true_divide_finite (x r : Q) :
  ~ r == 0 -> Numpy.true_divide x r = Numpy.Float (x / r).
Proof.
  intros H. unfold Numpy.true_divide.
  destruct (Qeq_bool r 0) eqn:E; [|reflexivity].
  apply Qeq_bool_iff in E. contradiction.
Qed.

Lemma subtract_same_length (a b : list Q) :
  List.length a = List.length b ->
  Numpy.subtract a b = inr (map (fun p => fst p - snd p) (combine a b)).
Proof.
  intros H. unfold Numpy.subtract. rewrite H, Nat.eqb_refl. reflexivity.
Qed.

Lemma sense_current_elementwise (V_a V_b : list Q) (R_sense : Q) :
  0 < R_sense -> List.length V_a = List.length V_b ->
  let I := Numpy.divide_scalar
             (map (fun p => fst p - snd p) (combine V_a V_b)) R_sense in
  List.length I = List.length V_a /\
  forall k, (k < List.length V_a)%nat ->
    nth k I Numpy.NaN
    = Numpy.Float ((nth k V_a 0 - nth k V_b 0) / R_sense).
Proof.
  intros HR Hlen I. subst I. unfold Numpy.divide_scalar.
  assert (Hc : List.length (combine V_a V_b) = List.length V_a).
  { rewrite length_combine, <- Hlen. apply Nat.min_id. }
  split.
  - rewrite !length_map. exact Hc.
  - intros k Hk.
    rewrite nth_indep with (d' := Numpy.true_divide (0 - 0) R_sense)
      by (rewrite !length_map, Hc; exact Hk).
    rewrite (map_nth (fun x => Numpy.true_divide x R_sense)).
    change (0 - 0) with (fst (0, 0) - snd (0, 0)).
    rewrite (map_nth (fun p : Q * Q => fst p - snd p)).
    rewrite combine_nth by exact Hlen. simpl fst. simpl snd.
    apply true_divide_finite. intros E. rewrite E in HR.
    exact (Qlt_irrefl 0 HR).
Qed.

(** C9.  For two buffers of equal length and a sense resistance
    [R > 0], the current computed by diode_character_test.py (with
    [R_LIMIT]) and by PC3_test_min.py (with [R_SENSE_OHMS]) is an array
    of the same length whose k-th element is
    [(V_a[k] - V_b[k]) / R]. *)
Theorem sense_current_exact
    (gd : Diode.globals) (gp : PC3Test.globals) (V_a V_b : list Q) :
  0 < Diode.R_LIMIT gd -> 0 < PC3Test.R_SENSE_OHMS gp ->
  List.length V_a = List.length V_b ->
  (exists I,
      Diode.current gd V_a V_b = inr I /\
      List.length I = List.length V_a /\
      forall k, (k < List.length V_a)%nat ->
        nth k I Numpy.NaN
        = Numpy.Float ((nth k V_a 0 - nth k V_b 0) / Diode.R_LIMIT gd)) /\
  (exists I,
      PC3Test.current gp V_a V_b = inr I /\
      List.length I = List.length V_a /\
      forall k, (k < List.length V_a)%nat ->
        nth k I Numpy.NaN
        = Numpy.Float
            ((nth k V_a 0 - nth k V_b 0) / PC3Test.R_SENSE_OHMS gp)).
Proof.
  intros Hd Hp Hlen. split.
  - unfold Diode.current. rewrite subtract_same_length by exact Hlen.
    eexists. split; [reflexivity|].
    apply sense_current_elementwise; assumption.
  - unfold PC3Test.current. rewrite subtract_same_length by exact Hlen.
    eexists. split; [reflexivity|].
    apply sense_current_elementwise; assumption.
Qed.

Lemma sense_current_exact_witness :
  (exists I,
      Diode.current Diode.script [3.3; 2.5] [1.8; 1.7] = inr I /\
      List.length I = 2%nat /\
      forall k, (k < 2)%nat ->
        nth k I Numpy.NaN
        = Numpy.Float ((nth k [3.3; 2.5] 0 - nth k [1.8; 1.7] 0)
                       / Diode.R_LIMIT Diode.script)) /\
  (exists I,
      PC3Test.current PC3Test.script [3.3; 2.5] [1.8; 1.7] = inr I /\
      List.length I = 2%nat /\
      forall k, (k < 2)%nat ->
        nth k I Numpy.NaN
        = Numpy.Float ((nth k [3.3; 2.5] 0 - nth k [1.8; 1.7] 0)
                       / PC3Test.R_SENSE_OHMS PC3Test.script)).
Proof.
  apply (@sense_current_exact Diode.script PC3Test.script
           [3.3; 2.5] [1.8; 1.7]); reflexivity.
Defined.

End SenseCurrent.

(* ================================================================== *)
(** * The arrays returned by the diode sweep *)

Section DiodeArrays.
Import Py Dwf Run Builtins Logic.

Lemma slice_trim {A} (a : list A) :
  slice a 100 (-100) = skipn 100 (firstn (List.length a - 100) a).
Proof.
  unfold slice, slice_index.
  change (100 <? 0)%Z with false. change (-100 <? 0)%Z with true.
  cbv iota.
  replace (Z.to_nat (Z.min (Z.of_nat (List.length a))
                       (Z.max 0 (-100 + Z.of_nat (List.length a)))))
    with (List.length a - 100)%nat by lia.
  destruct (Nat.le_gt_cases 100 (List.length a)) as [H|H].
  - replace (Z.to_nat (Z.min (Z.of_nat (List.length a)) 100)) with 100%nat
      by lia.
    reflexivity.
  - replace (List.length a - 100)%nat with 0%nat by lia.
    simpl firstn. rewrite !skipn_nil. reflexivity.
Qed.



Lemma returns_StatusData (ch : Z) (n : nat) :
  returns (dwf_FDwfAnalogInStatusData ch n)
          (fun buf => List.length buf = n).
Proof.
  intros en w a w' E. unfold dwf_FDwfAnalogInStatusData, effect in E.
  destruct (pending w) as [[|k]|]; inversion E; subst;
    rewrite length_map, length_seq; reflexivity.
Qed.

Lemma returns_lift {A} (r : exn + A) :
  returns (lift r) (fun a => r = inr a).
Proof.
  intros en w a w' E. destruct r as [e|a0]; simpl in E; inversion E.
  reflexivity.
Qed.

Lemma current_length (g : Diode.globals) (v_in v_led : list Q)
    (i_led : list Numpy.float64) :
  List.length v_in = List.length v_led ->
  Diode.current g v_in v_led = inr i_led ->
  List.length i_led = List.length v_led.
Proof.
  intros Hlen E. unfold Diode.current in E.
  rewrite subtract_same_length in E by exact Hlen.
  inversion E; subst. unfold Numpy.divide_scalar.
  rewrite !length_map, length_combine, Hlen. apply Nat.min_id.
Qed.

Lemma returns_reduce (g : Diode.globals) (buffer_ch1 buffer_ch2 : list Q) :
  returns (Diode.reduce g buffer_ch1 buffer_ch2)
          (fun r => exists i_led,
               Diode.current g buffer_ch2 buffer_ch1 = inr i_led /\
               r = (slice buffer_ch1 100 (-100), slice i_led 100 (-100))).
Proof.
  unfold Diode.reduce.
  eapply returns_bind; [apply returns_lift | intros i_led E].
  apply returns_ret. exists i_led. auto.
Qed.

Lemma measure_led_returns (g : Diode.globals) :
  returns (Diode.measure_led_iv_curve g)
          (fun r => forall v i, r = Some (v, i) -> trimmed_iv g v i).
Proof.
  unfold Diode.measure_led_iv_curve.
  eapply returns_bind; [apply returns_any | intros ? _].
  eapply returns_bind; [apply returns_any | intros opened _].
  destruct opened; simpl.
  - apply returns_try.
    + repeat (eapply returns_bind;
              [first [apply returns_StatusData | apply returns_reduce
                     | apply returns_any]
              | intros ? ?]).
      apply returns_ret. intros v i Hr. inversion Hr; subst. clear Hr.
      match goal with
      | H : exists i_led, Diode.current g ?b2 ?b1 = inr i_led /\ _ |- _ =>
          destruct H as (i_led & Ec & Hr);
          assert (L1 : List.length b1 = Diode.BUFFER_SIZE g) by assumption;
          assert (L2 : List.length b2 = Diode.BUFFER_SIZE g) by assumption;
          exists b1, b2, i_led
      end.
      inversion Hr; subst.
      pose proof (current_length (eq_trans L2 (eq_sym L1)) Ec) as Li.
      rewrite L1 in Li.
      repeat split; try assumption.
      * rewrite slice_trim, L1. reflexivity.
      * rewrite slice_trim, Li. reflexivity.
    + intros e h Eh. unfold on_KeyboardInterrupt in Eh.
      destruct (is_KeyboardInterrupt e); inversion Eh; subst.
      eapply returns_bind; [apply returns_any | intros ? _].
      apply returns_ret. discriminate.
  - eapply returns_bind; [apply returns_any | intros ? _].
    apply returns_ret. discriminate.
Qed.




End DiodeArrays.


(* ================================================================== *)
(** * Mean and sample standard deviation *)

Section Statistics.
Import Logic.
Local Open Scope Q_scope.

Lemma sum_from (a : list Q) (z : Q) :
  fold_left Qplus a z == z + Textbook.total a.
Proof.
  revert z. induction a as [|x a IH]; intros z; simpl.
  - ring.
  - rewrite IH. ring.
Qed.

Lemma sum_total (a : list Q) : Numpy.sum a == Textbook.total a.
Proof. unfold Numpy.sum. rewrite sum_from. ring. Qed.

Lemma count_pos (a : list Q) : a <> [] -> 0 < Textbook.count a.
Proof.
  intros H. unfold Textbook.count. destruct a as [|x a]; [congruence|].
  unfold Qlt. simpl. lia.
Qed.

Lemma mean_finite (a : list Q) :
  a <> [] ->
  Numpy.mean a = Numpy.Float (Numpy.sum a / Textbook.count a).
Proof.
  intros H. unfold Numpy.mean. apply true_divide_finite.
  intros E. pose proof (count_pos H) as Hc. unfold Textbook.count in Hc.
  rewrite E in Hc. exact (Qlt_irrefl 0 Hc).
Qed.

Lemma total_squares_compat (a : list Q) (m m' : Q) :
  m == m' ->
  Textbook.total (Numpy.square (map (fun x => x - m) a))
  == Textbook.total (map (fun x => (x - m') * (x - m')) a).
Proof.
  intros E. induction a as [|x a IH]; simpl.
  - reflexivity.
  - rewrite IH, E. reflexivity.
Qed.

Lemma square_nonneg (y : Q) : 0 <= y * y.
Proof. nra. Qed.

Lemma total_squares_nonneg (a : list Q) (m : Q) :
  0 <= Textbook.total (map (fun x => (x - m) * (x - m)) a).
Proof.
  induction a as [|x a IH]; simpl.
  - apply Qle_refl.
  - replace 0 with (0 + 0) by reflexivity.
    apply Qplus_le_compat; [apply square_nonneg | exact IH].
Qed.

Lemma count_minus_one (a : list Q) :
  a <> [] ->
  inject_Z (Z.of_nat (List.length a - 1)) == Textbook.count a - 1.
Proof.
  intros H. unfold Textbook.count.
  destruct a as [|x a]; [congruence|].
  replace (Z.of_nat (List.length (x :: a) - 1))
    with (Z.of_nat (List.length (x :: a)) - 1)%Z by (simpl List.length; lia).
  generalize (Z.of_nat (List.length (x :: a))). intros z.
  unfold Qeq, Qminus, Qplus, Qopp, inject_Z. simpl. lia.
Qed.

Lemma mean_is_arithmetic_mean (a : list Q) :
  Numpy.sum a / Textbook.count a == Textbook.arithmetic_mean a.
Proof. unfold Textbook.arithmetic_mean. rewrite sum_total. reflexivity. Qed.

Lemma var_finite (a : list Q) :
  (2 <= List.length a)%nat ->
  exists v, Numpy.var a 1 = Numpy.Float v /\
            v == Textbook.sample_variance a /\ 0 <= v.
Proof.
  intros Hlen.
  assert (Hne : a <> []) by (intros ->; simpl in Hlen; lia).
  unfold Numpy.var. rewrite (mean_finite Hne).
  assert (Hd : 0 < Textbook.count a - 1).
  { unfold Textbook.count.
    assert (Hz : (2 <= Z.of_nat (List.length a))%Z) by lia.
    revert Hz. generalize (Z.of_nat (List.length a)). intros z Hz.
    unfold Qlt, Qminus, Qplus, Qopp, inject_Z. simpl. lia. }
  rewrite true_divide_finite.
  2:{ rewrite (count_minus_one Hne). intros E. rewrite E in Hd.
      exact (Qlt_irrefl 0 Hd). }
  eexists. split; [reflexivity|].
  assert (E : Numpy.sum (Numpy.square
                (map (fun x => x - Numpy.sum a / Textbook.count a) a))
              / inject_Z (Z.of_nat (List.length a - 1))
              == Textbook.sample_variance a).
  { unfold Textbook.sample_variance.
    rewrite sum_total, (count_minus_one Hne).
    rewrite (total_squares_compat a (mean_is_arithmetic_mean a)).
    reflexivity. }
  split; [exact E|]. rewrite E. unfold Textbook.sample_variance.
  apply Qle_shift_div_l; [exact Hd|]. rewrite Qmult_0_l.
  apply total_squares_nonneg.
Qed.

Lemma var_of_one (x : Q) : Numpy.var [x] 1 = Numpy.NaN.
Proof.
  unfold Numpy.var. rewrite mean_finite by discriminate.
  simpl List.length. simpl Nat.sub. unfold Numpy.true_divide.
  change (Qeq_bool (inject_Z (Z.of_nat 0)) 0) with true. cbv iota.
  assert (E : Numpy.sum (Numpy.square
                (map (fun y => y - Numpy.sum [x] / Textbook.count [x]) [x]))
              == 0).
  { unfold Numpy.sum, Textbook.count. simpl. field. }
  assert (H1 : Qlt_bool 0 (Numpy.sum (Numpy.square
                (map (fun y => y - Numpy.sum [x] / Textbook.count [x]) [x])))
               = false).
  { apply Qlt_bool_false_iff. rewrite E. apply Qle_refl. }
  assert (H2 : Qlt_bool (Numpy.sum (Numpy.square
                (map (fun y => y - Numpy.sum [x] / Textbook.count [x]) [x]))) 0
               = false).
  { apply Qlt_bool_false_iff. rewrite E. apply Qle_refl. }
  rewrite H1, H2. reflexivity.
Qed.

(** C7.  For a non-empty sequence of samples the statistics of the
    histogram scripts are the arithmetic mean and, from two samples on,
    the Bessel-corrected sample standard deviation (the non-negative
    square root of the squared deviations from the mean over n - 1);
    for a single sample that deviation is not a number.  On
    [1.0, 2.0, 3.0, 4.0, 5.0] the mean is 3.0 and the standard deviation
    is sqrt(2.5), between 1.5811 and 1.5812. *)
Theorem statistics_mean_and_sample_std :
  (forall data, data <> [] ->
     exists mean,
       fst (Histogram.statistics data) = Numpy.Float mean /\
       mean == Textbook.arithmetic_mean data) /\
  (forall data, (2 <= List.length data)%nat ->
     exists std_dev,
       snd (Histogram.statistics data) = Some std_dev /\
       (0 <= std_dev)%R /\
       (std_dev * std_dev = Q2R (Textbook.sample_variance data))%R) /\
  (forall x, snd (Histogram.statistics [x]) = None) /\
  (exists mean std_dev,
     Histogram.statistics [1.0; 2.0; 3.0; 4.0; 5.0]
     = (Numpy.Float mean, Some std_dev) /\
     mean == 3.0 /\
     std_dev = sqrt (5 / 2)%R /\
     (15811 / 10000 < std_dev < 15812 / 10000)%R).
Proof.
  split; [|split; [|split]].
  - intros data Hne. unfold Histogram.statistics. simpl fst.
    rewrite (mean_finite Hne). eexists. split; [reflexivity|].
    apply mean_is_arithmetic_mean.
  - intros data Hlen. unfold Histogram.statistics, Histogram.std. simpl snd.
    destruct (var_finite Hlen) as (v & -> & Ev & Hv).
    eexists. split; [reflexivity|]. split.
    + apply sqrt_pos.
    + rewrite sqrt_sqrt.
      * apply Qeq_eqR. exact Ev.
      * replace 0%R with (Q2R 0) by (unfold Q2R; simpl; lra).
        apply Qle_Rle. exact Hv.
  - intros x. unfold Histogram.statistics, Histogram.std. simpl snd.
    rewrite var_of_one. reflexivity.
  - unfold Histogram.statistics, Histogram.std.
    remember (Numpy.mean [1.0; 2.0; 3.0; 4.0; 5.0]) as m eqn:Em.
    remember (Numpy.var [1.0; 2.0; 3.0; 4.0; 5.0] 1) as v eqn:Es.
    vm_compute in Em. vm_compute in Es. subst m v.
    eexists. eexists. split; [reflexivity|].
    split; [reflexivity|].
    match goal with
    | |- sqrt (Q2R ?q) = _ /\ _ =>
        assert (Ev : Q2R q = (5 / 2)%R) by (unfold Q2R; simpl; lra)
    end.
    rewrite Ev. split; [reflexivity|]. split.
    + rewrite <- (sqrt_square (15811 / 10000)) by lra.
      apply sqrt_lt_1_alt. lra.
    + rewrite <- (sqrt_square (15812 / 10000)) by lra.
      apply sqrt_lt_1_alt. lra.
Qed.

End Statistics.

(* ================================================================== *)
(** * The buffer is read only after the device reported done *)

Section ReadAfterDone.
Import Py Dwf Run Builtins Logic Acquisition.

(** ** The check on a world's trace is sound for the property *)

Lemma reads_guarded_suffix (d : Z) (l1 l2 : list event) :
  reads_guarded d (l1 ++ l2) = true -> reads_guarded d l2 = true.
Proof.
  induction l1 as [|e l1 IH]; intros H; [exact H|].
  apply IH. simpl in H.
  destruct e as [c| | | |]; try exact H.
  destruct c; try exact H.
  apply andb_true_iff in H. apply H.
Qed.

Lemma done_seen_split (d : Z) (l : list event) :
  done_seen d l = true ->
  exists between fRead before,
    l = between ++ Driver (FDwfAnalogInStatus fRead (Some d)) :: before /\
    forallb (fun e => negb (is_poll_or_arm e)) between = true.
Proof.
  induction l as [|e l IH]; intros H; [discriminate|].
  assert (Hrec : is_poll_or_arm e = false -> done_seen d l = true ->
                 exists between fRead before,
                   e :: l = between
                            ++ Driver (FDwfAnalogInStatus fRead (Some d))
                            :: before /\
                   forallb (fun e => negb (is_poll_or_arm e)) between = true).
  { intros He Hl. destruct (IH Hl) as (bt & fR & bf & -> & Hall).
    exists (e :: bt), fR, bf. split; [reflexivity|].
    simpl. rewrite He, Hall. reflexivity. }
  destruct e as [c| | | |]; try (apply Hrec; [reflexivity | exact H]).
  destruct c; try (apply Hrec; [reflexivity | exact H]).
  - discriminate.
  - simpl in H. destruct sts as [s|]; [|discriminate].
    apply Z.eqb_eq in H. subst s.
    exists [], fRead, l. split; reflexivity.
Qed.

Lemma reads_guarded_sound (d : Z) (tr : list event) :
  reads_guarded d tr = true -> read_only_after_done d (rev tr).
Proof.
  intros H pre ch n post E.
  assert (E' : tr = rev post ++ Driver (FDwfAnalogInStatusData ch n) :: rev pre).
  { rewrite <- (rev_involutive tr), E, rev_app_distr. simpl.
    rewrite <- app_assoc. reflexivity. }
  rewrite E' in H. apply reads_guarded_suffix in H. simpl in H.
  apply andb_true_iff in H. destruct H as [H _].
  destruct (done_seen_split H) as (bt & fR & bf & Ebf & Hall).
  exists (rev bf), fR, (rev bt). split.
  - rewrite <- (rev_involutive pre), Ebf, rev_app_distr. simpl.
    rewrite <- app_assoc. reflexivity.
  - rewrite forallb_forall in *. intros e He. apply Hall.
    apply in_rev. exact He.
Qed.

(** ** A discipline for programs *)

Section Guarded.
Variable en : env.
Variable done : Z.

Lemma g_ret {A} (a : A) (b : bool) (B : A -> bool) :
  (B a = true -> b = true) -> guarded en done (ret a) b B.
Proof. intros H w Hok Hb. simpl. split; [exact Hok | auto]. Qed.

Lemma g_raise {A} (e : exn) (b : bool) (B : A -> bool) :
  guarded en done (raise e) b B.
Proof. intros w Hok Hb. simpl. split; [exact Hok | exact I]. Qed.

Lemma g_bind {A C} (m : M A) (k : A -> M C) b B1 B :
  guarded en done m b B1 -> (forall a, guarded en done (k a) (B1 a) B) ->
  guarded en done (bind m k) b B.
Proof.
  intros Hm Hk w Hok Hb. rewrite bind_eq.
  destruct (Hm w Hok Hb) as [H1 H2].
  destruct (m en w) as [[a|e|] w1]; simpl in *.
  - apply Hk; assumption.
  - split; [exact H1 | exact I].
  - split; [exact H1 | exact I].
Qed.

Lemma g_weaken {A} (m : M A) (b b' : bool) (B B' : A -> bool) :
  (b = true -> b' = true) -> (forall a, B' a = true -> B a = true) ->
  guarded en done m b B -> guarded en done m b' B'.
Proof.
  intros Hb HB Hm w Hok Hb'. destruct (Hm w Hok) as [H1 H2]; [auto|].
  split; [exact H1|]. destruct (fst (m en w)); auto.
Qed.

Lemma g_effect {A} (f : env -> world -> event * A * world) b (B : A -> bool) :
  (forall w, trace (snd (f en w)) = trace w) ->
  (forall w,
      reads_guarded done (trace w) = true ->
      (b = true -> done_seen done (trace w) = true) ->
      reads_guarded done (fst (fst (f en w)) :: trace w) = true /\
      (B (snd (fst (f en w))) = true ->
       done_seen done (fst (fst (f en w)) :: trace w) = true)) ->
  guarded en done (effect f) b B.
Proof.
  intros Ht Hf w Hok Hb. unfold effect.
  specialize (Ht w). specialize (Hf w Hok Hb).
  destruct (pending w) as [[|k]|].
  - simpl. split; [exact Hok | exact I].
  - destruct (f en w) as [[e a] w']. simpl in *. rewrite Ht. exact Hf.
  - destruct (f en w) as [[e a] w']. simpl in *. rewrite Ht. exact Hf.
Qed.

Lemma neutral_step (e : event) (tr : list event) :
  neutral e = true ->
  reads_guarded done (e :: tr) = reads_guarded done tr /\
  done_seen done (e :: tr) = done_seen done tr.
Proof.
  intros H. destruct e as [c| | | |]; try (split; reflexivity).
  destruct c; try discriminate; split; reflexivity.
Qed.

Lemma g_neutral {A} (f : env -> world -> event * A * world) b :
  (forall w, trace (snd (f en w)) = trace w) ->
  (forall w, neutral (fst (fst (f en w))) = true) ->
  guarded en done (effect f) b (fun _ => b).
Proof.
  intros Ht Hn. apply g_effect; [exact Ht|].
  intros w Hok Hb. destruct (neutral_step (trace w) (Hn w)) as [-> ->].
  auto.
Qed.

Lemma g_emit (e : event) b :
  neutral e = true -> guarded en done (emit e) b (fun _ => b).
Proof. intros H. apply g_neutral; [reflexivity | intros; exact H]. Qed.

Lemma g_arm (reconfigure start : bool) b :
  guarded en done (emit (Driver (FDwfAnalogInConfigure reconfigure start))) b
          (fun _ => false).
Proof.
  apply g_effect; [reflexivity|]. intros w Hok Hb. simpl.
  split; [exact Hok | discriminate].
Qed.

Lemma g_open idx b : guarded en done (dwf_FDwfDeviceOpen idx) b (fun _ => b).
Proof. apply g_neutral; reflexivity. Qed.

Lemma g_sample ch b :
  guarded en done (dwf_FDwfAnalogInStatusSample ch) b (fun _ => b).
Proof. apply g_neutral; reflexivity. Qed.

Lemma g_status_None fRead b :
  guarded en done (dwf_FDwfAnalogInStatus_None fRead) b (fun _ => false).
Proof.
  apply g_effect; [reflexivity|]. intros w Hok Hb. simpl.
  split; [exact Hok | discriminate].
Qed.

Lemma g_status fRead b :
  guarded en done (dwf_FDwfAnalogInStatus fRead) b (fun sts => Z.eqb sts done).
Proof.
  apply g_effect; [reflexivity|]. intros w Hok Hb. simpl.
  split; [exact Hok | auto].
Qed.

Lemma g_data ch n :
  guarded en done (dwf_FDwfAnalogInStatusData ch n) true (fun _ => true).
Proof.
  apply g_effect; [reflexivity|]. intros w Hok Hb. simpl.
  rewrite Hok, (Hb eq_refl). auto.
Qed.

Lemma g_lift {A} (r : exn + A) b : guarded en done (lift r) b (fun _ => b).
Proof.
  destruct r; simpl; [apply g_raise | apply g_ret; auto].
Qed.

Lemma g_truediv x y b : guarded en done (truediv x y) b (fun _ => b).
Proof.
  unfold truediv. destruct (Qeq_bool y 0); [apply g_raise | apply g_ret; auto].
Qed.

Lemma g_load_local {A} name (v : option A) b :
  guarded en done (load_local name v) b (fun _ => b).
Proof.
  destruct v; simpl; [apply g_ret; auto | apply g_raise].
Qed.

Lemma g_curve_fit xdata ydata b :
  guarded en done (scipy_curve_fit xdata ydata) b (fun _ => b).
Proof.
  unfold scipy_curve_fit. eapply g_bind.
  - apply g_neutral with (b := b); reflexivity.
  - intros r. apply g_lift.
Qed.

Lemma g_poll (fuel : nat) fRead dt b :
  guarded en done (poll_until fuel fRead done dt) b (fun _ => true).
Proof.
  revert b. induction fuel as [|fuel IH]; intros b.
  - intros w Hok Hb. simpl. split; [exact Hok | exact I].
  - simpl. eapply g_bind; [apply g_status|].
    intros sts. simpl. destruct (Z.eqb sts done) eqn:E.
    + apply g_ret. auto.
    + eapply g_bind; [apply g_emit; reflexivity|]. intros u. apply IH.
Qed.

Lemma g_for_fold {X S} (xs : list X) (body : X -> S -> M S) acc :
  (forall x a, guarded en done (body x a) false (fun _ => false)) ->
  guarded en done (for_fold xs acc body) false (fun _ => false).
Proof.
  intros Hb. revert acc. induction xs as [|x xs IH]; intros acc; simpl.
  - apply g_ret. auto.
  - eapply g_bind; [apply Hb|]. intros a. apply IH.
Qed.

Lemma g_try {A} (body : M A) handler final b :
  guarded en done body false (fun _ => false) ->
  (forall e h, handler e = Some h -> guarded en done h false (fun _ => false)) ->
  guarded en done final false (fun _ => false) ->
  guarded en done (try_except_finally body handler final) b (fun _ => false).
Proof.
  intros Hbody Hh Hf w Hok _. unfold try_except_finally.
  destruct (Hbody (set_pending (interrupt_at en) w) Hok) as [H1 _];
    [discriminate|].
  destruct (body en (set_pending (interrupt_at en) w)) as [[a|e|] w1];
    simpl in H1.
  - destruct (Hf (set_pending None w1) H1) as [H3 _]; [discriminate|].
    destruct (final en (set_pending None w1)) as [[u|e|] w3]; simpl in *;
      split; auto; discriminate.
  - assert (G : forall o2 w2,
               reads_guarded done (trace w2) = true ->
               let r := match o2 : outcome A with
                        | Diverge => (Diverge, w2)
                        | _ => match final en w2 with
                               | (Ret _, w3) => (o2, w3)
                               | (Raise e', w3) => (Raise e', w3)
                               | (Diverge, w3) => (Diverge, w3)
                               end
                        end in
               reads_guarded done (trace (snd r)) = true /\
               match fst r with
               | Ret a => false = true ->
                          done_seen done (trace (snd r)) = true
               | _ => True
               end).
    { intros o2 w2 H2. destruct o2 as [a|e'|]; simpl.
      - destruct (Hf w2 H2) as [H3 _]; [discriminate|].
        destruct (final en w2) as [[u|e''|] w3]; simpl in *;
          split; auto; discriminate.
      - destruct (Hf w2 H2) as [H3 _]; [discriminate|].
        destruct (final en w2) as [[u|e''|] w3]; simpl in *; split; auto.
      - split; auto. }
    destruct (handler e) as [h|] eqn:Eh.
    + destruct (Hh e h Eh (set_pending None w1) H1) as [H2 _];
        [discriminate|].
      destruct (h en (set_pending None w1)) as [o2 w2]. simpl in H2.
      apply (G o2 w2 H2).
    + apply (G (Raise e) (set_pending None w1) H1).
  - simpl. split; [exact H1 | exact I].
Qed.

Lemma g_try_return {L A} (body : M L) handler (final : option L -> M A) b :
  guarded en done body false (fun _ => false) ->
  (forall e h, handler e = Some h -> guarded en done h false (fun _ => false)) ->
  (forall l, guarded en done (final l) false (fun _ => false)) ->
  guarded en done (try_except_finally_return body handler final) b (fun _ => false).
Proof.
  intros Hbody Hh Hf w Hok _. unfold try_except_finally_return.
  destruct (Hbody (set_pending (interrupt_at en) w) Hok) as [H1 _];
    [discriminate|].
  destruct (body en (set_pending (interrupt_at en) w)) as [[a|e|] w1];
    simpl in H1.
  - apply (Hf (Some a)); [exact H1 | discriminate].
  - destruct (handler e) as [h|] eqn:Eh.
    + destruct (Hh e h Eh (set_pending None w1) H1) as [H2 _];
        [discriminate|].
      destruct (h en (set_pending None w1)) as [[l|e'|] w2]; simpl in H2.
      * apply (Hf (Some l)); [exact H2 | discriminate].
      * apply (Hf None); [exact H2 | discriminate].
      * simpl. split; [exact H2 | exact I].
    + apply (Hf None); [exact H1 | discriminate].
  - simpl. split; [exact H1 | exact I].
Qed.

End Guarded.

Lemma g_while (en : env) (sel : dwfconstants -> Z) fRead dt b :
  guarded en (sel (constants en)) (while_True_poll fRead sel dt) b
          (fun _ => true).
Proof.
  intros w Hok Hb. unfold while_True_poll.
  exact (@g_poll en (sel (constants en)) (poll_bound en) fRead dt b w Hok Hb).
Qed.

(** ** The four buffered scripts *)

Ltac guard_step :=
  first [ apply g_while | apply g_data | apply g_arm | apply g_status_None
        | apply g_open | apply g_sample | apply g_curve_fit | apply g_lift
        | apply g_truediv | apply g_load_local
        | (apply g_emit; reflexivity) ].

Ltac guard_steps :=
  unfold dwf, print, sleep;
  repeat (eapply g_bind; [guard_step | intros ?; cbv beta]).

Ltac guard_ret := apply g_ret; cbv beta; discriminate.

Ltac guard_handler :=
  let e := fresh "e" in
  let h := fresh "h" in
  let Eh := fresh "Eh" in
  intros e h Eh; unfold on_KeyboardInterrupt, on_Exception in Eh;
  destruct e; simpl in Eh; inversion Eh; subst;
  guard_steps; guard_ret.

Lemma g_min1_reduce en d np_sqrt (g : Min1.globals) vin vx b :
  guarded en d (Min1.reduce np_sqrt g vin vx) b (fun _ => false).
Proof.
  unfold Min1.reduce.
  destruct (Min1.rms np_sqrt vin); try guard_ret;
    destruct (Min1.rms np_sqrt vx); try guard_ret.
  destruct (Min1.divider g q q0); [guard_ret|].
  guard_steps. guard_ret.
Qed.

Lemma g_min1 en np_sqrt (g : Min1.globals) :
  guarded en (DwfStateDone (constants en))
          (Min1.measure_resistance np_sqrt g) false (fun _ => false).
Proof.
  unfold Min1.measure_resistance. guard_steps.
  match goal with |- guarded _ _ (if negb ?o then _ else _) _ _ =>
    destruct o end; cbn [negb].
  - apply g_try.
    + guard_steps. apply g_min1_reduce.
    + guard_handler.
    + guard_steps. apply g_emit. reflexivity.
  - guard_steps. guard_ret.
Qed.

Lemma g_diode_reduce en d (g : Diode.globals) b1 b2 b :
  guarded en d (Diode.reduce g b1 b2) b (fun _ => false).
Proof. unfold Diode.reduce. guard_steps. guard_ret. Qed.

Lemma g_diode en (g : Diode.globals) :
  guarded en (stsDone (constants en))
          (Diode.measure_led_iv_curve g) false (fun _ => false).
Proof.
  unfold Diode.measure_led_iv_curve. guard_steps.
  match goal with |- guarded _ _ (if negb ?o then _ else _) _ _ =>
    destruct o end; cbn [negb].
  - apply g_try.
    + guard_steps.
      eapply g_bind; [apply g_diode_reduce | intros r; guard_ret].
    + guard_handler.
    + guard_steps. apply g_emit. reflexivity.
  - guard_steps. guard_ret.
Qed.

Lemma g_plot_results en d t v_source v_cap cur b :
  guarded en d (PC3Test.plot_results t v_source v_cap cur) b (fun _ => false).
Proof. unfold PC3Test.plot_results. guard_steps. guard_ret. Qed.

Lemma g_pc3test en (g : PC3Test.globals) :
  guarded en (DwfStateDone (constants en))
          (PC3Test.measure_rc_circuit g) false (fun _ => false).
Proof.
  unfold PC3Test.measure_rc_circuit. guard_steps.
  match goal with |- guarded _ _ (if negb ?o then _ else _) _ _ =>
    destruct o end; cbn [negb].
  - apply g_try_return.
    + guard_steps.
      eapply g_bind; [apply g_plot_results | intros r; guard_ret].
    + guard_handler.
    + intros l. guard_steps. guard_ret.
  - guard_steps. guard_ret.
Qed.

Lemma g_opamp_step en (g : Opamp.globals) v data :
  guarded en (DwfStateDone (constants en))
          (Opamp.sweep_step g v data) false (fun _ => false).
Proof.
  unfold Opamp.sweep_step. destruct data as [vin_data vout_data].
  guard_steps. guard_ret.
Qed.

Lemma g_opamp en (g : Opamp.globals) :
  guarded en (DwfStateDone (constants en))
          (Opamp.get_amplifier_transfer_curve g) false (fun _ => false).
Proof.
  unfold Opamp.get_amplifier_transfer_curve. guard_steps.
  match goal with |- guarded _ _ (if negb ?o then _ else _) _ _ =>
    destruct o end; cbn [negb].
  - eapply g_bind.
    + apply g_try.
      * guard_steps.
        eapply g_bind; [apply g_for_fold; intros; apply g_opamp_step|].
        intros data. guard_steps. guard_ret.
      * guard_handler.
      * unfold Opamp.cleanup. guard_steps. apply g_emit. reflexivity.
    + intros [[vin vout]|]; cbv beta.
      * apply g_emit. reflexivity.
      * guard_ret.
  - guard_steps. guard_ret.
Qed.

Lemma run_guarded {A} en d (m : M A) :
  guarded en d m false (fun _ => false) ->
  read_only_after_done d (snd (run m en)).
Proof.
  intros H. unfold run.
  destruct (H initial eq_refl) as [H1 _]; [discriminate|].
  destruct (m en initial) as [o w]. simpl in *.
  apply reads_guarded_sound. exact H1.
Qed.

(** C8.  In every run of the four scripts that acquire into a buffer
    (min_1.py, diode_character_test.py, PC3_test_min.py, opamp.py),
    whatever the device answers, wherever the user interrupts and
    however long the run is followed, each [FDwfAnalogInStatusData]
    call comes after an [FDwfAnalogInStatus] poll that answered the
    done state, with no other poll and no re-arming of the acquisition
    in between. *)
Theorem buffer_read_only_after_done (en : env) :
  (forall np_sqrt g,
      read_only_after_done (DwfStateDone (constants en))
        (snd (run (Min1.measure_resistance np_sqrt g) en))) /\
  (forall g,
      read_only_after_done (stsDone (constants en))
        (snd (run (Diode.measure_led_iv_curve g) en))) /\
  (forall g,
      read_only_after_done (DwfStateDone (constants en))
        (snd (run (PC3Test.measure_rc_circuit g) en))) /\
  (forall g,
      read_only_after_done (DwfStateDone (constants en))
        (snd (run (Opamp.get_amplifier_transfer_curve g) en))).
Proof.
  repeat split; intros.
  - apply run_guarded, g_min1.
  - apply run_guarded, g_diode.
  - apply run_guarded, g_pc3test.
  - apply run_guarded, g_opamp.
Qed.

End ReadAfterDone.

(* ================================================================== *)
(** * Interruption of the RC measurement *)

Section Interruption.
Import Py Dwf Run Builtins Logic Instrument.

Lemma after_snoc (tr : list event) (e : event) :
  after (tr ++ [e]) = observe (after tr) e.
Proof. unfold after. rewrite fold_left_app. reflexivity. Qed.

Lemma last_call_snoc (tr : list event) (e : event) :
  last_call (tr ++ [e])
  = match e with Driver c => Some c | _ => last_call tr end.
Proof. unfold last_call. rewrite fold_left_app. reflexivity. Qed.

Lemma rc_never_returns_None (g : PC3Test.globals) (en : env) :
  device_opens en = true ->
  fst (run (PC3Test.measure_rc_circuit g) en) <> Ret None.
Proof.
  intros Ho. unfold run, PC3Test.measure_rc_circuit.
  rewrite bind_eq. unfold dwf_FDwfDeviceOpen at 1. unfold effect at 1.
  simpl pending. rewrite Ho. cbn [negb].
  unfold try_except_finally_return.
  match goal with
  | |- context [let '(o, w1) := ?body en ?w in _] =>
      destruct (body en w) as [[l|e|] w1]
  end.
  - destruct l; simpl; discriminate.
  - unfold on_KeyboardInterrupt. destruct e; simpl; discriminate.
  - simpl. discriminate.
Qed.

(** C5, on PC3_test_min.py.  On the bench device, wherever the
    interruption falls in the [try] body (configuration, polling,
    reading, fit), [measure_rc_circuit] catches it, closes the device,
    and then raises [UnboundLocalError] from [return tmp]; once the
    device is open the function never returns [None].  The same
    interruptions of [measure_resistance] in min_1.py end in
    [None, None, None]. *)
Theorem interrupted_rc_measurement_raises :
  Forall (fun k =>
            fst (run (PC3Test.measure_rc_circuit small_rc) (bench (Some k)))
            = Raise (UnboundLocalError "tmp") /\
            last_call
              (snd (run (PC3Test.measure_rc_circuit small_rc)
                        (bench (Some k))))
            = Some FDwfDeviceCloseAll)
         (seq 0 30) /\
  (forall g en,
      device_opens en = true ->
      fst (run (PC3Test.measure_rc_circuit g) en) <> Ret None) /\
  Forall (fun k =>
            fst (run (Min1.measure_resistance (fun q => q) small_min1)
                     (bench (Some k)))
            = Ret None)
         (seq 0 29).
Proof.
  split; [|split].
  - simpl seq. repeat (constructor; [split; vm_compute; reflexivity|]).
    constructor.
  - apply rc_never_returns_None.
  - simpl seq. repeat (constructor; [vm_compute; reflexivity|]).
    constructor.
Qed.

End Interruption.

(* ================================================================== *)
(** * The state left behind on exit *)

Section Cleanup.
Import Py Dwf Run Builtins Logic Instrument.

(** C2, as stated, fails: after a complete sweep of PC2.py the last
    command to the waveform generator is the start of the last
    set-point; the [finally] block only closes the device. *)
Lemma completed_sweep_leaves_output_started : ~ every_exit_commands_idle.
Proof.
  intros H. specialize (H PC2.script (all_samples 0)).
  vm_compute in H. discriminate.
Qed.

Lemma halts_try {A} (body : M A) handler final :
  halts body -> (forall e h, handler e = Some h -> halts h) -> halts final ->
  halts (try_except_finally body handler final).
Proof.
  intros Hb Hh Hf en w. unfold try_except_finally.
  specialize (Hb en (set_pending (interrupt_at en) w)).
  destruct (body en (set_pending (interrupt_at en) w)) as [[a|e|] w1];
    simpl in Hb.
  - specialize (Hf en (set_pending None w1)).
    destruct (final en (set_pending None w1)) as [[u|e|] w3]; simpl in *;
      congruence.
  - destruct (handler e) as [h|] eqn:Eh.
    + specialize (Hh e h Eh en (set_pending None w1)).
      destruct (h en (set_pending None w1)) as [[a|e'|] w2]; simpl in *;
        try congruence;
        specialize (Hf en w2);
        destruct (final en w2) as [[u|e''|] w3]; simpl in *; congruence.
    + specialize (Hf en (set_pending None w1)).
      destruct (final en (set_pending None w1)) as [[u|e''|] w3];
        simpl in *; congruence.
  - congruence.
Qed.

Ltac halts_steps :=
  unfold dwf, print, sleep, emit, dwf_FDwfDeviceOpen,
    dwf_FDwfAnalogInStatus_None, dwf_FDwfAnalogInStatusSample;
  repeat (apply halts_bind; [apply halts_effect | intros ?]).

Lemma sweep_body_halts (g : PC2.globals) :
  halts (bind (for_fold (PC2.W1_VOLTAGES g) [] (PC2.setpoint g))
              (fun all_results => ret (Some all_results))).
Proof.
  apply halts_bind; [|intros; apply halts_ret].
  apply halts_for_fold. intros vin d. unfold PC2.setpoint. halts_steps.
  apply halts_bind.
  - apply halts_for_fold. intros i acc. unfold PC2.sample. halts_steps.
    destruct (PC2.divider g vin _); halts_steps; apply halts_ret.
  - intros l. halts_steps. apply halts_ret.
Qed.

Lemma sweep_halts (g : PC2.globals) :
  halts (PC2.measure_resistance_for_all_voltages g).
Proof.
  unfold PC2.measure_resistance_for_all_voltages. halts_steps.
  match goal with |- halts (if negb ?o then _ else _) => destruct o end;
    cbn [negb].
  - apply halts_try.
    + apply sweep_body_halts.
    + intros e h Eh. unfold on_KeyboardInterrupt in Eh.
      destruct (is_KeyboardInterrupt e); inversion Eh; subst.
      halts_steps. apply halts_ret.
    + halts_steps. apply halts_effect.
  - halts_steps. apply halts_ret.
Qed.

Lemma sweep_ends (g : PC2.globals) (en : env) o w :
  PC2.measure_resistance_for_all_voltages g en initial = (o, w) ->
  handle_open (after (rev (trace w))) = false /\
  (device_opens en = true ->
   last_call (rev (trace w)) = Some FDwfDeviceCloseAll).
Proof.
  unfold PC2.measure_resistance_for_all_voltages.
  rewrite bind_eq. unfold print at 1. unfold emit, effect at 1.
  simpl pending. cbv iota.
  rewrite bind_eq. unfold dwf_FDwfDeviceOpen at 1. unfold effect at 1.
  simpl pending. cbv iota.
  destruct (device_opens en); cbn [negb].
  - unfold try_except_finally.
    match goal with
    | |- context [let '(o, w1) := ?body en ?w in _] =>
        pose proof (@sweep_body_halts g en w) as Hh;
        destruct (body en w) as [[a|e|] w1]
    end.
    + simpl. intros E. inversion E; subst. simpl.
      rewrite !after_snoc, !last_call_snoc. simpl. auto.
    + unfold on_KeyboardInterrupt. destruct e; simpl;
        intros E; inversion E; subst; simpl;
        rewrite !after_snoc, !last_call_snoc; simpl; auto.
    + exfalso. apply Hh. reflexivity.
  - simpl. intros E. inversion E; subst. simpl.
    split; [reflexivity | discriminate].
Qed.

Lemma sweep_exit (g : PC2.globals) (en : env) :
  handle_open
    (after (snd (run (PC2.measure_resistance_for_all_voltages g) en)))
  = false /\
  (device_opens en = true ->
   last_call (snd (run (PC2.measure_resistance_for_all_voltages g) en))
   = Some FDwfDeviceCloseAll).
Proof.
  unfold run.
  destruct (PC2.measure_resistance_for_all_voltages g en initial)
    as [o w] eqn:E.
  simpl. exact (sweep_ends E).
Qed.

Lemma opamp_ends (g : Opamp.globals) (en : env) o w :
  Opamp.get_amplifier_transfer_curve g en initial = (o, w) ->
  o <> Diverge ->
  after (rev (trace w)) = idle /\
  (device_opens en = true ->
   last_call (rev (trace w)) = Some FDwfDeviceCloseAll).
Proof.
  unfold Opamp.get_amplifier_transfer_curve.
  rewrite bind_eq. unfold print at 1. unfold emit, effect at 1.
  simpl pending. cbv iota.
  rewrite bind_eq. unfold dwf_FDwfDeviceOpen at 1. unfold effect at 1.
  simpl pending. cbv iota.
  destruct (device_opens en); cbn [negb].
  - rewrite bind_eq. unfold try_except_finally.
    match goal with
    | |- context [let '(o, w1) := ?body en ?w in _] =>
        destruct (body en w) as [[a|e|] w1]
    end.
    + destruct a as [[vin vout]|]; simpl;
        intros E _; inversion E; subst; simpl;
        rewrite !after_snoc, !last_call_snoc; simpl; auto.
    + unfold on_Exception. destruct e; simpl;
        intros E _; inversion E; subst; simpl;
        rewrite !after_snoc, !last_call_snoc; simpl; auto.
    + simpl. intros E H. inversion E; subst. congruence.
  - simpl. intros E _. inversion E; subst. simpl.
    split; [reflexivity | discriminate].
Qed.

Lemma opamp_exit (g : Opamp.globals) (en : env) :
  fst (run (Opamp.get_amplifier_transfer_curve g) en) <> Diverge ->
  after (snd (run (Opamp.get_amplifier_transfer_curve g) en)) = idle /\
  (device_opens en = true ->
   last_call (snd (run (Opamp.get_amplifier_transfer_curve g) en))
   = Some FDwfDeviceCloseAll).
Proof.
  unfold run.
  destruct (Opamp.get_amplifier_transfer_curve g en initial) as [o w] eqn:E.
  simpl. exact (opamp_ends E).
Qed.

(** C2, amended.  Every run of the DC sweep of PC2.py ends, and ends
    with the device handle released: when the device was opened the
    last driver call is [FDwfDeviceCloseAll], be it after normal
    completion or after an interruption; no command stops the waveform
    generator.  Every run of opamp.py that ends, by completion, error
    or interruption, leaves the instrument commanded idle (generator
    stopped, supplies disabled, handle released) with
    [FDwfDeviceCloseAll] as last driver call, so any two such runs
    leave the same state. *)
Theorem exit_paths_release_the_device :
  (forall (g : PC2.globals) (en : env),
      fst (run (PC2.measure_resistance_for_all_voltages g) en) <> Diverge /\
      handle_open
        (after (snd (run (PC2.measure_resistance_for_all_voltages g) en)))
      = false /\
      (device_opens en = true ->
       last_call (snd (run (PC2.measure_resistance_for_all_voltages g) en))
       = Some FDwfDeviceCloseAll)) /\
  (forall (g : Opamp.globals) (en : env),
      fst (run (Opamp.get_amplifier_transfer_curve g) en) <> Diverge ->
      after (snd (run (Opamp.get_amplifier_transfer_curve g) en)) = idle /\
      (device_opens en = true ->
       last_call (snd (run (Opamp.get_amplifier_transfer_curve g) en))
       = Some FDwfDeviceCloseAll)) /\
  (forall (g : Opamp.globals) (en en' : env),
      fst (run (Opamp.get_amplifier_transfer_curve g) en) <> Diverge ->
      fst (run (Opamp.get_amplifier_transfer_curve g) en') <> Diverge ->
      after (snd (run (Opamp.get_amplifier_transfer_curve g) en))
      = after (snd (run (Opamp.get_amplifier_transfer_curve g) en'))).
Proof.
  split; [|split].
  - intros g en. split.
    + unfold run.
      pose proof (@sweep_halts g en initial) as H.
      destruct (PC2.measure_resistance_for_all_voltages g en initial).
      exact H.
    + apply sweep_exit.
  - intros g en. apply opamp_exit.
  - intros g en en' H H'.
    rewrite (proj1 (opamp_exit H)), (proj1 (opamp_exit H')). reflexivity.
Qed.

End Cleanup.

Lemma exit_paths_release_the_device_witness :
  Instrument.after
    (snd (Run.run (Opamp.get_amplifier_transfer_curve small_opamp)
                  (bench None)))
  = Instrument.idle /\
  Instrument.after
    (snd (Run.run (Opamp.get_amplifier_transfer_curve small_opamp)
                  (bench (Some 30%nat))))
  = Instrument.idle /\
  Instrument.last_call
    (snd (Run.run (PC2.measure_resistance_for_all_voltages PC2.script)
                  (bench (Some 30%nat))))
  = Some Dwf.FDwfDeviceCloseAll.
Proof.
  destruct exit_paths_release_the_device as (Hsweep & Hopamp & _).
  split; [|split].
  - apply (Hopamp small_opamp (bench None)). vm_compute. discriminate.
  - apply (Hopamp small_opamp (bench (Some 30%nat))). vm_compute.
    discriminate.
  - apply (Hsweep PC2.script (bench (Some 30%nat))). reflexivity.
Defined.

(* ================================================================== *)
(** * Further reasoning about runs *)

(** ** Triples: what holds of the world when a computation ends *)

Module Hoare.
Import Py Dwf Run Logic.

Lemma set_pending_same (w : world) : set_pending (pending w) w = w.
Proof. destruct w; reflexivity. Qed.

Lemma t_ret {A} en (a : A) (P : world -> Prop) (Q : A -> world -> Prop) X :
  (forall w, P w -> Q a w) -> triple en P (ret a) Q X.
Proof. intros H w HP. simpl. auto. Qed.

Lemma t_raise {A} en (e : exn) (P : world -> Prop)
    (Q : A -> world -> Prop) (X : world -> Prop) :
  (forall w, P w -> X w) -> triple en P (raise e) Q X.
Proof. intros H w HP. simpl. auto. Qed.

Lemma t_conseq {A} en (m : M A) (P P' : world -> Prop)
    (Q Q' : A -> world -> Prop) (X X' : world -> Prop) :
  (forall w, P' w -> P w) -> (forall a w, Q a w -> Q' a w) ->
  (forall w, X w -> X' w) ->
  triple en P m Q X -> triple en P' m Q' X'.
Proof.
  intros HP HQ HX H w Hw. specialize (H w (HP w Hw)).
  destruct (m en w) as [[a|e|] w']; auto.
Qed.

Lemma t_assume {A} en (m : M A) (phi : Prop) P (Q : A -> world -> Prop) X :
  (phi -> triple en P m Q X) ->
  triple en (fun w => P w /\ phi) m Q X.
Proof. intros H w [HP Hphi]. exact (H Hphi w HP). Qed.

Lemma t_bind {A B} en (m : M A) (k : A -> M B) P (R : A -> world -> Prop)
    (Q : B -> world -> Prop) X :
  triple en P m R X -> (forall a, triple en (R a) (k a) Q X) ->
  triple en P (bind m k) Q X.
Proof.
  intros Hm Hk w HP. rewrite bind_eq. specialize (Hm w HP).
  destruct (m en w) as [[a|e|] w1]; auto.
  apply Hk. exact Hm.
Qed.

Lemma t_effect {A} en (f : env -> world -> event * A * world) P
    (Q : A -> world -> Prop) (X : world -> Prop) :
  (forall w, P w -> X (set_pending None w)) ->
  (forall w p, P w ->
     Q (snd (fst (f en w)))
       (log (fst (fst (f en w))) (set_pending p (snd (f en w))))) ->
  triple en P (effect f) Q X.
Proof.
  intros HX HQ w HP. unfold effect.
  destruct (pending w) as [[|k]|].
  - apply HX. exact HP.
  - specialize (HQ w (Some k) HP). destruct (f en w) as [[e a] w'].
    exact HQ.
  - specialize (HQ w (pending (snd (f en w))) HP).
    destruct (f en w) as [[e a] w']. simpl in HQ.
    rewrite set_pending_same in HQ. exact HQ.
Qed.

Lemma t_emit en (e : event) P (Q : unit -> world -> Prop)
    (X : world -> Prop) :
  (forall w, P w -> X (set_pending None w)) ->
  (forall w p, P w -> Q tt (log e (set_pending p w))) ->
  triple en P (emit e) Q X.
Proof. intros HX HQ. apply t_effect; assumption. Qed.

(** A step in a world with no interruption pending. *)
Lemma t_effect_calm {A} en (f : env -> world -> event * A * world) P
    (Q : A -> world -> Prop) (X : world -> Prop) :
  (forall w, P w -> pending w = None) ->
  (forall w, P w ->
     Q (snd (fst (f en w))) (log (fst (fst (f en w))) (snd (f en w)))) ->
  triple en P (effect f) Q X.
Proof.
  intros Hp HQ w HP. unfold effect. rewrite (Hp w HP).
  specialize (HQ w HP). destruct (f en w) as [[e a] w']. exact HQ.
Qed.

Lemma t_emit_calm en (e : event) P (Q : unit -> world -> Prop)
    (X : world -> Prop) :
  (forall w, P w -> pending w = None) ->
  (forall w, P w -> Q tt (log e w)) ->
  triple en P (emit e) Q X.
Proof. intros Hp HQ. apply t_effect_calm; assumption. Qed.

Lemma t_lift {A} en (r : exn + A) P (Q : A -> world -> Prop)
    (X : world -> Prop) :
  (forall w, P w -> match r with inl _ => X w | inr a => Q a w end) ->
  triple en P (lift r) Q X.
Proof. intros H w HP. specialize (H w HP). destruct r; simpl; exact H. Qed.

Lemma t_for_fold {X S} en (xs : list X) (body : X -> S -> M S)
    (Inv : list X -> S -> world -> Prop) (Ab : world -> Prop) (acc : S) P :
  (forall w, P w -> Inv [] acc w) ->
  (forall done x acc',
      triple en (Inv done acc') (body x acc') (Inv (done ++ [x])) Ab) ->
  triple en P (for_fold xs acc body) (Inv xs) Ab.
Proof.
  intros H0 Hstep.
  assert (G : forall done acc',
             triple en (Inv done acc') (for_fold xs acc' body)
                    (Inv (done ++ xs)) Ab).
  { induction xs as [|x xs IH]; intros done acc'.
    - simpl. rewrite app_nil_r. apply t_ret. auto.
    - simpl. eapply t_bind; [apply Hstep|].
      intros a. replace (done ++ x :: xs) with ((done ++ [x]) ++ xs)
        by (rewrite <- app_assoc; reflexivity).
      apply IH. }
  intros w HP. apply (G [] acc). apply H0. exact HP.
Qed.

Lemma t_try {A} en (body : M A) handler final (P Pb : world -> Prop)
    (Q : A -> world -> Prop) (X : world -> Prop) :
  (forall w, P w -> Pb (set_pending (interrupt_at en) w)) ->
  triple en Pb body Q X ->
  (forall a w, Q a w -> Q a (set_pending None w)) ->
  (forall w, X w -> X (set_pending None w)) ->
  (forall e h, handler e = Some h -> triple en X h Q X) ->
  (forall a, triple en (Q a) final (fun _ => Q a) X) ->
  triple en X final (fun _ => X) X ->
  triple en P (try_except_finally body handler final) Q X.
Proof.
  intros Hin Hb HQ HX Hh Hf HfX w HP. unfold try_except_finally.
  specialize (Hb _ (Hin w HP)).
  destruct (body en (set_pending (interrupt_at en) w)) as [[a|e|] w1].
  - specialize (Hf a _ (HQ _ _ Hb)).
    destruct (final en (set_pending None w1)) as [[u|e|] w3]; exact Hf.
  - destruct (handler e) as [h|] eqn:Eh.
    + specialize (Hh e h Eh _ (HX _ Hb)).
      destruct (h en (set_pending None w1)) as [[a|e'|] w2].
      * specialize (Hf a _ Hh).
        destruct (final en w2) as [[u|e''|] w3]; exact Hf.
      * specialize (HfX _ Hh).
        destruct (final en w2) as [[u|e''|] w3]; exact HfX.
      * exact Hh.
    + specialize (HfX _ (HX _ Hb)).
      destruct (final en (set_pending None w1)) as [[u|e''|] w3];
        exact HfX.
  - exact Hb.
Qed.

Lemma t_try_return {L A} en (body : M L) handler (final : option L -> M A)
    (P Pb : world -> Prop) (Qb : L -> world -> Prop) (Xb : world -> Prop)
    (Q : A -> world -> Prop) (X : world -> Prop) :
  (forall w, P w -> Pb (set_pending (interrupt_at en) w)) ->
  triple en Pb body Qb Xb ->
  (forall l w, Qb l w -> Qb l (set_pending None w)) ->
  (forall w, Xb w -> Xb (set_pending None w)) ->
  (forall w, Xb w -> X w) ->
  (forall e h, handler e = Some h -> triple en Xb h Qb Xb) ->
  (forall l, triple en (Qb l) (final (Some l)) Q X) ->
  triple en Xb (final None) Q X ->
  triple en P (try_except_finally_return body handler final) Q X.
Proof.
  intros Hin Hb HQ HX HXX Hh Hf HfX w HP.
  unfold try_except_finally_return.
  specialize (Hb _ (Hin w HP)).
  destruct (body en (set_pending (interrupt_at en) w)) as [[l|e|] w1].
  - exact (Hf l _ (HQ _ _ Hb)).
  - destruct (handler e) as [h|] eqn:Eh.
    + specialize (Hh e h Eh _ (HX _ Hb)).
      destruct (h en (set_pending None w1)) as [[l|e'|] w2].
      * exact (Hf l _ Hh).
      * exact (HfX _ Hh).
      * apply HXX. exact Hh.
    + exact (HfX _ (HX _ Hb)).
  - apply HXX. exact Hb.
Qed.

End Hoare.

(** ** Invariants of the trace: figures drawn, generator started *)

Module Traces.
Import Py Dwf Run Logic Hoare Instrument.

Lemma plots_only_cons G (e : event) (w w' : world) :
  trace w' = e :: trace w ->
  (forall xs ys, e = Plot xs ys -> G xs ys) ->
  plots_only G w -> plots_only G w'.
Proof.
  intros Ht He H xs ys Hin. rewrite Ht in Hin. destruct Hin as [E|Hin].
  - apply He. exact E.
  - apply H. exact Hin.
Qed.

Lemma plots_only_weaken (G G' : _ -> _ -> Prop) (w w' : world) :
  trace w' = trace w -> (forall xs ys, G xs ys -> G' xs ys) ->
  plots_only G w -> plots_only G' w'.
Proof.
  intros Ht HG H xs ys Hin. rewrite Ht in Hin. apply HG, H. exact Hin.
Qed.

Lemma no_plot_any G (w w' : world) :
  trace w' = trace w -> no_plot w -> plots_only G w'.
Proof.
  intros Ht H. apply (@plots_only_weaken (fun _ _ => False) G w w' Ht).
  - intros xs ys [].
  - exact H.
Qed.

(** The polling loop draws nothing. *)
Lemma poll_plots en G fuel fRead d dt :
  triple en (plots_only G) (poll_until fuel fRead d dt)
         (fun _ => plots_only G) (plots_only G).
Proof.
  induction fuel as [|fuel IH].
  - intros w H. exact H.
  - simpl. eapply t_bind.
    { apply (@t_effect _ _ _ (plots_only G) (fun _ => plots_only G)
                       (plots_only G)).
      - intros w H. exact H.
      - intros w p H. eapply plots_only_cons;
          [ reflexivity | intros ? ? E0; discriminate | exact H ]. }
    intros sts. destruct (Z.eqb sts d).
    + apply t_ret. intros w H. exact H.
    + eapply t_bind; [|intros ?; exact IH].
      apply t_emit.
      * intros w H. exact H.
      * intros w p H. eapply plots_only_cons;
          [ reflexivity | intros ? ? E0; discriminate | exact H ].
Qed.

Lemma while_plots en G fRead sel dt :
  triple en (plots_only G) (while_True_poll fRead sel dt)
         (fun _ => plots_only G) (plots_only G).
Proof. intros w H. unfold while_True_poll. exact (@poll_plots en G _ _ _ _ w H). Qed.

Lemma running_cons (e : event) (w w' : world) :
  trace w' = e :: trace w ->
  (forall ch, e <> Driver (FDwfAnalogOutConfigure ch false)) ->
  running w -> running w'.
Proof.
  unfold running. intros Ht He H. rewrite Ht. simpl. rewrite after_snoc.
  destruct e as [c| | | |]; simpl; try exact H.
  destruct c; simpl; try exact H.
  - match goal with
    | |- context [match ?b with true => _ | false => _ end] => destruct b
    end; exact H.
  - match goal with |- ?b = true => destruct b end; [reflexivity|].
    exfalso. eapply He. reflexivity.
Qed.

Lemma started (ch : Z) (w w' : world) :
  trace w' = Driver (FDwfAnalogOutConfigure ch true) :: trace w ->
  running w'.
Proof.
  unfold running. intros ->. simpl. rewrite after_snoc. reflexivity.
Qed.

Lemma poll_running en fuel fRead d dt :
  triple en running (poll_until fuel fRead d dt)
         (fun _ => running) (fun _ => True).
Proof.
  induction fuel as [|fuel IH].
  - intros w H. exact I.
  - simpl. eapply t_bind.
    { apply (@t_effect _ _ _ running (fun _ => running) (fun _ => True)).
      - intros; exact I.
      - intros w p H. eapply running_cons;
          [ reflexivity | intros ? E0; discriminate | exact H ]. }
    intros sts. destruct (Z.eqb sts d).
    + apply t_ret. intros w H. exact H.
    + eapply t_bind; [|intros ?; exact IH].
      apply t_emit.
      * intros; exact I.
      * intros w p H. eapply running_cons;
          [ reflexivity | intros ? E0; discriminate | exact H ].
Qed.

Lemma while_running en fRead sel dt :
  triple en running (while_True_poll fRead sel dt)
         (fun _ => running) (fun _ => True).
Proof.
  intros w H. unfold while_True_poll.
  exact (@poll_running en _ _ _ _ w H).
Qed.

End Traces.

(** ** Which exceptions can leave a computation *)

Module Escapes.
Import Py Dwf Run Logic.

Lemma ro_ret {A} (a : A) E : raises_only (ret a) E.
Proof. intros en w e w' H. discriminate. Qed.

Lemma ro_bind {A B} (m : M A) (k : A -> M B) E :
  raises_only m E -> (forall a, raises_only (k a) E) ->
  raises_only (bind m k) E.
Proof.
  intros Hm Hk en w e w' H. rewrite bind_eq in H.
  destruct (m en w) as [[a|e0|] w1] eqn:E1.
  - eapply Hk; eauto.
  - inversion H; subst. eapply Hm; eauto.
  - discriminate.
Qed.

Lemma ro_bind_val {A B} (m : M A) (k : A -> M B) (P : A -> Prop) E :
  returns m P -> raises_only m E ->
  (forall a, P a -> raises_only (k a) E) ->
  raises_only (bind m k) E.
Proof.
  intros Hv Hm Hk en w e w' H. rewrite bind_eq in H.
  destruct (m en w) as [[a|e0|] w1] eqn:E1.
  - eapply (Hk a); eauto.
  - inversion H; subst. eapply Hm; eauto.
  - discriminate.
Qed.

Lemma ro_effect {A} (f : env -> world -> event * A * world) :
  raises_only (effect f) (fun e => e = KeyboardInterrupt).
Proof.
  intros en w e w' H. unfold effect in H.
  destruct (pending w) as [[|k]|].
  - inversion H. reflexivity.
  - destruct (f en w) as [[e0 a] w0]. discriminate.
  - destruct (f en w) as [[e0 a] w0]. discriminate.
Qed.

Lemma ro_for_fold {X S} (xs : list X) (body : X -> S -> M S) acc E :
  (forall x a, raises_only (body x a) E) ->
  raises_only (for_fold xs acc body) E.
Proof.
  intros Hb. revert acc. induction xs as [|x xs IH]; intros acc; simpl.
  - apply ro_ret.
  - apply ro_bind; auto.
Qed.

Lemma ro_weaken {A} (m : M A) (E E' : exn -> Prop) :
  (forall e, E e -> E' e) -> raises_only m E -> raises_only m E'.
Proof. intros HE H en w e w' R. apply HE. eapply H; eauto. Qed.

Lemma ro_truediv x y :
  raises_only (truediv x y)
              (fun e => e = ZeroDivisionError /\ (y == 0)%Q).
Proof.
  intros en w e w' H. unfold truediv in H.
  destruct (Qeq_bool y 0) eqn:E; [|discriminate].
  inversion H; subst. split; [reflexivity|].
  apply Qeq_bool_iff. exact E.
Qed.

Lemma ro_poll fuel fRead d dt :
  raises_only (poll_until fuel fRead d dt) (fun e => e = KeyboardInterrupt).
Proof.
  induction fuel as [|fuel IH].
  - intros en w e w' H. discriminate.
  - simpl. apply ro_bind; [apply ro_effect | intros sts].
    destruct (Z.eqb sts d); [apply ro_ret|].
    apply ro_bind; [apply ro_effect | intros ?; exact IH].
Qed.

Lemma ro_while fRead sel dt :
  raises_only (while_True_poll fRead sel dt)
              (fun e => e = KeyboardInterrupt).
Proof.
  intros en w e w' H. unfold while_True_poll in H.
  exact (@ro_poll _ _ _ _ en w e w' H).
Qed.

Lemma ro_try {A} (body : M A) handler final E :
  raises_only body E ->
  (forall e h, handler e = Some h -> raises_only h E) ->
  raises_only final E ->
  raises_only (try_except_finally body handler final) E.
Proof.
  intros Hb Hh Hf en w e w'. unfold try_except_finally.
  specialize (Hb en (set_pending (interrupt_at en) w)).
  destruct (body en (set_pending (interrupt_at en) w)) as [[a|e0|] w1].
  - specialize (Hf en (set_pending None w1)).
    destruct (final en (set_pending None w1)) as [[u|e1|] w3];
      intros H; inversion H; subst. eapply Hf; reflexivity.
  - destruct (handler e0) as [h|] eqn:Eh.
    + specialize (Hh e0 h Eh en (set_pending None w1)).
      destruct (h en (set_pending None w1)) as [[a|e1|] w2].
      * specialize (Hf en w2).
        destruct (final en w2) as [[u|e2|] w3];
          intros H; inversion H; subst. eapply Hf; reflexivity.
      * specialize (Hf en w2).
        destruct (final en w2) as [[u|e2|] w3];
          intros H; inversion H; subst.
        -- eapply Hh; reflexivity.
        -- eapply Hf; reflexivity.
      * discriminate.
    + specialize (Hf en (set_pending None w1)).
      destruct (final en (set_pending None w1)) as [[u|e2|] w3];
        intros H; inversion H; subst.
      * eapply Hb; reflexivity.
      * eapply Hf; reflexivity.
  - discriminate.
Qed.

Lemma halts_lift {A} (r : exn + A) : halts (lift r).
Proof. intros en w. destruct r; discriminate. Qed.

Lemma emit_calm (e : event) en w :
  pending w = None -> emit e en w = (Ret tt, log e w).
Proof. intros H. unfold emit, effect. rewrite H. reflexivity. Qed.

(** A [try] whose body can only be interrupted, with a handler for the
    interruption: the statement completes. *)
Lemma quiet_try_caught {A} en (body h : M A) final :
  halts body -> raises_only body (fun e => e = KeyboardInterrupt) ->
  quiet en h (fun _ => True) -> quiet en final (fun _ => True) ->
  quiet en (try_except_finally body (on_KeyboardInterrupt h) final)
        (fun _ => True).
Proof.
  intros Hh Hr Hq Hf w _. unfold try_except_finally.
  specialize (Hh en (set_pending (interrupt_at en) w)).
  specialize (Hr en (set_pending (interrupt_at en) w)).
  destruct (body en (set_pending (interrupt_at en) w)) as [[a|e|] w1].
  - destruct (Hf (set_pending None w1) eq_refl) as (u & w3 & E3 & H3 & _).
    rewrite E3. exists a, w3. auto.
  - rewrite (Hr e w1 eq_refl). simpl.
    destruct (Hq (set_pending None w1) eq_refl) as (a & w2 & E2 & H2 & _).
    rewrite E2.
    destruct (Hf w2 H2) as (u & w3 & E3 & H3 & _).
    rewrite E3. exists a, w3. auto.
  - exfalso. apply Hh. reflexivity.
Qed.

Lemma quiet_run {A} (m : M A) en (P : A -> Prop) :
  quiet en m P -> exists a, fst (run m en) = Ret a /\ P a.
Proof.
  intros H. destruct (H initial eq_refl) as (a & w' & E & _ & Ha).
  exists a. unfold run. rewrite E. auto.
Qed.

(** What can leave a [try] with a handler for the interruption. *)
Lemma try_caught_raises {A} en (body h : M A) final (E : exn -> Prop) w e w' :
  raises_only body E ->
  quiet en h (fun _ => True) -> quiet en final (fun _ => True) ->
  try_except_finally body (on_KeyboardInterrupt h) final en w
  = (Raise e, w') ->
  E e /\ e <> KeyboardInterrupt.
Proof.
  intros Hr Hq Hf. unfold try_except_finally.
  specialize (Hr en (set_pending (interrupt_at en) w)).
  destruct (body en (set_pending (interrupt_at en) w)) as [[a|e0|] w1].
  - destruct (Hf (set_pending None w1) eq_refl) as (u & w3 & E3 & H3 & _).
    rewrite E3. discriminate.
  - specialize (Hr e0 w1 eq_refl). unfold on_KeyboardInterrupt.
    destruct (is_KeyboardInterrupt e0) eqn:Ek.
    + destruct (Hq (set_pending None w1) eq_refl)
        as (a & w2 & E2 & H2 & _).
      rewrite E2.
      destruct (Hf w2 H2) as (u & w3 & E3 & H3 & _).
      rewrite E3. discriminate.
    + destruct (Hf (set_pending None w1) eq_refl)
        as (u & w3 & E3 & H3 & _).
      rewrite E3. intros H. inversion H; subst. split; [exact Hr|].
      intros ->. discriminate.
  - discriminate.
Qed.

Lemma safe_bind {A B} en (m : M A) (k : A -> M B) (P : A -> Prop) :
  quiet en m P -> (forall a, P a -> safe en (k a)) -> safe en (bind m k).
Proof.
  intros Hm Hk w H e w'. rewrite bind_eq.
  destruct (Hm w H) as (a & w1 & -> & H1 & Ha). apply (Hk a Ha). exact H1.
Qed.

Lemma safe_quiet {A} en (m : M A) (P : A -> Prop) : quiet en m P -> safe en m.
Proof.
  intros Hm w H e w' E. destruct (Hm w H) as (a & w1 & E1 & _).
  congruence.
Qed.

Lemma safe_try {A} en (body h : M A) final :
  raises_only body (fun e => e = KeyboardInterrupt) ->
  quiet en h (fun _ => True) -> quiet en final (fun _ => True) ->
  safe en (try_except_finally body (on_KeyboardInterrupt h) final).
Proof.
  intros Hr Hq Hf w _ e0 w0. unfold try_except_finally.
  specialize (Hr en (set_pending (interrupt_at en) w)).
  destruct (body en (set_pending (interrupt_at en) w)) as [[a|e|] w1].
  - destruct (Hf (set_pending None w1) eq_refl) as (u & w3 & E3 & H3 & _).
    rewrite E3. discriminate.
  - rewrite (Hr e w1 eq_refl). simpl.
    destruct (Hq (set_pending None w1) eq_refl) as (a & w2 & E2 & H2 & _).
    rewrite E2.
    destruct (Hf w2 H2) as (u & w3 & E3 & H3 & _).
    rewrite E3. discriminate.
  - discriminate.
Qed.

Lemma safe_run {A} (m : M A) en :
  safe en m -> forall e, fst (run m en) <> Raise e.
Proof.
  intros H e. unfold run. specialize (H initial eq_refl e).
  destruct (m en initial) as [o w]. simpl. intros ->. apply (H w).
  reflexivity.
Qed.

End Escapes.

(** ** Counting the steps left before an armed interruption *)

Module Budget.
Import Py Dwf Run Logic.

Lemma spends_effect {A} en (f : env -> world -> event * A * world) :
  spends en (effect f) 1.
Proof.
  intros w j H. unfold effect. rewrite H. destruct j as [|j]; simpl.
  - eexists. reflexivity.
  - destruct (f en w) as [[e a] w']. exists a. eexists.
    split; [reflexivity|]. simpl. rewrite Nat.sub_0_r. reflexivity.
Qed.

Lemma spends_bind {A B} en (m : M A) (k : A -> M B) n1 n2 :
  spends en m n1 -> (forall a, spends en (k a) n2) ->
  spends en (bind m k) (n1 + n2).
Proof.
  intros Hm Hk w j H. rewrite bind_eq. specialize (Hm w j H).
  destruct (Nat.ltb_spec j n1) as [L1|L1].
  - destruct Hm as [w' ->].
    destruct (Nat.ltb_spec j (n1 + n2)); [|lia]. eexists. reflexivity.
  - destruct Hm as (a & w1 & -> & H1). specialize (Hk a w1 _ H1).
    destruct (Nat.ltb_spec (j - n1) n2) as [L2|L2];
      destruct (Nat.ltb_spec j (n1 + n2)); try lia.
    + exact Hk.
    + destruct Hk as (b & w2 & E & H2). exists b, w2.
      split; [exact E|]. rewrite H2. f_equal. lia.
Qed.

Lemma cut_bind {A B} en (m : M A) (k : A -> M B) n1 n2 :
  spends en m n1 -> (forall a, cut en (k a) n2) ->
  cut en (bind m k) (n1 + n2).
Proof.
  intros Hm Hk w j H L. rewrite bind_eq. specialize (Hm w j H).
  destruct (Nat.ltb_spec j n1) as [L1|L1].
  - destruct Hm as [w' ->]. eexists. reflexivity.
  - destruct Hm as (a & w1 & -> & H1).
    apply (Hk a w1 _ H1). lia.
Qed.

Lemma cut_zero {A} en (m : M A) : cut en m 0.
Proof. intros w j _ H. lia. Qed.

Lemma outlives_bind {A B} en (m : M A) (k : A -> M B) (P : A -> Prop) :
  quiet en m P -> (forall a, outlives en (k a)) ->
  outlives en (bind m k).
Proof.
  intros Hm Hk w H. rewrite bind_eq.
  destruct (Hm w H) as (a & w1 & -> & H1 & _). apply Hk. exact H1.
Qed.

End Budget.

(** ** Returned values, in a given environment *)

Module Yields.
Import Py Dwf Run Logic.







End Yields.

(** Steps that can only be cut by the interruption, and steps that
    never outlive the bound. *)
Ltac ro_steps :=
  unfold Run.dwf, Run.print, Run.sleep, Run.emit, Run.dwf_FDwfDeviceOpen,
    Run.dwf_FDwfAnalogInStatus_None, Run.dwf_FDwfAnalogInStatusSample,
    Run.dwf_FDwfAnalogInStatusData;
  repeat (apply Escapes.ro_bind; [apply Escapes.ro_effect | intros ?]).

(* ================================================================== *)
(** * Further properties of the scripts *)

(* ------------------------------------------------------------------ *)
(** ** PC2.py: the values of the sweep *)

Section SweepValues.
Import Py Dwf Run Builtins Logic Hoare Traces Escapes Budget Yields Instrument.

Lemma kept_app g vin a b : kept g vin (a ++ b) = kept g vin a ++ kept g vin b.
Proof. apply flat_map_app. Qed.

Lemma sweep_results_app g reading l1 l2 k d :
  sweep_results g reading (l1 ++ l2) k d
  = sweep_results g reading l2 (k + List.length l1 * PC2.N_SAMPLES g)
      (sweep_results g reading l1 k d).
Proof.
  revert k d. induction l1 as [|x l1 IH]; intros k d; simpl.
  - rewrite Nat.add_0_r. reflexivity.
  - rewrite IH. f_equal. lia.
Qed.

(** Steps that do not read a sample leave the count of reads alone. *)
Ltac count_steps k :=
  unfold dwf, print, sleep;
  repeat (eapply t_bind;
          [ apply (@t_emit _ _ (fun w => sample_reads w = k)
                           (fun _ w => sample_reads w = k)
                           (fun _ => True));
            [ intros; exact I | intros w0 p0 H0; exact H0 ]
          | intros ? ]).

Lemma sample_reads_next en (g : PC2.globals) vin i acc k :
  triple en (fun w => sample_reads w = k) (PC2.sample g vin i acc)
    (fun acc' w => sample_reads w = S k /\
                   acc' = acc ++ kept g vin [status_sample en k])
    (fun _ => True).
Proof.
  unfold PC2.sample.
  eapply t_bind.
  { apply (@t_effect _ _ _ (fun w => sample_reads w = k)
                     (fun _ w => sample_reads w = k) (fun _ => True)).
    - intros; exact I.
    - intros w p H. exact H. }
  intros ?. eapply t_bind.
  { apply (@t_effect _ _ _ (fun w => sample_reads w = k)
                     (fun v w => sample_reads w = S k /\
                                 v = status_sample en k)
                     (fun _ => True)).
    - intros; exact I.
    - intros w p H. simpl. rewrite H. split; reflexivity. }
  intros v. apply t_assume. intros ->.
  unfold kept. simpl. rewrite app_nil_r.
  destruct (PC2.divider g vin (status_sample en k)).
  - unfold print. eapply t_bind.
    { apply (@t_emit _ _ (fun w => sample_reads w = S k)
                     (fun _ w => sample_reads w = S k) (fun _ => True)).
      - intros; exact I.
      - intros w p H. exact H. }
    intros ?. apply t_ret. intros w H. split; [exact H | reflexivity].
  - apply t_ret. intros w H. split; [exact H|].
    rewrite app_nil_r. reflexivity.
Qed.

Lemma samples_of_setpoint en (g : PC2.globals) vin k :
  triple en (fun w => sample_reads w = k)
    (for_fold (seq 0 (PC2.N_SAMPLES g)) [] (PC2.sample g vin))
    (fun acc w =>
       sample_reads w = (k + PC2.N_SAMPLES g)%nat /\
       acc = kept g vin (map (status_sample en)
                             (seq k (PC2.N_SAMPLES g))))
    (fun _ => True).
Proof.
  eapply t_conseq;
    [ | | | apply (@t_for_fold _ _ en (seq 0 (PC2.N_SAMPLES g))
                    (PC2.sample g vin)
                    (fun done acc w =>
                       sample_reads w = (k + List.length done)%nat /\
                       acc = kept g vin (map (status_sample en)
                                           (seq k (List.length done))))
                    (fun _ => True) []
                    (fun w => sample_reads w = k)) ].
  - intros w H. exact H.
  - intros acc w. rewrite length_seq. auto.
  - auto.
  - intros w H. simpl. rewrite Nat.add_0_r. auto.
  - intros done i acc. cbv beta. apply t_assume. intros Hacc.
    eapply t_conseq;
      [ | | | apply (@sample_reads_next en g vin i acc
                       (k + List.length done)) ].
    + intros w H. exact H.
    + intros acc' w [H1 H2]. rewrite length_app. simpl.
      split; [lia|]. rewrite seq_app, map_app, kept_app. simpl.
      rewrite H2, Hacc. reflexivity.
    + auto.
Qed.

Lemma setpoint_value en (g : PC2.globals) vin d k :
  triple en (fun w => sample_reads w = k) (PC2.setpoint g vin d)
    (fun d' w =>
       sample_reads w = (k + PC2.N_SAMPLES g)%nat /\
       d' = setitem vin
              (kept g vin (map (status_sample en)
                               (seq k (PC2.N_SAMPLES g)))) d)
    (fun _ => True).
Proof.
  unfold PC2.setpoint. count_steps k.
  eapply t_bind; [apply samples_of_setpoint|].
  intros l. cbv beta. apply t_assume. intros ->.
  count_steps (k + PC2.N_SAMPLES g)%nat.
  apply t_ret. intros w H. split; [exact H | reflexivity].
Qed.

Lemma sweep_value en (g : PC2.globals) :
  triple en (fun w => sample_reads w = 0%nat)
    (for_fold (PC2.W1_VOLTAGES g) [] (PC2.setpoint g))
    (fun d _ =>
       d = sweep_results g (status_sample en) (PC2.W1_VOLTAGES g) 0 [])
    (fun _ => True).
Proof.
  eapply t_conseq;
    [ | | | apply (@t_for_fold _ _ en (PC2.W1_VOLTAGES g) (PC2.setpoint g)
                    (fun done d w =>
                       sample_reads w
                       = (List.length done * PC2.N_SAMPLES g)%nat /\
                       d = sweep_results g (status_sample en) done 0 [])
                    (fun _ => True) []
                    (fun w => sample_reads w = 0%nat)) ].
  - intros w H. exact H.
  - intros d w [_ H]. exact H.
  - auto.
  - intros w H. simpl. auto.
  - intros done vin d. cbv beta. apply t_assume. intros ->.
    eapply t_conseq; [ | | | apply setpoint_value ].
    + intros w H. exact H.
    + intros d' w [H1 H2]. rewrite length_app. simpl. split; [lia|].
      rewrite sweep_results_app. simpl. exact H2.
    + auto.
Qed.

Lemma measure_value en (g : PC2.globals) :
  triple en (fun w => sample_reads w = 0%nat)
    (PC2.measure_resistance_for_all_voltages g)
    (fun r _ =>
       forall d, r = Some d ->
         d = sweep_results g (status_sample en) (PC2.W1_VOLTAGES g) 0 [])
    (fun _ => True).
Proof.
  unfold PC2.measure_resistance_for_all_voltages.
  unfold print at 1. eapply t_bind.
  { apply (@t_emit _ _ (fun w => sample_reads w = 0%nat)
                   (fun _ w => sample_reads w = 0%nat) (fun _ => True)).
    - intros; exact I.
    - intros w p H. exact H. }
  intros ?. eapply t_bind.
  { apply (@t_effect _ _ _ (fun w => sample_reads w = 0%nat)
                     (fun _ w => sample_reads w = 0%nat) (fun _ => True)).
    - intros; exact I.
    - intros w p H. exact H. }
  intros opened. destruct opened; cbn [negb].
  - apply (@t_try _ en _ _ _ (fun w => sample_reads w = 0%nat)
                  (fun w => sample_reads w = 0%nat)).
    + intros w H. exact H.
    + eapply t_bind; [apply sweep_value|].
      intros d. apply t_ret. intros w -> d' E. inversion E. reflexivity.
    + auto.
    + auto.
    + intros e h Eh. unfold on_KeyboardInterrupt in Eh.
      destruct (is_KeyboardInterrupt e); inversion Eh; subst.
      unfold print. eapply t_bind.
      { apply (@t_emit _ _ (fun _ => True) (fun _ _ => True)
                       (fun _ => True)); auto. }
      intros ?. apply t_ret. intros w _ d E. discriminate.
    + intros r. unfold dwf, print. eapply t_bind.
      { apply (@t_emit _ _ _ (fun _ w => forall d, r = Some d ->
                 d = sweep_results g (status_sample en)
                       (PC2.W1_VOLTAGES g) 0 []) (fun _ => True)); auto. }
      intros ?. apply t_emit; auto.
    + unfold dwf, print. eapply t_bind.
      { apply (@t_emit _ _ (fun _ => True) (fun _ _ => True)
                       (fun _ => True)); auto. }
      intros ?. apply t_emit; auto.
  - unfold print. eapply t_bind.
    { apply (@t_emit _ _ _ (fun _ _ => True) (fun _ => True)); auto. }
    intros ?. apply t_ret. intros w _ d E. discriminate.
Qed.





(** X1, on PC2.py.  The dictionary returned by the sweep holds, for
    each set-point, exactly the divider values of the readings taken at
    that set-point that pass the guard, in the order they were read:
    the readings are consumed in sequence, [N_SAMPLES] per set-point,
    and a later measurement at an equal set-point replaces the earlier
    one.  An uninterrupted run on an open device returns it. *)
Theorem sweep_values_are_the_kept_readings (g : PC2.globals) (en : env) :
  (forall d,
      fst (run (PC2.measure_resistance_for_all_voltages g) en)
      = Ret (Some d) ->
      d = sweep_results g (status_sample en) (PC2.W1_VOLTAGES g) 0 []) /\
  (device_opens en = true -> interrupt_at en = None ->
   fst (run (PC2.measure_resistance_for_all_voltages g) en)
   = Ret (Some (sweep_results g (status_sample en)
                  (PC2.W1_VOLTAGES g) 0 []))).
Proof.
  assert (G : forall d,
             fst (run (PC2.measure_resistance_for_all_voltages g) en)
             = Ret (Some d) ->
             d = sweep_results g (status_sample en)
                   (PC2.W1_VOLTAGES g) 0 []).
  { intros d E. apply run_ret in E. destruct E as [w' E].
    pose proof (@measure_value en g initial eq_refl) as H.
    rewrite E in H. apply H. reflexivity. }
  split; [exact G|].
  intros Ho Hi.
  destruct (@measure_quiet en g Ho Hi initial eq_refl)
    as (r & w' & E & _ & d & ->).
  assert (E' : fst (run (PC2.measure_resistance_for_all_voltages g) en)
               = Ret (Some d)).
  { unfold run. rewrite E. reflexivity. }
  rewrite E'. rewrite (G d E') at 1. reflexivity.
Qed.


Lemma sweep_values_are_the_kept_readings_witness :
  fst (run (PC2.measure_resistance_for_all_voltages small_sweep)
           (all_samples 1))
  = Ret (Some (sweep_results small_sweep (status_sample (all_samples 1))
                 (PC2.W1_VOLTAGES small_sweep) 0 [])).
Proof.
  apply (proj2 (sweep_values_are_the_kept_readings small_sweep
                  (all_samples 1))); reflexivity.
Defined.


End SweepValues.

(* ------------------------------------------------------------------ *)
(** ** 250916PC2.py: the run always returns *)

Section W1Returns.
Import Py Dwf Run Builtins Logic Hoare Traces Escapes Budget Yields Instrument.

Ltac halts_steps' :=
  unfold dwf, print, sleep, emit, dwf_FDwfDeviceOpen,
    dwf_FDwfAnalogInStatus_None, dwf_FDwfAnalogInStatusSample;
  repeat (apply halts_bind; [apply halts_effect | intros ?]).

Lemma plot_histogram_interrupt_only data set_voltage :
  data <> [] ->
  raises_only (W1Histogram.plot_histogram data set_voltage)
              (fun e => e = KeyboardInterrupt).
Proof.
  intros Hd. destruct data as [|x data]; [congruence|].
  unfold W1Histogram.plot_histogram. simpl. ro_steps.
  apply ro_bind; [apply ro_ret | intros ?]. ro_steps.
  apply ro_bind; [apply ro_ret | intros ?]. ro_steps.
  apply ro_effect.
Qed.

Lemma plot_histogram_halts data set_voltage :
  halts (W1Histogram.plot_histogram data set_voltage).
Proof.
  unfold W1Histogram.plot_histogram. simpl. halts_steps'.
  apply halts_bind; [apply halts_lift | intros ?]. halts_steps'.
  apply halts_bind; [apply halts_lift | intros ?]. halts_steps'.
  apply halts_effect.
Qed.

Lemma acquire_interrupt_only (g : W1Histogram.globals) :
  raises_only (W1Histogram.acquire g) (fun e => e = KeyboardInterrupt).
Proof.
  unfold W1Histogram.acquire. ro_steps.
  apply ro_bind.
  - apply ro_for_fold. intros i acc. unfold W1Histogram.sample. ro_steps.
    apply ro_ret.
  - intros l. ro_steps. destruct l as [|x l]; [apply ro_ret|].
    apply plot_histogram_interrupt_only. discriminate.
Qed.

Lemma acquire_halts (g : W1Histogram.globals) :
  halts (W1Histogram.acquire g).
Proof.
  unfold W1Histogram.acquire. halts_steps'.
  apply halts_bind.
  - apply halts_for_fold. intros i acc. unfold W1Histogram.sample.
    halts_steps'. apply halts_ret.
  - intros l. halts_steps'. destruct l as [|x l]; [apply halts_ret|].
    apply plot_histogram_halts.
Qed.

(** X3, on 250916PC2.py.  Every call of [measure_and_plot_w1] returns:
    the interruption is caught, the loop is bounded, and
    [plot_histogram], whose [np.max] and [np.min] raise on an empty
    array, is only called with at least one reading. *)
Theorem measure_and_plot_w1_always_returns (g : W1Histogram.globals)
    (en : env) :
  fst (run (W1Histogram.measure_and_plot_w1 g) en) = Ret tt.
Proof.
  assert (Q : quiet en (W1Histogram.measure_and_plot_w1 g) (fun _ => True)).
  { unfold W1Histogram.measure_and_plot_w1.
    unfold print at 1. eapply quiet_bind; [apply quiet_emit | intros ? _].
    eapply quiet_bind; [apply quiet_open | intros opened _].
    destruct opened; cbn [negb].
    - apply quiet_try_caught.
      + apply acquire_halts.
      + apply acquire_interrupt_only.
      + apply quiet_emit.
      + unfold dwf, print.
        eapply quiet_bind; [apply quiet_emit | intros ? _].
        apply quiet_emit.
    - apply quiet_emit. }
  destruct (quiet_run Q) as ([] & E & _). exact E.
Qed.

End W1Returns.

(* ------------------------------------------------------------------ *)
(** ** 250916PC2.py: what a figure can show *)

Section W1Figure.
Import Py Dwf Run Builtins Logic Hoare Traces Escapes Budget Yields Instrument.

Lemma readings_S en n :
  readings en (S n) = readings en n ++ [status_sample en n].
Proof. unfold readings. rewrite seq_S, map_app. reflexivity. Qed.

(** Steps that neither draw nor read a sample. *)
Ltac plain_steps G k :=
  unfold dwf, print, sleep;
  repeat (eapply t_bind;
          [ apply (@t_emit _ _ (fun w => no_plot w /\ sample_reads w = k)
                           (fun _ w => no_plot w /\ sample_reads w = k)
                           (plots_only G));
            [ intros w0 [H0 _]; exact (@no_plot_any G w0 _ eq_refl H0)
            | intros w0 p0 [H0 H1]; split;
              [ eapply plots_only_cons;
                [ reflexivity | intros ? ? E0; discriminate | exact H0 ]
              | exact H1 ] ]
          | intros ? ]).

Lemma sample_collects en (g : W1Histogram.globals) G i acc k :
  triple en (fun w => no_plot w /\ sample_reads w = k)
    (W1Histogram.sample g i acc)
    (fun acc' w => (no_plot w /\ sample_reads w = S k) /\
                   acc' = acc ++ [status_sample en k])
    (plots_only G).
Proof.
  unfold W1Histogram.sample.
  eapply t_bind.
  { apply (@t_effect _ _ _ (fun w => no_plot w /\ sample_reads w = k)
                     (fun _ w => no_plot w /\ sample_reads w = k)
                     (plots_only G)).
    - intros w [H _]. exact (@no_plot_any G w _ eq_refl H).
    - intros w p [H0 H1]. split; [|exact H1].
      eapply plots_only_cons;
        [ reflexivity | intros ? ? E0; discriminate | exact H0 ]. }
  intros ?. eapply t_bind.
  { apply (@t_effect _ _ _ (fun w => no_plot w /\ sample_reads w = k)
                     (fun v w => (no_plot w /\ sample_reads w = S k) /\
                                 v = status_sample en k)
                     (plots_only G)).
    - intros w [H _]. exact (@no_plot_any G w _ eq_refl H).
    - intros w p [H0 H1]. simpl. rewrite H1. split; [split|]; try reflexivity.
      eapply plots_only_cons;
        [ reflexivity | intros ? ? E0; discriminate | exact H0 ]. }
  intros v. cbv beta. apply t_assume. intros ->.
  plain_steps G (S k).
  apply t_ret. intros w H. split; [exact H | reflexivity].
Qed.

Lemma samples_collected en (g : W1Histogram.globals) G :
  triple en (fun w => no_plot w /\ sample_reads w = 0%nat)
    (for_fold (seq 0 (W1Histogram.N_SAMPLES g)) [] (W1Histogram.sample g))
    (fun acc w =>
       (no_plot w /\ sample_reads w = W1Histogram.N_SAMPLES g) /\
       acc = readings en (W1Histogram.N_SAMPLES g))
    (plots_only G).
Proof.
  eapply t_conseq;
    [ | | | apply (@t_for_fold _ _ en (seq 0 (W1Histogram.N_SAMPLES g))
                    (W1Histogram.sample g)
                    (fun done acc w =>
                       (no_plot w /\ sample_reads w = List.length done) /\
                       acc = readings en (List.length done))
                    (plots_only G) []
                    (fun w => no_plot w /\ sample_reads w = 0%nat)) ].
  - intros w H. exact H.
  - intros acc w. rewrite length_seq. intros H. exact H.
  - intros w H. exact H.
  - intros w H. split; [exact H | reflexivity].
  - intros done i acc. cbv beta. apply t_assume. intros Hacc.
    eapply t_conseq; [ | | | apply sample_collects ].
    + intros w H. exact H.
    + intros acc' w [[H1 H2] H3]. rewrite length_app. simpl.
      rewrite Nat.add_1_r. split; [split; assumption|].
      rewrite readings_S, H3, Hacc. reflexivity.
    + intros w H. exact H.
Qed.

Lemma plot_histogram_draws en (G : _ -> _ -> Prop) data set_voltage k :
  G (map Numpy.Float data) [Numpy.mean data] ->
  triple en (fun w => no_plot w /\ sample_reads w = k)
    (W1Histogram.plot_histogram data set_voltage)
    (fun _ => plots_only G) (plots_only G).
Proof.
  intros HG. unfold W1Histogram.plot_histogram. simpl.
  plain_steps G k.
  eapply t_bind.
  { apply (@t_lift _ en _ (fun w => no_plot w /\ sample_reads w = k)
                   (fun _ w => no_plot w /\ sample_reads w = k)
                   (plots_only G)).
    intros w H. destruct (W1Histogram.amax data); [|exact H].
    destruct H as [H _]. exact (@no_plot_any G w _ eq_refl H). }
  intros ?. plain_steps G k.
  eapply t_bind.
  { apply (@t_lift _ en _ (fun w => no_plot w /\ sample_reads w = k)
                   (fun _ w => no_plot w /\ sample_reads w = k)
                   (plots_only G)).
    intros w H. destruct (W1Histogram.amin data); [|exact H].
    destruct H as [H _]. exact (@no_plot_any G w _ eq_refl H). }
  intros ?. plain_steps G k.
  eapply t_bind.
  { apply (@t_emit _ _ (fun w => no_plot w /\ sample_reads w = k)
                   (fun _ => plots_only G) (plots_only G)).
    - intros w [H _]. exact (@no_plot_any G w _ eq_refl H).
    - intros w p [H _]. eapply plots_only_cons; [reflexivity | |].
      + intros xs ys E. inversion E; subst. exact HG.
      + exact (@no_plot_any G w _ eq_refl H). }
  intros ?. apply t_emit.
  - intros w H. exact H.
  - intros w p H. eapply plots_only_cons;
      [ reflexivity | intros ? ? E0; discriminate | exact H ].
Qed.

Lemma acquire_draws en (g : W1Histogram.globals) :
  triple en (fun w => no_plot w /\ sample_reads w = 0%nat)
    (W1Histogram.acquire g)
    (fun _ => plots_only (complete_histogram en g))
    (plots_only (complete_histogram en g)).
Proof.
  unfold W1Histogram.acquire.
  plain_steps (complete_histogram en g) 0%nat.
  eapply t_bind; [apply samples_collected|].
  intros l. cbv beta. apply t_assume. intros ->.
  plain_steps (complete_histogram en g) (W1Histogram.N_SAMPLES g).
  destruct (readings en (W1Histogram.N_SAMPLES g)) as [|x l] eqn:E.
  - apply t_ret. intros w [H _].
    exact (@no_plot_any _ w _ eq_refl H).
  - rewrite <- E. apply plot_histogram_draws.
    split; [reflexivity | split; [reflexivity|]].
    destruct (W1Histogram.N_SAMPLES g); [discriminate | lia].
Qed.

Lemma measure_and_plot_draws en (g : W1Histogram.globals) :
  triple en (fun w => no_plot w /\ sample_reads w = 0%nat)
    (W1Histogram.measure_and_plot_w1 g)
    (fun _ => plots_only (complete_histogram en g))
    (plots_only (complete_histogram en g)).
Proof.
  unfold W1Histogram.measure_and_plot_w1.
  unfold print at 1. plain_steps (complete_histogram en g) 0%nat.
  eapply t_bind.
  { apply (@t_effect _ _ _ (fun w => no_plot w /\ sample_reads w = 0%nat)
                     (fun _ w => no_plot w /\ sample_reads w = 0%nat)
                     (plots_only (complete_histogram en g))).
    - intros w [H _]. exact (@no_plot_any _ w _ eq_refl H).
    - intros w p [H0 H1]. split; [|exact H1].
      eapply plots_only_cons;
        [ reflexivity | intros ? ? E0; discriminate | exact H0 ]. }
  intros opened. destruct opened; cbn [negb].
  - apply (@t_try _ en _ _ _
             (fun w => no_plot w /\ sample_reads w = 0%nat)
             (fun w => no_plot w /\ sample_reads w = 0%nat)).
    + intros w H. exact H.
    + apply acquire_draws.
    + intros r w H. exact H.
    + intros w H. exact H.
    + intros e h Eh. unfold on_KeyboardInterrupt in Eh.
      destruct (is_KeyboardInterrupt e); inversion Eh; subst.
      apply t_emit.
      * intros w H. exact H.
      * intros w p H. eapply plots_only_cons;
          [ reflexivity | intros ? ? E0; discriminate | exact H ].
    + intros r. unfold dwf, print. eapply t_bind.
      { apply (@t_emit _ _ _ (fun _ => plots_only (complete_histogram en g))
                       (plots_only (complete_histogram en g))).
        - intros w H. exact H.
        - intros w p H. eapply plots_only_cons;
            [ reflexivity | intros ? ? E0; discriminate | exact H ]. }
      intros ?. apply t_emit.
      * intros w H. exact H.
      * intros w p H. eapply plots_only_cons;
          [ reflexivity | intros ? ? E0; discriminate | exact H ].
    + unfold dwf, print. eapply t_bind.
      { apply (@t_emit _ _ _ (fun _ => plots_only (complete_histogram en g))
                       (plots_only (complete_histogram en g))).
        - intros w H. exact H.
        - intros w p H. eapply plots_only_cons;
            [ reflexivity | intros ? ? E0; discriminate | exact H ]. }
      intros ?. apply t_emit.
      * intros w H. exact H.
      * intros w p H. eapply plots_only_cons;
          [ reflexivity | intros ? ? E0; discriminate | exact H ].
  - apply t_emit.
    + intros w [H _]. exact (@no_plot_any _ w _ eq_refl H).
    + intros w p [H _]. eapply plots_only_cons;
        [ reflexivity | intros ? ? E0; discriminate
        | exact (@no_plot_any _ w _ eq_refl H) ].
Qed.

Lemma run_plots {A} (m : M A) en G :
  triple en (fun w => no_plot w /\ sample_reads w = 0%nat) m
         (fun _ => plots_only G) (plots_only G) ->
  forall xs ys, In (Plot xs ys) (snd (run m en)) -> G xs ys.
Proof.
  intros H xs ys Hin.
  assert (H0 : no_plot initial /\ sample_reads initial = 0%nat).
  { split; [intros ? ? []| reflexivity]. }
  specialize (H initial H0). unfold run in Hin.
  destruct (m en initial) as [o w]. simpl in Hin.
  apply in_rev in Hin.
  destruct o; exact (H xs ys Hin).
Qed.

End W1Figure.

(* ------------------------------------------------------------------ *)
(** ** 250916PC2.py: the figure of an uninterrupted run *)

Section W1FigureDrawn.
Import Py Dwf Run Builtins Logic Hoare Traces Escapes Budget Yields Instrument.

(** Steps of a run that is not interrupted and that do not read a
    sample. *)
Ltac calm_steps k :=
  unfold dwf, print, sleep;
  repeat (eapply t_bind;
          [ apply (@t_emit_calm _ _
                     (fun w => pending w = None /\ sample_reads w = k)
                     (fun _ w => pending w = None /\ sample_reads w = k)
                     (fun _ => False));
            [ intros w0 [H0 _]; exact H0
            | intros w0 H0; exact H0 ]
          | intros ? ]).

Ltac drawn_steps F :=
  unfold dwf, print, sleep;
  repeat (eapply t_bind;
          [ apply (@t_emit_calm _ _
                     (fun w => pending w = None /\ In F (trace w))
                     (fun _ w => pending w = None /\ In F (trace w))
                     (fun _ => False));
            [ intros w0 [H0 _]; exact H0
            | intros w0 [H0 H1]; split; [exact H0 | right; exact H1] ]
          | intros ? ]).

Lemma sample_collects_calm en (g : W1Histogram.globals) i acc k :
  triple en (fun w => pending w = None /\ sample_reads w = k)
    (W1Histogram.sample g i acc)
    (fun acc' w => (pending w = None /\ sample_reads w = S k) /\
                   acc' = acc ++ [status_sample en k])
    (fun _ => False).
Proof.
  unfold W1Histogram.sample.
  eapply t_bind.
  { apply (@t_effect_calm _ _ _
             (fun w => pending w = None /\ sample_reads w = k)
             (fun _ w => pending w = None /\ sample_reads w = k)
             (fun _ => False)).
    - intros w [H _]. exact H.
    - intros w H. exact H. }
  intros ?. eapply t_bind.
  { apply (@t_effect_calm _ _ _
             (fun w => pending w = None /\ sample_reads w = k)
             (fun v w => (pending w = None /\ sample_reads w = S k) /\
                         v = status_sample en k)
             (fun _ => False)).
    - intros w [H _]. exact H.
    - intros w [H0 H1]. simpl. rewrite H1. auto. }
  intros v. cbv beta. apply t_assume. intros ->.
  calm_steps (S k).
  apply t_ret. intros w H. split; [exact H | reflexivity].
Qed.

Lemma samples_collected_calm en (g : W1Histogram.globals) :
  triple en (fun w => pending w = None /\ sample_reads w = 0%nat)
    (for_fold (seq 0 (W1Histogram.N_SAMPLES g)) [] (W1Histogram.sample g))
    (fun acc w =>
       (pending w = None /\ sample_reads w = W1Histogram.N_SAMPLES g) /\
       acc = readings en (W1Histogram.N_SAMPLES g))
    (fun _ => False).
Proof.
  eapply t_conseq;
    [ | | | apply (@t_for_fold _ _ en (seq 0 (W1Histogram.N_SAMPLES g))
                    (W1Histogram.sample g)
                    (fun done acc w =>
                       (pending w = None /\
                        sample_reads w = List.length done) /\
                       acc = readings en (List.length done))
                    (fun _ => False) []
                    (fun w => pending w = None /\
                              sample_reads w = 0%nat)) ].
  - intros w H. exact H.
  - intros acc w. rewrite length_seq. intros H. exact H.
  - intros w H. exact H.
  - intros w H. split; [exact H | reflexivity].
  - intros done i acc. cbv beta. apply t_assume. intros Hacc.
    eapply t_conseq; [ | | | apply sample_collects_calm ].
    + intros w H. exact H.
    + intros acc' w [[H1 H2] H3]. rewrite length_app. simpl.
      rewrite Nat.add_1_r. split; [split; assumption|].
      rewrite readings_S, H3, Hacc. reflexivity.
    + intros w H. exact H.
Qed.

Lemma plot_histogram_drawn en x data set_voltage k :
  triple en (fun w => pending w = None /\ sample_reads w = k)
    (W1Histogram.plot_histogram (x :: data) set_voltage)
    (fun _ w =>
       pending w = None /\
       In (Plot (map Numpy.Float (x :: data)) [Numpy.mean (x :: data)])
          (trace w))
    (fun _ => False).
Proof.
  unfold W1Histogram.plot_histogram.
  cbn [Histogram.statistics W1Histogram.amax W1Histogram.amin lift].
  calm_steps k.
  eapply t_bind with (R := fun _ w => pending w = None /\ sample_reads w = k);
    [apply t_ret; intros w H; exact H | intros ?].
  calm_steps k.
  eapply t_bind with (R := fun _ w => pending w = None /\ sample_reads w = k);
    [apply t_ret; intros w H; exact H | intros ?].
  eapply t_bind.
  { apply (@t_emit_calm _ _
             (fun w => pending w = None /\ sample_reads w = k)
             (fun _ w => pending w = None /\ sample_reads w = k)
             (fun _ => False)).
    - intros w [H _]. exact H.
    - intros w H. exact H. }
  intros ?. eapply t_bind.
  { apply (@t_emit_calm _ _
             (fun w => pending w = None /\ sample_reads w = k)
             (fun _ w =>
                pending w = None /\
                In (Plot (map Numpy.Float (x :: data))
                         [Numpy.mean (x :: data)]) (trace w))
             (fun _ => False)).
    - intros w [H _]. exact H.
    - intros w [H _]. split; [exact H | left; reflexivity]. }
  intros ?. apply t_emit_calm.
  - intros w [H _]. exact H.
  - intros w [H0 H1]. split; [exact H0 | right; exact H1].
Qed.

Lemma acquire_drawn en (g : W1Histogram.globals) :
  (0 < W1Histogram.N_SAMPLES g)%nat ->
  triple en (fun w => pending w = None /\ sample_reads w = 0%nat)
    (W1Histogram.acquire g)
    (fun _ w =>
       pending w = None /\
       In (Plot (map Numpy.Float (readings en (W1Histogram.N_SAMPLES g)))
                [Numpy.mean (readings en (W1Histogram.N_SAMPLES g))])
          (trace w))
    (fun _ => False).
Proof.
  intros HN. unfold W1Histogram.acquire.
  calm_steps 0%nat.
  eapply t_bind; [apply samples_collected_calm|].
  intros l. cbv beta. apply t_assume. intros ->.
  calm_steps (W1Histogram.N_SAMPLES g).
  destruct (readings en (W1Histogram.N_SAMPLES g)) as [|x l] eqn:E.
  - exfalso. destruct (W1Histogram.N_SAMPLES g); [lia|].
    unfold readings in E. simpl in E. discriminate.
  - apply plot_histogram_drawn.
Qed.

Lemma measure_and_plot_drawn en (g : W1Histogram.globals) :
  device_opens en = true -> interrupt_at en = None ->
  (0 < W1Histogram.N_SAMPLES g)%nat ->
  triple en (fun w => pending w = None /\ sample_reads w = 0%nat)
    (W1Histogram.measure_and_plot_w1 g)
    (fun _ w =>
       In (Plot (map Numpy.Float (readings en (W1Histogram.N_SAMPLES g)))
                [Numpy.mean (readings en (W1Histogram.N_SAMPLES g))])
          (trace w))
    (fun _ => False).
Proof.
  intros Ho Hi HN. unfold W1Histogram.measure_and_plot_w1.
  unfold print at 1. calm_steps 0%nat.
  eapply t_bind.
  { apply (@t_effect_calm _ _ _
             (fun w => pending w = None /\ sample_reads w = 0%nat)
             (fun opened w => (pending w = None /\ sample_reads w = 0%nat)
                              /\ opened = device_opens en)
             (fun _ => False)).
    - intros w [H _]. exact H.
    - intros w H. split; [exact H | reflexivity]. }
  intros opened. cbv beta. apply t_assume. intros ->. rewrite Ho.
  cbn [negb].
  eapply t_conseq;
    [ | | | apply (@t_try _ en _ _ _
                    (fun w => pending w = None /\ sample_reads w = 0%nat)
                    (fun w => pending w = None /\ sample_reads w = 0%nat)
                    (fun _ w =>
                       pending w = None /\
                       In (Plot (map Numpy.Float
                                   (readings en (W1Histogram.N_SAMPLES g)))
                                [Numpy.mean
                                   (readings en (W1Histogram.N_SAMPLES g))])
                          (trace w))
                    (fun _ => False)) ].
  - intros w H. exact H.
  - intros r w [_ H]. exact H.
  - intros w H. exact H.
  - intros w [_ H]. rewrite Hi. split; [reflexivity | exact H].
  - apply acquire_drawn. exact HN.
  - intros r w [_ H]. split; [reflexivity | exact H].
  - intros w [].
  - intros e h _ w [].
  - intros r. drawn_steps
      (Plot (map Numpy.Float (readings en (W1Histogram.N_SAMPLES g)))
            [Numpy.mean (readings en (W1Histogram.N_SAMPLES g))]).
    apply t_emit_calm.
    + intros w [H _]. exact H.
    + intros w [H0 H1]. split; [exact H0 | right; exact H1].
  - intros w [].
Qed.

(** X4, on 250916PC2.py.  A histogram is never drawn from part of the
    readings: any figure of a run shows all [N_SAMPLES] readings, in
    the order the device gave them, with their mean, and there is none
    when [N_SAMPLES] is 0.  An uninterrupted run on an open device with
    [N_SAMPLES > 0] draws it. *)
Theorem histogram_shows_every_reading (g : W1Histogram.globals) (en : env) :
  (forall xs ys,
      In (Plot xs ys) (snd (run (W1Histogram.measure_and_plot_w1 g) en)) ->
      xs = map Numpy.Float (readings en (W1Histogram.N_SAMPLES g)) /\
      ys = [Numpy.mean (readings en (W1Histogram.N_SAMPLES g))] /\
      (0 < W1Histogram.N_SAMPLES g)%nat) /\
  (device_opens en = true -> interrupt_at en = None ->
   (0 < W1Histogram.N_SAMPLES g)%nat ->
   In (Plot (map Numpy.Float (readings en (W1Histogram.N_SAMPLES g)))
            [Numpy.mean (readings en (W1Histogram.N_SAMPLES g))])
      (snd (run (W1Histogram.measure_and_plot_w1 g) en))).
Proof.
  split.
  - apply (run_plots (@measure_and_plot_draws en g)).
  - intros Ho Hi HN.
    pose proof (@measure_and_plot_drawn en g Ho Hi HN initial
                  (conj eq_refl eq_refl)) as H.
    unfold run.
    destruct (W1Histogram.measure_and_plot_w1 g en initial) as [[a|e|] w];
      try contradiction.
    simpl. apply -> in_rev. exact H.
Qed.

Lemma histogram_shows_every_reading_witness :
  In (Plot (map Numpy.Float
              (readings (all_samples 1)
                        (W1Histogram.N_SAMPLES small_histogram)))
           [Numpy.mean (readings (all_samples 1)
                          (W1Histogram.N_SAMPLES small_histogram))])
     (snd (run (W1Histogram.measure_and_plot_w1 small_histogram)
               (all_samples 1))).
Proof.
  apply (proj2 (histogram_shows_every_reading small_histogram
                  (all_samples 1))).
  - reflexivity.
  - reflexivity.
  - simpl. lia.
Defined.

End W1FigureDrawn.

(* ------------------------------------------------------------------ *)
(** ** 250916readpin.py: a loop that only the user ends *)

Section ReadPinRuns.
Import Py Dwf Run Builtins Logic Hoare Traces Escapes Budget Yields Instrument.

Lemma forever_cut en (body : M unit) n :
  spends en body n ->
  forall fuel, cut en (ReadPin.forever fuel body) (n * fuel).
Proof.
  intros Hb. induction fuel as [|fuel IH]; intros w j H L; [lia|].
  simpl. rewrite bind_eq. specialize (Hb w j H).
  destruct (Nat.ltb_spec j n) as [L1|L1].
  - destruct Hb as [w' ->]. eexists. reflexivity.
  - destruct Hb as (a & w1 & -> & H1). apply (IH w1 _ H1). lia.
Qed.

Lemma forever_outlives en (body : M unit) :
  quiet en body (fun _ => True) ->
  forall fuel, outlives en (ReadPin.forever fuel body).
Proof.
  intros Hb. induction fuel as [|fuel IH]; intros w H; [reflexivity|].
  simpl. rewrite bind_eq.
  destruct (Hb w H) as (a & w1 & -> & H1 & _). apply IH. exact H1.
Qed.

Lemma forever_never_returns (body : M unit) fuel :
  returns (ReadPin.forever fuel body) (fun _ => False).
Proof.
  induction fuel as [|fuel IH]; intros en w a w' E.
  - discriminate.
  - simpl in E. rewrite bind_eq in E.
    destruct (body en w) as [[u|e|] w1]; try discriminate.
    exact (IH en w1 a w' E).
Qed.

Lemma forever_interrupt_only (body : M unit) fuel E :
  raises_only body E -> raises_only (ReadPin.forever fuel body) E.
Proof.
  intros Hb. induction fuel as [|fuel IH].
  - intros en w e w' H. discriminate.
  - simpl. apply ro_bind; [exact Hb | intros ?; exact IH].
Qed.

Ltac spend_steps :=
  unfold dwf, print, sleep, emit, dwf_FDwfAnalogInStatus_None,
    dwf_FDwfAnalogInStatusSample.

Lemma reading_spends en (g : ReadPin.globals) :
  spends en (ReadPin.reading g) 4.
Proof.
  unfold ReadPin.reading. spend_steps.
  apply (@spends_bind _ _ en _ _ 1 3); [apply spends_effect | intros ?].
  apply (@spends_bind _ _ en _ _ 1 2); [apply spends_effect | intros ?].
  apply (@spends_bind _ _ en _ _ 1 1); [apply spends_effect | intros ?].
  apply spends_effect.
Qed.

Lemma reading_quiet en (g : ReadPin.globals) :
  quiet en (ReadPin.reading g) (fun _ => True).
Proof.
  unfold ReadPin.reading.
  eapply quiet_bind; [apply quiet_effect; reflexivity | intros ? _].
  eapply quiet_bind; [apply quiet_effect; reflexivity | intros ? _].
  unfold print, sleep.
  eapply quiet_bind; [apply quiet_emit | intros ? _].
  apply quiet_emit.
Qed.

Lemma monitor_cut en (g : ReadPin.globals) :
  cut en (ReadPin.monitor g) (13 + 4 * poll_bound en).
Proof.
  unfold ReadPin.monitor. spend_steps.
  do 13 (apply (@cut_bind _ _ en _ _ 1); [apply spends_effect | intros ?]).
  unfold ReadPin.while_True. intros w j H L.
  exact (@forever_cut en _ 4 (reading_spends en g) (poll_bound en) w j H L).
Qed.

Lemma monitor_outlives en (g : ReadPin.globals) :
  outlives en (ReadPin.monitor g).
Proof.
  unfold ReadPin.monitor, dwf, print, sleep.
  do 13 (eapply outlives_bind; [apply quiet_emit | intros ?]).
  unfold ReadPin.while_True. intros w H.
  exact (@forever_outlives en _ (reading_quiet en g) (poll_bound en) w H).
Qed.

Lemma monitor_never_returns (g : ReadPin.globals) :
  returns (ReadPin.monitor g) (fun _ => False).
Proof.
  unfold ReadPin.monitor.
  do 13 (eapply returns_bind; [apply returns_any | intros ? _]).
  unfold ReadPin.while_True. intros en w r w' E.
  exact (@forever_never_returns _ _ en w r w' E).
Qed.

Lemma monitor_interrupt_only (g : ReadPin.globals) :
  raises_only (ReadPin.monitor g) (fun e => e = KeyboardInterrupt).
Proof.
  unfold ReadPin.monitor. spend_steps.
  do 13 (apply ro_bind; [apply ro_effect | intros ?]).
  unfold ReadPin.while_True. intros en w e w' E.
  refine (@forever_interrupt_only _ (poll_bound en)
            (fun e => e = KeyboardInterrupt) _ en w e w' E).
  unfold ReadPin.reading. spend_steps.
  do 3 (apply ro_bind; [apply ro_effect | intros ?]).
  apply ro_effect.
Qed.

Lemma read_voltages_unfold (g : ReadPin.globals) (en : env) :
  device_opens en = true ->
  ReadPin.read_voltages g en initial
  = try_except_finally
      (ReadPin.monitor g)
      (on_KeyboardInterrupt (print "\n\nMeasurement stopped by user."))
      (bind (dwf (FDwfAnalogOutConfigure 0 false))
            (fun _ => bind (dwf FDwfDeviceCloseAll)
                           (fun _ => print "Device closed.")))
      en
      (log (Driver (FDwfDeviceOpen (-1) true))
           (log (Print "Opening first device...") initial)).
Proof.
  intros Ho. unfold ReadPin.read_voltages.
  rewrite bind_eq. unfold print at 1. unfold emit, effect at 1.
  simpl pending. cbv iota.
  rewrite bind_eq. unfold dwf_FDwfDeviceOpen at 1. unfold effect at 1.
  simpl pending. cbv iota. rewrite Ho. reflexivity.
Qed.

Lemma read_voltages_ends (g : ReadPin.globals) (en : env) o w :
  device_opens en = true ->
  ReadPin.read_voltages g en initial = (o, w) ->
  o <> Diverge ->
  o = Ret tt /\
  In (Print "\n\nMeasurement stopped by user.") (rev (trace w)) /\
  wavegen_running (after (rev (trace w))) = false /\
  handle_open (after (rev (trace w))) = false /\
  last_call (rev (trace w)) = Some FDwfDeviceCloseAll.
Proof.
  intros Ho. rewrite (read_voltages_unfold g Ho).
  unfold try_except_finally.
  match goal with
  | |- context [let '(o, w1) := ?body en ?w in _] =>
      pose proof (@monitor_never_returns g en w) as Hn;
      pose proof (@monitor_interrupt_only g en w) as Hi;
      destruct (body en w) as [[a|e|] w1]
  end.
  - exfalso. exact (Hn a w1 eq_refl).
  - rewrite (Hi e w1 eq_refl). simpl.
    intros E _. inversion E; subst. simpl.
    rewrite !after_snoc, !last_call_snoc. simpl.
    repeat split.
    rewrite !in_app_iff. left. left. left. right. left. reflexivity.
  - simpl. intros E H. inversion E; subst. congruence.
Qed.

(** X5, on 250916readpin.py.  The readout loop has no exit of its own:
    on an open device a run that is not interrupted goes on for as long
    as the model follows it, and an interruption at any point of the
    [try] body (13 steps of set-up, then 4 per reading) makes
    [read_voltages] return. *)
Theorem read_voltages_stops_only_on_interruption (g : ReadPin.globals)
    (en : env) :
  device_opens en = true ->
  (interrupt_at en = None ->
   fst (run (ReadPin.read_voltages g) en) = Diverge) /\
  (forall k, interrupt_at en = Some k ->
             (k < 13 + 4 * poll_bound en)%nat ->
             fst (run (ReadPin.read_voltages g) en) = Ret tt).
Proof.
  intros Ho. unfold run. rewrite (read_voltages_unfold g Ho).
  unfold try_except_finally. split.
  - intros Hi. rewrite Hi.
    match goal with
    | |- context [let '(o, w1) := ?body en ?w in _] =>
        pose proof (@monitor_outlives en g w eq_refl) as H;
        destruct (body en w) as [o w1]
    end.
    simpl in H. subst o. reflexivity.
  - intros k Hi Hk. rewrite Hi.
    match goal with
    | |- context [let '(o, w1) := ?body en ?w in _] =>
        destruct (@monitor_cut en g w k eq_refl Hk) as [w' ->]
    end.
    reflexivity.
Qed.

(** X6, on 250916readpin.py.  Once the device is open, a run of
    [read_voltages] that ends has been interrupted: it returns normally
    after printing that the user stopped the measurement, its [finally]
    block has stopped the waveform generator, and the last driver call
    is [FDwfDeviceCloseAll]. *)
Theorem read_voltages_exit_state (g : ReadPin.globals) (en : env) :
  device_opens en = true ->
  fst (run (ReadPin.read_voltages g) en) <> Diverge ->
  fst (run (ReadPin.read_voltages g) en) = Ret tt /\
  In (Print "\n\nMeasurement stopped by user.")
     (snd (run (ReadPin.read_voltages g) en)) /\
  wavegen_running (after (snd (run (ReadPin.read_voltages g) en))) = false /\
  handle_open (after (snd (run (ReadPin.read_voltages g) en))) = false /\
  last_call (snd (run (ReadPin.read_voltages g) en))
  = Some FDwfDeviceCloseAll.
Proof.
  intros Ho. unfold run.
  destruct (ReadPin.read_voltages g en initial) as [o w] eqn:E.
  simpl. exact (read_voltages_ends Ho E).
Qed.

Lemma read_voltages_stops_only_on_interruption_witness :
  fst (run (ReadPin.read_voltages ReadPin.script) (bench None)) = Diverge /\
  fst (run (ReadPin.read_voltages ReadPin.script) (bench (Some 20%nat)))
  = Ret tt.
Proof.
  split.
  - apply (proj1 (@read_voltages_stops_only_on_interruption
                    ReadPin.script (bench None) eq_refl)). reflexivity.
  - apply (proj2 (@read_voltages_stops_only_on_interruption
                    ReadPin.script (bench (Some 20%nat)) eq_refl)
                 20%nat).
    + reflexivity.
    + simpl. lia.
Defined.

Lemma read_voltages_exit_state_witness :
  fst (run (ReadPin.read_voltages ReadPin.script) (bench (Some 20%nat)))
  = Ret tt /\
  In (Print "\n\nMeasurement stopped by user.")
     (snd (run (ReadPin.read_voltages ReadPin.script)
               (bench (Some 20%nat)))) /\
  wavegen_running
    (after (snd (run (ReadPin.read_voltages ReadPin.script)
                     (bench (Some 20%nat))))) = false /\
  handle_open
    (after (snd (run (ReadPin.read_voltages ReadPin.script)
                     (bench (Some 20%nat))))) = false /\
  last_call (snd (run (ReadPin.read_voltages ReadPin.script)
                      (bench (Some 20%nat))))
  = Some FDwfDeviceCloseAll.
Proof.
  apply (@read_voltages_exit_state ReadPin.script (bench (Some 20%nat))).
  - reflexivity.
  - vm_compute. discriminate.
Defined.

End ReadPinRuns.

(* ------------------------------------------------------------------ *)
(** ** min_1.py: the returned triple *)

Section Min1Result.
Import Py Dwf Run Builtins Logic Hoare Traces Escapes Budget Yields Instrument.
Variable np_sqrt : Q -> Q.

Lemma rms_of_array (a : list Q) :
  (a = [] /\ Min1.rms np_sqrt a = Numpy.NaN) \/
  (a <> [] /\ exists q, Min1.rms np_sqrt a = Numpy.Float q).
Proof.
  destruct a as [|x a].
  - left. split; reflexivity.
  - right. split; [discriminate|]. unfold Min1.rms.
    rewrite mean_finite by discriminate. eexists. reflexivity.
Qed.

Lemma reduce_returns (g : Min1.globals) (vin_array vx_array : list Q) :
  List.length vin_array = Min1.N_SAMPLES g ->
  List.length vx_array = Min1.N_SAMPLES g ->
  returns (Min1.reduce np_sqrt g vin_array vx_array)
    (fun res => forall r a b, res = Some (r, a, b) ->
       a = vin_array /\ b = vx_array /\
       rms_resistance np_sqrt g r a b).
Proof.
  intros L1 L2. unfold Min1.reduce.
  destruct (rms_of_array vin_array) as [[E1 R1]|[N1 [x R1]]];
    rewrite R1.
  - apply returns_ret. intros r va vb E. inversion E; subst.
    repeat split. simpl. rewrite <- L1. reflexivity.
  - destruct (rms_of_array vx_array) as [[E2 R2]|[N2 [y R2]]];
      rewrite R2.
    + apply returns_ret. intros r va vb E. inversion E; subst.
      repeat split. simpl. rewrite <- L2. reflexivity.
    + unfold Min1.divider.
      destruct (Qle_bool (x - y) 0) eqn:Eg.
      * eapply returns_bind; [apply returns_any | intros ? _].
        apply returns_ret. intros r va vb E. discriminate.
      * apply returns_ret. intros r va vb E. inversion E; subst.
        repeat split. simpl. exists x, y.
        repeat split; try assumption.
        assert (H : ~ x - y <= 0).
        { intros H. apply Qle_bool_iff in H. congruence. }
        apply Qnot_le_lt in H. lra.
Qed.

Lemma measure_resistance_returns (g : Min1.globals) :
  returns (Min1.measure_resistance np_sqrt g)
    (fun res => forall r a b, res = Some (r, a, b) ->
       List.length a = Min1.N_SAMPLES g /\
       List.length b = Min1.N_SAMPLES g /\
       rms_resistance np_sqrt g r a b).
Proof.
  unfold Min1.measure_resistance.
  eapply returns_bind; [apply returns_any | intros ? _].
  eapply returns_bind; [apply returns_any | intros opened _].
  destruct opened; cbn [negb].
  - apply returns_try.
    + do 20 (eapply returns_bind; [apply returns_any | intros ? _]).
      eapply returns_bind; [apply returns_StatusData | intros vin L1].
      eapply returns_bind; [apply returns_StatusData | intros vx L2].
      eapply returns_bind; [apply returns_any | intros ? _].
      intros en w res w' E r va vb Er.
      destruct (@reduce_returns g vin vx L1 L2 en w res w' E r va vb Er)
        as (-> & -> & H).
      auto.
    + intros e h Eh. unfold on_KeyboardInterrupt in Eh.
      destruct (is_KeyboardInterrupt e); inversion Eh; subst.
      eapply returns_bind; [apply returns_any | intros ? _].
      apply returns_ret. intros r va vb E. discriminate.
  - eapply returns_bind; [apply returns_any | intros ? _].
    apply returns_ret. intros r va vb E. discriminate.
Qed.

(** X7, on min_1.py.  When [measure_resistance] returns a triple, both
    arrays have [N_SAMPLES] elements, and the resistance is
    [R_REF * vx_rms / (vin_rms - vx_rms)] computed from their RMS
    values with [vin_rms > vx_rms]; the only other value is nan, which
    needs an empty record ([N_SAMPLES = 0]). *)
Theorem rms_measurement_result (g : Min1.globals) (en : env)
    (r : Numpy.float64) (vin_array vx_array : list Q) :
  fst (run (Min1.measure_resistance np_sqrt g) en)
  = Ret (Some (r, vin_array, vx_array)) ->
  List.length vin_array = Min1.N_SAMPLES g /\
  List.length vx_array = Min1.N_SAMPLES g /\
  rms_resistance np_sqrt g r vin_array vx_array.
Proof.
  intros E. apply run_ret in E. destruct E as [w' E].
  exact (@measure_resistance_returns g en initial _ w' E r _ _ eq_refl).
Qed.

Lemma min1_body_interrupt_only (g : Min1.globals)
    (m : list Q -> list Q -> M (option Min1.result)) :
  (forall a b, raises_only (m a b) (fun e => e = KeyboardInterrupt)) ->
  raises_only
    (bind (while_True_poll true DwfStateDone 0.01) (fun _ =>
       bind (dwf_FDwfAnalogInStatusData 0 (Min1.N_SAMPLES g)) (fun a =>
         bind (dwf_FDwfAnalogInStatusData 1 (Min1.N_SAMPLES g)) (fun b =>
           m a b))))
    (fun e => e = KeyboardInterrupt).
Proof.
  intros Hm. apply ro_bind; [apply ro_while | intros ?].
  ro_steps. apply Hm.
Qed.

Lemma reduce_interrupt_only (g : Min1.globals) a b :
  raises_only (Min1.reduce np_sqrt g a b) (fun e => e = KeyboardInterrupt).
Proof.
  unfold Min1.reduce.
  destruct (Min1.rms np_sqrt a); try apply ro_ret.
  destruct (Min1.rms np_sqrt b); try apply ro_ret.
  destruct (Min1.divider g q q0); [apply ro_ret|].
  ro_steps. apply ro_ret.
Qed.

Lemma min1_safe (g : Min1.globals) en :
  safe en (Min1.measure_resistance np_sqrt g).
Proof.
  unfold Min1.measure_resistance.
  unfold print at 1.
  eapply safe_bind; [apply quiet_emit | intros ? _].
  eapply safe_bind; [apply quiet_open | intros opened _].
  destruct opened; cbn [negb].
  - apply safe_try.
    + ro_steps. apply min1_body_interrupt_only. intros va vb.
      ro_steps. apply reduce_interrupt_only.
    + unfold print. eapply quiet_bind; [apply quiet_emit | intros ? _].
      apply quiet_ret. exact I.
    + unfold dwf, print. eapply quiet_bind; [apply quiet_emit | intros ? _].
      apply quiet_emit.
  - apply (@safe_quiet _ en _ (fun _ => True)). unfold print.
    eapply quiet_bind; [apply quiet_emit | intros ? _].
    apply quiet_ret. exact I.
Qed.

End Min1Result.

Lemma rms_measurement_result_witness :
  exists r vin_array vx_array,
    fst (Run.run (Min1.measure_resistance (fun q => q) small_min1)
                 divider_bench)
    = Py.Ret (Some (r, vin_array, vx_array)) /\
    List.length vin_array = Min1.N_SAMPLES small_min1 /\
    List.length vx_array = Min1.N_SAMPLES small_min1 /\
    rms_resistance (fun q => q) small_min1 r vin_array vx_array.
Proof.
  eexists _, _, _. split.
  - lazy. reflexivity.
  - apply (@rms_measurement_result (fun q => q) small_min1 divider_bench).
    lazy. reflexivity.
Defined.

(* ------------------------------------------------------------------ *)
(** ** PC2.py and min_1.py: no exception escapes *)

Section NoException.
Import Py Dwf Run Builtins Logic Hoare Traces Escapes Budget Yields Instrument.

Lemma sweep_safe (g : PC2.globals) en :
  safe en (PC2.measure_resistance_for_all_voltages g).
Proof.
  unfold PC2.measure_resistance_for_all_voltages.
  unfold print at 1.
  eapply safe_bind; [apply quiet_emit | intros ? _].
  eapply safe_bind; [apply quiet_open | intros opened _].
  destruct opened; cbn [negb].
  - apply safe_try.
    + apply ro_bind; [|intros; apply ro_ret].
      apply ro_for_fold. intros vin d. unfold PC2.setpoint. ro_steps.
      apply ro_bind.
      * apply ro_for_fold. intros i acc. unfold PC2.sample. ro_steps.
        destruct (PC2.divider g vin _); ro_steps; apply ro_ret.
      * intros l. ro_steps. apply ro_ret.
    + unfold print. eapply quiet_bind; [apply quiet_emit | intros ? _].
      apply quiet_ret. exact I.
    + unfold dwf, print. eapply quiet_bind; [apply quiet_emit | intros ? _].
      apply quiet_emit.
  - apply (@safe_quiet _ en _ (fun _ => True)). unfold print.
    eapply quiet_bind; [apply quiet_emit | intros ? _].
    apply quiet_ret. exact I.
Qed.

(** X8, on PC2.py and min_1.py.  No exception leaves
    [measure_resistance_for_all_voltages] or [measure_resistance]: the
    interruption is caught, and nothing else in the [try] bodies can
    raise (the quotients are guarded). *)
Theorem divider_measurements_never_raise :
  (forall (g : PC2.globals) (en : env) (e : exn),
      fst (run (PC2.measure_resistance_for_all_voltages g) en) <> Raise e) /\
  (forall (np_sqrt : Q -> Q) (g : Min1.globals) (en : env) (e : exn),
      fst (run (Min1.measure_resistance np_sqrt g) en) <> Raise e).
Proof.
  split.
  - intros g en. apply safe_run. apply sweep_safe.
  - intros np_sqrt g en. apply safe_run. apply min1_safe.
Qed.

End NoException.

(* ------------------------------------------------------------------ *)
(** ** diode_character_test.py: exit state and exceptions *)

Section DiodeExit.
Import Py Dwf Run Builtins Logic Hoare Traces Escapes Budget Yields Instrument.

Lemma diode_reduce_raises (g : Diode.globals) b1 b2 :
  List.length b1 = List.length b2 ->
  raises_only (Diode.reduce g b1 b2) (diode_may_raise g).
Proof.
  intros L. unfold Diode.reduce, Diode.current.
  rewrite subtract_same_length by (symmetry; exact L).
  simpl. apply ro_bind; [apply ro_ret | intros ?; apply ro_ret].
Qed.

Lemma diode_try_body_raises (g : Diode.globals) :
  raises_only
    (bind (dwf (FDwfAnalogOutNodeEnableSet 0 AnalogOutNodeCarrier true))
       (fun _ =>
     bind (dwf (FDwfAnalogOutNodeFunctionSet 0 AnalogOutNodeCarrier
                  funcRampUp)) (fun _ =>
     bind (truediv 1.0 (Diode.SWEEP_TIME g)) (fun hz =>
     bind (dwf (FDwfAnalogOutNodeFrequencySet 0 AnalogOutNodeCarrier hz))
       (fun _ =>
     bind (dwf (FDwfAnalogOutNodeOffsetSet 0 AnalogOutNodeCarrier
              ((Diode.V_END g - Diode.V_START g) / 2))) (fun _ =>
     bind (dwf (FDwfAnalogOutNodeAmplitudeSet 0 AnalogOutNodeCarrier
              ((Diode.V_END g - Diode.V_START g) / 2))) (fun _ =>
     bind (dwf (FDwfAnalogInChannelEnableSet 0 true)) (fun _ =>
     bind (dwf (FDwfAnalogInChannelEnableSet 1 true)) (fun _ =>
     bind (dwf (FDwfAnalogInChannelRangeSet 0 5.0)) (fun _ =>
     bind (dwf (FDwfAnalogInChannelRangeSet 1 5.0)) (fun _ =>
     bind (dwf (FDwfAnalogInFrequencySet (Diode.SAMPLING_FREQ g))) (fun _ =>
     bind (dwf (FDwfAnalogInBufferSizeSet (Diode.BUFFER_SIZE g))) (fun _ =>
     bind (dwf (FDwfAnalogInTriggerSourceSet trigsrcAnalogOut1)) (fun _ =>
     bind (dwf (FDwfAnalogInTriggerTypeSet trigtypeEdge)) (fun _ =>
     bind (dwf (FDwfAnalogInTriggerConditionSet (trigcond_int 0))) (fun _ =>
     bind (dwf (FDwfAnalogInTriggerLevelSet 0.1)) (fun _ =>
     bind (print "Starting measurement...") (fun _ =>
     bind (dwf (FDwfAnalogOutConfigure 0 true)) (fun _ =>
     bind (sleep 0.1) (fun _ =>
     bind (dwf (FDwfAnalogInConfigure true true)) (fun _ =>
     bind (while_True_poll true stsDone 0.1) (fun _ =>
     bind (print "Measurement complete. Acquiring data...") (fun _ =>
     bind (dwf_FDwfAnalogInStatusData 0 (Diode.BUFFER_SIZE g))
       (fun buffer_ch1 =>
     bind (dwf_FDwfAnalogInStatusData 1 (Diode.BUFFER_SIZE g))
       (fun buffer_ch2 =>
     bind (Diode.reduce g buffer_ch1 buffer_ch2) (fun r =>
     ret (Some r)))))))))))))))))))))))))))
    (diode_may_raise g).
Proof.
  assert (K : forall A (f : env -> world -> event * A * world),
             raises_only (effect f) (diode_may_raise g)).
  { intros A f. eapply ro_weaken; [|apply ro_effect].
    intros e ->. left. reflexivity. }
  unfold dwf, print, sleep, emit.
  do 2 (apply ro_bind; [apply K | intros ?]).
  apply ro_bind.
  { eapply ro_weaken; [|apply ro_truediv]. intros e H. right. exact H. }
  intros hz.
  do 17 (apply ro_bind; [apply K | intros ?]).
  apply ro_bind.
  { eapply ro_weaken; [|apply ro_while]. intros e ->. left. reflexivity. }
  intros ?. apply ro_bind; [apply K | intros ?].
  eapply ro_bind_val; [apply returns_StatusData | apply K | intros b1 L1].
  eapply ro_bind_val; [apply returns_StatusData | apply K | intros b2 L2].
  apply ro_bind; [|intros; apply ro_ret].
  apply diode_reduce_raises. congruence.
Qed.

Lemma diode_unfold (g : Diode.globals) (en : env) :
  device_opens en = true ->
  exists body,
    Diode.measure_led_iv_curve g en initial
    = try_except_finally body
        (on_KeyboardInterrupt
           (bind (print "\nMeasurement stopped by user.")
                 (fun _ => ret None)))
        (bind (dwf (FDwfAnalogOutConfigure 0 false))
              (fun _ => bind (dwf FDwfDeviceCloseAll)
                             (fun _ => print "Device closed.")))
        en
        (log (Driver (FDwfDeviceOpen (-1) true))
             (log (Print "Opening first device...") initial)) /\
    raises_only body (diode_may_raise g).
Proof.
  intros Ho. eexists. split.
  - unfold Diode.measure_led_iv_curve.
    rewrite bind_eq. unfold print at 1. unfold emit, effect at 1.
    simpl pending. cbv iota.
    rewrite bind_eq. unfold dwf_FDwfDeviceOpen at 1. unfold effect at 1.
    simpl pending. cbv iota. rewrite Ho. reflexivity.
  - apply diode_try_body_raises.
Qed.

Lemma diode_ends (g : Diode.globals) (en : env) o w :
  device_opens en = true ->
  Diode.measure_led_iv_curve g en initial = (o, w) ->
  o <> Diverge ->
  wavegen_running (after (rev (trace w))) = false /\
  handle_open (after (rev (trace w))) = false /\
  last_call (rev (trace w)) = Some FDwfDeviceCloseAll.
Proof.
  intros Ho. destruct (diode_unfold g Ho) as (body & -> & _).
  unfold try_except_finally.
  destruct (body en _) as [[a|e|] w1].
  - simpl. intros E _. inversion E; subst. simpl.
    rewrite !after_snoc, !last_call_snoc. simpl. auto.
  - unfold on_KeyboardInterrupt. destruct e; simpl;
      intros E _; inversion E; subst; simpl;
      rewrite !after_snoc, !last_call_snoc; simpl; auto.
  - simpl. intros E H. inversion E; subst. congruence.
Qed.

(** X9, on diode_character_test.py.  Once the device is open, every
    run of [measure_led_iv_curve] that ends, by completion, by
    interruption or by an error, has stopped the waveform generator and
    released the handle: the last driver call is
    [FDwfDeviceCloseAll]. *)
Theorem led_sweep_exit_state (g : Diode.globals) (en : env) :
  device_opens en = true ->
  fst (run (Diode.measure_led_iv_curve g) en) <> Diverge ->
  wavegen_running (after (snd (run (Diode.measure_led_iv_curve g) en)))
  = false /\
  handle_open (after (snd (run (Diode.measure_led_iv_curve g) en)))
  = false /\
  last_call (snd (run (Diode.measure_led_iv_curve g) en))
  = Some FDwfDeviceCloseAll.
Proof.
  intros Ho. unfold run.
  destruct (Diode.measure_led_iv_curve g en initial) as [o w] eqn:E.
  simpl. exact (diode_ends Ho E).
Qed.

Lemma diode_raises (g : Diode.globals) (en : env) e :
  fst (run (Diode.measure_led_iv_curve g) en) = Raise e ->
  e = ZeroDivisionError /\ Diode.SWEEP_TIME g == 0.
Proof.
  unfold run. destruct (device_opens en) eqn:Ho.
  - destruct (diode_unfold g Ho) as (body & -> & Hr).
    match goal with
    | |- context [try_except_finally ?b ?h ?f en ?w] =>
        destruct (try_except_finally b h f en w) as [o w'] eqn:E
    end.
    simpl. intros ->.
    apply try_caught_raises with (E := diode_may_raise g) in E.
    + destruct E as [[->|H] Hk]; [congruence | exact H].
    + exact Hr.
    + unfold print. eapply quiet_bind; [apply quiet_emit | intros ? _].
      apply quiet_ret. exact I.
    + unfold dwf, print.
      eapply quiet_bind; [apply quiet_emit | intros ? _].
      eapply quiet_bind; [apply quiet_emit | intros ? _].
      apply quiet_emit.
  - unfold Diode.measure_led_iv_curve.
    rewrite bind_eq. unfold print at 1. unfold emit, effect at 1.
    simpl pending. cbv iota.
    rewrite bind_eq. unfold dwf_FDwfDeviceOpen at 1. unfold effect at 1.
    simpl pending. cbv iota. rewrite Ho. simpl. discriminate.
Qed.

Lemma diode_zero_sweep_time (g : Diode.globals) (en : env) :
  Diode.SWEEP_TIME g == 0 ->
  device_opens en = true -> interrupt_at en = None ->
  fst (run (Diode.measure_led_iv_curve g) en) = Raise ZeroDivisionError.
Proof.
  intros Hz Ho Hi. unfold run, Diode.measure_led_iv_curve.
  rewrite bind_eq. unfold print at 1. unfold emit, effect at 1.
  simpl pending. cbv iota.
  rewrite bind_eq. unfold dwf_FDwfDeviceOpen at 1. unfold effect at 1.
  simpl pending. cbv iota. rewrite Ho. cbn [negb].
  unfold try_except_finally. rewrite Hi.
  rewrite bind_eq. unfold dwf at 1. rewrite emit_calm by reflexivity.
  rewrite bind_eq. unfold dwf at 1. rewrite emit_calm by reflexivity.
  rewrite bind_eq. unfold truediv.
  apply Qeq_bool_iff in Hz. rewrite Hz. reflexivity.
Qed.

(** X10, on diode_character_test.py.  The only exception that can
    leave [measure_led_iv_curve] is the [ZeroDivisionError] of
    [1.0 / SWEEP_TIME], and only when [SWEEP_TIME] is zero, in which
    case an uninterrupted run on an open device raises it (the two
    buffers have equal length, so the subtraction cannot fail, and the
    interruption is caught). *)
Theorem led_sweep_raises_only_for_zero_sweep_time (g : Diode.globals) :
  (forall en e,
      fst (run (Diode.measure_led_iv_curve g) en) = Raise e ->
      e = ZeroDivisionError /\ Diode.SWEEP_TIME g == 0) /\
  (Diode.SWEEP_TIME g == 0 ->
   forall en, device_opens en = true -> interrupt_at en = None ->
     fst (run (Diode.measure_led_iv_curve g) en) = Raise ZeroDivisionError).
Proof.
  split.
  - intros en e. apply diode_raises.
  - intros Hz en. apply diode_zero_sweep_time. exact Hz.
Qed.

Lemma led_sweep_exit_state_witness :
  wavegen_running
    (after (snd (run (Diode.measure_led_iv_curve small_diode)
                     (bench (Some 5%nat))))) = false /\
  handle_open
    (after (snd (run (Diode.measure_led_iv_curve small_diode)
                     (bench (Some 5%nat))))) = false /\
  last_call (snd (run (Diode.measure_led_iv_curve small_diode)
                      (bench (Some 5%nat))))
  = Some FDwfDeviceCloseAll.
Proof.
  apply (@led_sweep_exit_state small_diode (bench (Some 5%nat))).
  - reflexivity.
  - vm_compute. discriminate.
Defined.

Lemma led_sweep_raises_only_for_zero_sweep_time_witness :
  fst (run (Diode.measure_led_iv_curve instant_diode) (bench None))
  = Raise ZeroDivisionError.
Proof.
  apply (proj2 (led_sweep_raises_only_for_zero_sweep_time instant_diode)).
  - reflexivity.
  - reflexivity.
  - reflexivity.
Defined.

End DiodeExit.

(* ------------------------------------------------------------------ *)
(** ** PC3_test_min.py: the outcomes of the RC measurement *)

Section RcOutcomes.
Import Py Dwf Run Builtins Logic Hoare Traces Escapes Budget Yields Instrument.






End RcOutcomes.

(* ------------------------------------------------------------------ *)
(** ** opamp.py: the figure and the interruption *)

Section OpampFigure.
Import Py Dwf Run Builtins Logic Hoare Traces Escapes Budget Yields Instrument.

Lemma length_linspace start stop num :
  List.length (Numpy.linspace start stop num) = num.
Proof.
  unfold Numpy.linspace. destruct num as [|[|d]]; try reflexivity.
  rewrite length_app, length_map, length_seq. simpl. lia.
Qed.

(** Steps that draw nothing. *)
Ltac blank_steps :=
  unfold dwf, print, sleep;
  repeat (eapply t_bind;
          [ apply (@t_emit _ _ no_plot (fun _ => no_plot) no_plot);
            [ intros w0 H0; exact H0
            | intros w0 p0 H0; eapply plots_only_cons;
              [ reflexivity | intros ? ? E0; discriminate | exact H0 ] ]
          | intros ? ]).

Lemma sweep_step_blank en (g : Opamp.globals) v vin_data vout_data :
  triple en no_plot (Opamp.sweep_step g v (vin_data, vout_data))
    (fun data w =>
       no_plot w /\
       List.length (fst data) = S (List.length vin_data) /\
       List.length (snd data) = S (List.length vout_data))
    no_plot.
Proof.
  unfold Opamp.sweep_step. blank_steps.
  eapply t_bind; [apply while_plots | intros ?].
  eapply t_bind.
  { apply (@t_effect _ _ _ no_plot (fun _ => no_plot) no_plot).
    - intros w H. exact H.
    - intros w p H. eapply plots_only_cons;
        [ reflexivity | intros ? ? E0; discriminate | exact H ]. }
  intros b1. eapply t_bind.
  { apply (@t_effect _ _ _ no_plot (fun _ => no_plot) no_plot).
    - intros w H. exact H.
    - intros w p H. eapply plots_only_cons;
        [ reflexivity | intros ? ? E0; discriminate | exact H ]. }
  intros b2. blank_steps.
  apply t_ret. intros w H. simpl. rewrite !length_app. simpl.
  split; [exact H | lia].
Qed.

Lemma sweep_blank en (g : Opamp.globals) (vs : list Q) :
  triple en no_plot (for_fold vs ([], []) (Opamp.sweep_step g))
    (fun data w =>
       no_plot w /\ curve_of (List.length vs) (fst data) (snd data))
    no_plot.
Proof.
  eapply t_conseq;
    [ | | | apply (@t_for_fold _ _ en vs (Opamp.sweep_step g)
                    (fun done data w =>
                       no_plot w /\
                       curve_of (List.length done) (fst data) (snd data))
                    no_plot ([], []) no_plot) ].
  - intros w H. exact H.
  - intros data w H. exact H.
  - intros w H. exact H.
  - intros w H. split; [exact H | split; reflexivity].
  - intros done v [vin_data vout_data]. cbv beta. simpl fst. simpl snd.
    apply t_assume. intros [L1 L2].
    eapply t_conseq; [ | | | apply sweep_step_blank ].
    + intros w H. exact H.
    + intros data w (H & H1 & H2). split; [exact H|].
      split; rewrite length_app; simpl; lia.
    + intros w H. exact H.
Qed.

Lemma opamp_draws en (g : Opamp.globals) :
  triple en no_plot (Opamp.get_amplifier_transfer_curve g)
    (fun _ => plots_only (curve_of (Opamp.SWEEP_STEPS g))) no_plot.
Proof.
  unfold Opamp.get_amplifier_transfer_curve.
  unfold print at 1. blank_steps.
  eapply t_bind.
  { apply (@t_effect _ _ _ no_plot (fun _ => no_plot) no_plot).
    - intros w H. exact H.
    - intros w p H. eapply plots_only_cons;
        [ reflexivity | intros ? ? E0; discriminate | exact H ]. }
  intros opened. destruct opened; cbn [negb].
  - eapply t_bind
      with (R := fun r w =>
                   no_plot w /\
                   forall vin vout, r = Some (vin, vout) ->
                     curve_of (Opamp.SWEEP_STEPS g) vin vout).
    + apply (@t_try _ en _ _ _ no_plot no_plot).
      * intros w H. exact H.
      * blank_steps. cbv zeta.
        eapply t_bind; [apply sweep_blank | intros data].
        rewrite length_linspace. cbv beta. apply t_assume. intros HC.
        blank_steps. apply t_ret. intros w H. split; [exact H|].
        intros vin vout E. inversion E; subst. exact HC.
      * intros r w H. exact H.
      * intros w H. exact H.
      * intros e h Eh. unfold on_Exception in Eh.
        destruct (isinstance_Exception e); inversion Eh; subst.
        blank_steps. apply t_ret. intros w H. split; [exact H|].
        intros vin vout E. discriminate.
      * intros r. unfold Opamp.cleanup.
        unfold dwf, print.
        do 3 (eapply t_bind;
              [ apply (@t_emit _ _ _
                         (fun _ w =>
                            no_plot w /\
                            forall vin vout, r = Some (vin, vout) ->
                              curve_of (Opamp.SWEEP_STEPS g) vin vout)
                         no_plot);
                [ intros w0 [H0 _]; exact H0
                | intros w0 p0 [H0 H1]; split; [|exact H1];
                  eapply plots_only_cons;
                  [ reflexivity | intros ? ? E0; discriminate | exact H0 ] ]
              | intros ? ]).
        apply t_emit.
        -- intros w0 [H0 _]. exact H0.
        -- intros w0 p0 [H0 H1]. split; [|exact H1].
           eapply plots_only_cons;
             [ reflexivity | intros ? ? E0; discriminate | exact H0 ].
      * unfold Opamp.cleanup. blank_steps. apply t_emit.
        -- intros w H. exact H.
        -- intros w p H. eapply plots_only_cons;
             [ reflexivity | intros ? ? E0; discriminate | exact H ].
    + intros [[vin vout]|].
      * apply t_emit.
        -- intros w [H _]. exact H.
        -- intros w p [H HC]. eapply plots_only_cons; [reflexivity | |].
           ++ intros xs ys E. inversion E; subst. exact (HC _ _ eq_refl).
           ++ exact (@no_plot_any _ w _ eq_refl H).
      * apply t_ret. intros w [H _]. exact (@no_plot_any _ w _ eq_refl H).
  - blank_steps. apply t_ret. intros w H.
    exact (@no_plot_any _ w _ eq_refl H).
Qed.

Lemma opamp_interrupt_only (g : Opamp.globals) :
  raises_only (Opamp.get_amplifier_transfer_curve g)
              (fun e => e = KeyboardInterrupt).
Proof.
  unfold Opamp.get_amplifier_transfer_curve. ro_steps.
  match goal with |- raises_only (if negb ?o then _ else _) _ =>
    destruct o end; cbn [negb].
  - apply ro_bind.
    + apply ro_try.
      * ro_steps. cbv zeta. apply ro_bind.
        -- apply ro_for_fold. intros v [vin vout]. unfold Opamp.sweep_step.
           ro_steps. apply ro_bind; [apply ro_while | intros ?].
           ro_steps. apply ro_ret.
        -- intros data. ro_steps. apply ro_ret.
      * intros e h Eh. unfold on_Exception in Eh.
        destruct (isinstance_Exception e); inversion Eh; subst.
        ro_steps. apply ro_ret.
      * unfold Opamp.cleanup. ro_steps. apply ro_effect.
    + intros [[vin vout]|]; [apply ro_effect | apply ro_ret].
  - ro_steps. apply ro_ret.
Qed.

Lemma opamp_unfold (g : Opamp.globals) (en : env) :
  device_opens en = true ->
  exists body,
    Opamp.get_amplifier_transfer_curve g en initial
    = bind (try_except_finally body
              (on_Exception (bind (print "\nAn error occurred: {e}")
                                  (fun _ => ret None)))
              Opamp.cleanup)
           (fun transfer_curve_data =>
              match transfer_curve_data with
              | Some (vin, vout) => emit (Plot vin vout)
              | None => ret tt
              end)
           en
           (log (Driver (FDwfDeviceOpen (-1) true))
                (log (Print "Opening first device...") initial)) /\
    cut en body 22.
Proof.
  intros Ho. eexists. split.
  - unfold Opamp.get_amplifier_transfer_curve.
    rewrite bind_eq. unfold print at 1. unfold emit, effect at 1.
    simpl pending. cbv iota.
    rewrite bind_eq. unfold dwf_FDwfDeviceOpen at 1. unfold effect at 1.
    simpl pending. cbv iota. rewrite Ho. reflexivity.
  - unfold dwf, print, sleep, emit.
    do 22 (apply (@cut_bind _ _ en _ _ 1); [apply spends_effect | intros ?]).
    apply cut_zero.
Qed.

(** X12, on opamp.py.  Whenever [get_amplifier_transfer_curve] draws
    its figure, the sweep was completed and the function returns: both
    lists of the measured curve have [SWEEP_STEPS] points. *)
Theorem transfer_curve_figure_is_complete (g : Opamp.globals) (en : env)
    (xs ys : list Numpy.float64) :
  In (Plot xs ys) (snd (run (Opamp.get_amplifier_transfer_curve g) en)) ->
  List.length xs = Opamp.SWEEP_STEPS g /\
  List.length ys = Opamp.SWEEP_STEPS g /\
  fst (run (Opamp.get_amplifier_transfer_curve g) en) = Ret tt.
Proof.
  unfold run.
  pose proof (@opamp_draws en g initial) as H.
  destruct (Opamp.get_amplifier_transfer_curve g en initial) as [o w].
  simpl. intros Hin. apply in_rev in Hin.
  assert (H0 : no_plot initial) by (intros ? ? []).
  specialize (H H0).
  destruct o as [[]|e|].
  - destruct (H xs ys Hin) as [L1 L2]. auto.
  - destruct (H xs ys Hin).
  - destruct (H xs ys Hin).
Qed.

(** X13, on opamp.py.  The [try] statement of
    [get_amplifier_transfer_curve] has no handler for the interruption
    ([except Exception] does not match it): the only exception that
    can leave the function is [KeyboardInterrupt], no figure is drawn
    in that case, and an interruption during the 22 steps of set-up is
    passed on to the caller. *)
Theorem transfer_curve_interruption_propagates (g : Opamp.globals)
    (en : env) :
  (forall e,
      fst (run (Opamp.get_amplifier_transfer_curve g) en) = Raise e ->
      e = KeyboardInterrupt /\
      forall xs ys,
        ~ In (Plot xs ys)
             (snd (run (Opamp.get_amplifier_transfer_curve g) en))) /\
  (device_opens en = true ->
   forall k, interrupt_at en = Some k -> (k < 22)%nat ->
     fst (run (Opamp.get_amplifier_transfer_curve g) en)
     = Raise KeyboardInterrupt).
Proof.
  split.
  - unfold run.
    pose proof (@opamp_draws en g initial) as H.
    pose proof (@opamp_interrupt_only g en initial) as Hr.
    destruct (Opamp.get_amplifier_transfer_curve g en initial) as [o w].
    simpl. intros e ->. split; [exact (Hr e w eq_refl)|].
    intros xs ys Hin. apply in_rev in Hin.
    assert (H0 : no_plot initial) by (intros ? ? []).
    exact (H H0 xs ys Hin).
  - intros Ho k Hi Hk. unfold run.
    destruct (opamp_unfold g Ho) as (body & -> & Hcut).
    rewrite bind_eq. unfold try_except_finally. rewrite Hi.
    match goal with
    | |- context [body en ?w] =>
        destruct (Hcut w k eq_refl Hk) as [w' ->]
    end.
    reflexivity.
Qed.

Lemma transfer_curve_figure_is_complete_witness :
  exists xs ys,
    In (Plot xs ys)
       (snd (run (Opamp.get_amplifier_transfer_curve small_opamp)
                 (bench None))) /\
    List.length xs = Opamp.SWEEP_STEPS small_opamp /\
    List.length ys = Opamp.SWEEP_STEPS small_opamp /\
    fst (run (Opamp.get_amplifier_transfer_curve small_opamp) (bench None))
    = Ret tt.
Proof.
  eexists _, _.
  assert (H : forall A B : Prop, A -> (A -> B) -> A /\ B) by tauto.
  apply H.
  - lazy. repeat (first [left; reflexivity | right]).
  - apply transfer_curve_figure_is_complete.
Defined.

Lemma transfer_curve_interruption_propagates_witness :
  fst (run (Opamp.get_amplifier_transfer_curve small_opamp)
           (bench (Some 5%nat)))
  = Raise KeyboardInterrupt.
Proof.
  apply (proj2 (transfer_curve_interruption_propagates small_opamp
                  (bench (Some 5%nat))) eq_refl 5%nat).
  - reflexivity.
  - simpl. lia.
Defined.

End OpampFigure.

(* ------------------------------------------------------------------ *)
(** ** All scripts: a device that does not open *)

Section OpenFailure.
Import Py Dwf Run Builtins Logic Hoare Traces Escapes Budget Yields Instrument.

Ltac fails_at_open Ho :=
  unfold run, bind, print, dwf, emit, dwf_FDwfDeviceOpen, effect;
  simpl; rewrite Ho; reflexivity.

(** X14, on PC2.py, min_1.py, diode_character_test.py and
    PC3_test_min.py.  When the device does not open, the measurement
    functions return their [None] value; after the open attempt they
    make no driver call at all (nothing is configured, started, read or
    closed). *)
Theorem measurements_return_none_without_a_device (en : env) :
  device_opens en = false ->
  (forall g, run (PC2.measure_resistance_for_all_voltages g) en
             = (Ret None, open_attempt_only)) /\
  (forall np_sqrt g, run (Min1.measure_resistance np_sqrt g) en
                     = (Ret None, open_attempt_only)) /\
  (forall g, run (Diode.measure_led_iv_curve g) en
             = (Ret None, open_attempt_only)) /\
  (forall g, run (PC3Test.measure_rc_circuit g) en
             = (Ret None, [Driver (FDwfDeviceOpen (-1) false);
                           Print "Failed to open device"])).
Proof.
  intros Ho. repeat split; intros.
  - unfold PC2.measure_resistance_for_all_voltages. fails_at_open Ho.
  - unfold Min1.measure_resistance. fails_at_open Ho.
  - unfold Diode.measure_led_iv_curve. fails_at_open Ho.
  - unfold PC3Test.measure_rc_circuit. fails_at_open Ho.
Qed.

(** X15, on opamp.py, 250916PC2.py and 250916readpin.py.  When the
    device does not open, the three procedures return at once; only
    opamp.py makes one more driver call, to fetch the error message. *)
Theorem procedures_stop_without_a_device (en : env) :
  device_opens en = false ->
  (forall g, run (Opamp.get_amplifier_transfer_curve g) en
             = (Ret tt, open_attempt_only
                        ++ [Driver FDwfGetLastErrorMsg;
                            Print "str(szerr.value)"])) /\
  (forall g, run (W1Histogram.measure_and_plot_w1 g) en
             = (Ret tt, open_attempt_only)) /\
  (forall g, run (ReadPin.read_voltages g) en
             = (Ret tt, open_attempt_only)).
Proof.
  intros Ho. repeat split; intros.
  - unfold Opamp.get_amplifier_transfer_curve. fails_at_open Ho.
  - unfold W1Histogram.measure_and_plot_w1. fails_at_open Ho.
  - unfold ReadPin.read_voltages. fails_at_open Ho.
Qed.

Lemma measurements_return_none_without_a_device_witness :
  (forall g, run (PC2.measure_resistance_for_all_voltages g) unplugged
             = (Ret None, open_attempt_only)) /\
  (forall np_sqrt g, run (Min1.measure_resistance np_sqrt g) unplugged
                     = (Ret None, open_attempt_only)) /\
  (forall g, run (Diode.measure_led_iv_curve g) unplugged
             = (Ret None, open_attempt_only)) /\
  (forall g, run (PC3Test.measure_rc_circuit g) unplugged
             = (Ret None, [Driver (FDwfDeviceOpen (-1) false);
                           Print "Failed to open device"])).
Proof.
  apply (@measurements_return_none_without_a_device unplugged).
  reflexivity.
Defined.

Lemma procedures_stop_without_a_device_witness :
  (forall g, run (Opamp.get_amplifier_transfer_curve g) unplugged
             = (Ret tt, open_attempt_only
                        ++ [Driver FDwfGetLastErrorMsg;
                            Print "str(szerr.value)"])) /\
  (forall g, run (W1Histogram.measure_and_plot_w1 g) unplugged
             = (Ret tt, open_attempt_only)) /\
  (forall g, run (ReadPin.read_voltages g) unplugged
             = (Ret tt, open_attempt_only)).
Proof.
  apply (@procedures_stop_without_a_device unplugged). reflexivity.
Defined.

End OpenFailure.

(* ------------------------------------------------------------------ *)
(** ** PC2.py: the figure of histograms and the entry point *)

Section SweepFigure.
Import Py Dwf Run Builtins Logic Hoare Traces Escapes Budget Yields Instrument.

Lemma draw_length ax item :
  (List.length (PC2Figure.draw ax item) <= 1)%nat.
Proof. destruct item as [vin [|x data]]; simpl; lia. Qed.

Lemma draw_shows ax vin data h :
  In h (PC2Figure.draw ax (vin, data)) ->
  PC2Figure.axis h = ax /\ PC2Figure.vin h = vin /\
  PC2Figure.data h = data /\ data <> [] /\
  exists m, PC2Figure.mean h = Numpy.Float m.
Proof.
  destruct data as [|x data]; simpl; [intros []|].
  intros [<-|[]]. simpl. repeat split; try discriminate.
  rewrite mean_finite by discriminate. eexists. reflexivity.
Qed.

Lemma zipped_length (a n : nat) (d : dict (list Q)) :
  (List.length (flat_map (fun p => PC2Figure.draw (fst p) (snd p))
                         (combine (seq a n) d)) <= n)%nat.
Proof.
  revert a d. induction n as [|n IH]; intros a d; simpl; [lia|].
  destruct d as [|item d]; simpl; [lia|].
  rewrite length_app. pose proof (draw_length a item).
  specialize (IH (S a) d). lia.
Qed.

Lemma zipped_items (a n : nat) (d : dict (list Q)) :
  map (fun h => (PC2Figure.vin h, PC2Figure.data h))
      (flat_map (fun p => PC2Figure.draw (fst p) (snd p))
                (combine (seq a n) d))
  = filter (fun item => negb (is_empty (snd item))) (firstn n d).
Proof.
  revert a d. induction n as [|n IH]; intros a d; simpl; [reflexivity|].
  destruct d as [|[vin [|x data]] d]; simpl; [reflexivity | apply IH |].
  f_equal. apply IH.
Qed.

Lemma zipped_shows (a n : nat) (d : dict (list Q)) h :
  In h (flat_map (fun p => PC2Figure.draw (fst p) (snd p))
                 (combine (seq a n) d)) ->
  (a <= PC2Figure.axis h < a + n)%nat /\
  nth_error d (PC2Figure.axis h - a)
  = Some (PC2Figure.vin h, PC2Figure.data h) /\
  PC2Figure.data h <> [] /\
  exists m, PC2Figure.mean h = Numpy.Float m.
Proof.
  revert a d. induction n as [|n IH]; intros a d; simpl; [intros []|].
  destruct d as [|[vin data] d]; simpl; [intros []|].
  rewrite in_app_iff. intros [H|H].
  - apply draw_shows in H. destruct H as (Ha & Hv & Hd & Hn & Hm).
    rewrite Ha, Hv, Hd, Nat.sub_diag. simpl.
    repeat split; try lia; try assumption.
  - destruct (IH (S a) d H) as (Hr & Hn & He & Hm).
    repeat split; try lia; try assumption.
    replace (PC2Figure.axis h - a)%nat
      with (S (PC2Figure.axis h - S a))%nat by lia.
    exact Hn.
Qed.

(** X16, on PC2.py.  [plot_histograms_subplot] draws at most four
    histograms: one for each of the first four items of the dictionary
    that has data, in the order of the dictionary, on the axes that
    [zip] pairs with the item; an item without data leaves its axes
    empty, and the mean written on a histogram is always finite. *)
Theorem one_histogram_per_measured_setpoint (all_data : dict (list Q)) :
  (List.length (PC2Figure.histograms all_data) <= 4)%nat /\
  map (fun h => (PC2Figure.vin h, PC2Figure.data h))
      (PC2Figure.histograms all_data)
  = filter (fun item => negb (is_empty (snd item))) (firstn 4 all_data) /\
  Forall (shows_item all_data) (PC2Figure.histograms all_data).
Proof.
  unfold PC2Figure.histograms. split; [|split].
  - apply zipped_length.
  - apply zipped_items.
  - apply Forall_forall. intros h H. apply zipped_shows in H.
    destruct H as (Hr & Hn & He & Hm). rewrite Nat.sub_0_r in Hn.
    unfold shows_item. repeat split; try lia; assumption.
Qed.

Lemma main_unfold (g : PC2.globals) (en : env) o w :
  PC2.measure_resistance_for_all_voltages g en initial = (o, w) ->
  PC2Figure.main g en initial
  = match o with
    | Ret (Some (item :: d)) =>
        PC2Figure.plot_histograms_subplot (item :: d) en w
    | Ret _ => (Ret tt, w)
    | Raise e => (Raise e, w)
    | Diverge => (Diverge, w)
    end.
Proof.
  intros E. unfold PC2Figure.main. rewrite bind_eq, E.
  destruct o as [[[|item d]|]|e|]; reflexivity.
Qed.

Lemma sweep_returns_calm (g : PC2.globals) (en : env) r w :
  PC2.measure_resistance_for_all_voltages g en initial = (Ret r, w) ->
  pending w = None.
Proof.
  unfold PC2.measure_resistance_for_all_voltages.
  rewrite bind_eq. unfold print at 1. unfold emit, effect at 1.
  simpl pending. cbv iota.
  rewrite bind_eq. unfold dwf_FDwfDeviceOpen at 1. unfold effect at 1.
  simpl pending. cbv iota.
  destruct (device_opens en); cbn [negb].
  - unfold try_except_finally.
    match goal with
    | |- context [let '(o, w1) := ?body en ?w in _] =>
        destruct (body en w) as [[a|e|] w1]
    end.
    + simpl. intros E. inversion E; subst. reflexivity.
    + unfold on_KeyboardInterrupt. destruct e; simpl;
        intros E; inversion E; subst; reflexivity.
    + simpl. discriminate.
  - simpl. intros E. inversion E; subst. reflexivity.
Qed.

Lemma for_fold_emit {H} en (hs : list H) (f : H -> event) w :
  pending w = None ->
  exists w',
    for_fold hs tt (fun h _ => emit (f h)) en w = (Ret tt, w') /\
    pending w' = None /\
    rev (trace w') = rev (trace w) ++ map f hs.
Proof.
  revert w. induction hs as [|h hs IH]; intros w Hp; simpl.
  - exists w. rewrite app_nil_r. auto.
  - rewrite bind_eq. unfold emit at 1. unfold effect. rewrite Hp.
    destruct (IH (log (f h) w) Hp) as (w' & E & Hp' & Ht).
    exists w'. split; [exact E|]. split; [exact Hp'|].
    rewrite Ht. simpl. rewrite <- app_assoc. reflexivity.
Qed.

(** X17, on PC2.py.  The entry point draws the histograms of exactly
    what the measurement returned, after the device was closed, and
    does nothing more when the measurement returned [None] or an empty
    dictionary. *)
Theorem main_draws_the_measured_histograms (g : PC2.globals) (en : env)
    (r : option (dict (list Q))) :
  fst (run (PC2.measure_resistance_for_all_voltages g) en) = Ret r ->
  run (PC2Figure.main g) en
  = (Ret tt,
     snd (run (PC2.measure_resistance_for_all_voltages g) en)
     ++ match r with
        | Some (item :: d) =>
            map (fun h => Plot (map Numpy.Float (PC2Figure.data h))
                               [PC2Figure.mean h])
                (PC2Figure.histograms (item :: d))
            ++ [Print "\nPlotting all graphs..."]
        | _ => []
        end).
Proof.
  unfold run.
  destruct (PC2.measure_resistance_for_all_voltages g en initial)
    as [o w] eqn:E.
  simpl. intros ->. rewrite (main_unfold E).
  pose proof (sweep_returns_calm E) as Hp.
  destruct r as [[|item d]|]; try (rewrite app_nil_r; reflexivity).
  unfold PC2Figure.plot_histograms_subplot. rewrite bind_eq.
  destruct (@for_fold_emit _ en (PC2Figure.histograms (item :: d))
              (fun h => Plot (map Numpy.Float (PC2Figure.data h))
                             [PC2Figure.mean h]) w Hp)
    as (w' & -> & Hp' & Ht).
  unfold print, emit, effect. rewrite Hp'. simpl.
  rewrite Ht, <- app_assoc. reflexivity.
Qed.

Lemma main_draws_the_measured_histograms_witness :
  run (PC2Figure.main small_sweep) (all_samples 1)
  = (Ret tt,
     snd (run (PC2.measure_resistance_for_all_voltages small_sweep)
              (all_samples 1))
     ++ map (fun h => Plot (map Numpy.Float (PC2Figure.data h))
                           [PC2Figure.mean h])
            (PC2Figure.histograms
               (sweep_results small_sweep (status_sample (all_samples 1))
                  (PC2.W1_VOLTAGES small_sweep) 0 []))
     ++ [Print "\nPlotting all graphs..."]).
Proof.
  apply (@main_draws_the_measured_histograms small_sweep (all_samples 1)
           (Some (sweep_results small_sweep (status_sample (all_samples 1))
                    (PC2.W1_VOLTAGES small_sweep) 0 []))).
  vm_compute. reflexivity.
Defined.

End SweepFigure.

(* ------------------------------------------------------------------ *)
(** ** PC2.py, min_1.py, PC3_test_min.py: the generator is left running *)

Section LeftRunning.
Import Py Dwf Run Builtins Logic Hoare Traces Escapes Budget Yields Instrument.

(** A step before the generator is started. *)
Ltac idle_step :=
  eapply t_bind;
  [ apply (@t_emit _ _ _ (fun _ _ => True) (fun _ => True));
    intros; exact I
  | intros ? ].

(** The step that starts the generator. *)
Ltac start_step :=
  eapply t_bind;
  [ apply (@t_emit _ _ (fun _ => True) (fun _ => running) (fun _ => True));
    [ intros; exact I
    | intros w0 p0 _; eapply started; reflexivity ]
  | intros ? ].

(** Steps that leave the generator alone. *)
Ltac running_steps :=
  unfold dwf, print, sleep;
  repeat (eapply t_bind;
          [ first
              [ apply (@t_emit _ _ running (fun _ => running)
                               (fun _ => True))
              | apply (@t_effect _ _ _ running (fun _ => running)
                                 (fun _ => True)) ];
            [ intros; exact I
            | intros w0 p0 H0; eapply running_cons;
              [ reflexivity | intros ? E0; discriminate | exact H0 ] ]
          | intros ? ]).

Lemma min1_reduce_running en np_sqrt (g : Min1.globals) a b :
  triple en running (Min1.reduce np_sqrt g a b)
    (fun r w => r <> None -> running w) (fun _ => True).
Proof.
  unfold Min1.reduce.
  destruct (Min1.rms np_sqrt a);
    try (apply t_ret; intros w H _; exact H).
  destruct (Min1.rms np_sqrt b);
    try (apply t_ret; intros w H _; exact H).
  destruct (Min1.divider g q q0).
  - apply t_ret. intros w H _. exact H.
  - running_steps. apply t_ret. intros w H E. congruence.
Qed.

Lemma min1_left_running en np_sqrt (g : Min1.globals) :
  triple en (fun _ => True) (Min1.measure_resistance np_sqrt g)
    (fun r w => r <> None -> running w) (fun _ => True).
Proof.
  unfold Min1.measure_resistance.
  unfold print at 1. unfold dwf_FDwfDeviceOpen.
  idle_step.
  eapply t_bind.
  { apply (@t_effect _ _ _ (fun _ => True) (fun _ _ => True)
                     (fun _ => True)); intros; exact I. }
  intros opened. destruct opened; cbn [negb].
  - apply (@t_try _ en _ _ _ (fun _ => True) (fun _ => True)).
    + intros; exact I.
    + unfold dwf, print, sleep. do 5 idle_step. start_step.
      running_steps.
      eapply t_bind; [apply while_running | intros ?].
      unfold dwf_FDwfAnalogInStatusData. running_steps.
      apply min1_reduce_running.
    + intros r w H. exact H.
    + intros; exact I.
    + intros e h Eh. unfold on_KeyboardInterrupt in Eh.
      destruct (is_KeyboardInterrupt e); inversion Eh; subst.
      unfold print. idle_step. apply t_ret. intros w _ E. exfalso. apply E. reflexivity.
    + intros r. unfold dwf, print. eapply t_bind.
      { apply (@t_emit _ _ _ (fun _ w => r <> None -> running w)
                       (fun _ => True)).
        - intros; exact I.
        - intros w p H Hr. eapply running_cons;
            [ reflexivity | intros ? E0; discriminate | exact (H Hr) ]. }
      intros ?. apply t_emit.
      * intros; exact I.
      * intros w p H Hr. eapply running_cons;
          [ reflexivity | intros ? E0; discriminate | exact (H Hr) ].
    + unfold dwf, print. idle_step. apply t_emit; intros; exact I.
  - unfold print. idle_step. apply t_ret. intros w _ E. exfalso. apply E. reflexivity.
Qed.

Lemma rc_left_running en (g : PC3Test.globals) :
  triple en (fun _ => True) (PC3Test.measure_rc_circuit g)
    (fun r w => r <> None -> running w) (fun _ => True).
Proof.
  unfold PC3Test.measure_rc_circuit. unfold dwf_FDwfDeviceOpen.
  eapply t_bind.
  { apply (@t_effect _ _ _ (fun _ => True) (fun _ _ => True)
                     (fun _ => True)); intros; exact I. }
  intros opened. destruct opened; cbn [negb].
  - apply (@t_try_return _ _ en _ _ _ (fun _ => True) (fun _ => True)
             (fun l w => l <> None -> running w) (fun _ => True)).
    + intros; exact I.
    + unfold dwf, print, sleep. do 6 idle_step. start_step.
      running_steps.
      eapply t_bind; [apply while_running | intros ?].
      unfold dwf_FDwfAnalogInStatusData. running_steps.
      eapply t_bind.
      { apply (@t_lift _ en _ running (fun _ => running) (fun _ => True)).
        intros w H. destruct (PC3Test.current _ _ _); [exact I | exact H]. }
      intros cur. cbv zeta. unfold PC3Test.plot_results.
      eapply t_bind with (R := fun _ => running).
      * eapply t_bind with (R := fun _ => running).
        -- destruct (PC3Test.decay_start _); simpl.
           ++ apply t_ret. intros w H. exact H.
           ++ apply t_raise. intros; exact I.
        -- intros i. unfold scipy_curve_fit.
           eapply t_bind with (R := fun _ => running).
           ++ eapply t_bind.
              ** apply (@t_effect _ _ _ running (fun _ => running)
                                  (fun _ => True)).
                 --- intros; exact I.
                 --- intros w p H. eapply running_cons;
                       [ reflexivity | intros ? E0; discriminate
                       | exact H ].
              ** intros r. apply t_lift. intros w H.
                 destruct r; [exact I | exact H].
           ++ intros params. apply t_ret. intros w H. exact H.
      * intros tmp. apply t_ret. intros w H _. exact H.
    + intros l w H. exact H.
    + intros; exact I.
    + intros; exact I.
    + intros e h Eh. unfold on_KeyboardInterrupt in Eh.
      destruct (is_KeyboardInterrupt e); inversion Eh; subst.
      unfold print. idle_step. apply t_ret. intros w _ E. exfalso. apply E. reflexivity.
    + intros [p|]; unfold dwf; simpl.
      * eapply t_bind with (R := fun _ => running).
        -- apply t_emit; [intros; exact I|].
           intros w p0 H. eapply running_cons;
             [ reflexivity | intros ? E0; discriminate
             | apply H; discriminate ].
        -- intros ?. eapply t_bind with (R := fun _ => running).
           ++ apply t_ret. intros w H. exact H.
           ++ intros tmp. apply t_ret. intros w H _. exact H.
      * idle_step. eapply t_bind with (R := fun _ _ => False).
        -- apply t_raise. intros; exact I.
        -- intros tmp w [].
    + unfold dwf. simpl. idle_step.
      eapply t_bind with (R := fun _ _ => False).
      * apply t_raise. intros; exact I.
      * intros tmp w [].
  - unfold print. idle_step. apply t_ret. intros w _ E. exfalso. apply E. reflexivity.
Qed.

Lemma sample_running en (g : PC2.globals) vin i acc :
  triple en running (PC2.sample g vin i acc) (fun _ => running)
         (fun _ => True).
Proof.
  unfold PC2.sample, dwf_FDwfAnalogInStatus_None,
    dwf_FDwfAnalogInStatusSample.
  running_steps.
  destruct (PC2.divider g vin _).
  - running_steps. apply t_ret. intros w H. exact H.
  - apply t_ret. intros w H. exact H.
Qed.

Lemma setpoint_running en (g : PC2.globals) vin d :
  triple en (fun _ => True) (PC2.setpoint g vin d) (fun _ => running)
         (fun _ => True).
Proof.
  unfold PC2.setpoint, dwf, print, sleep.
  do 4 idle_step. start_step. running_steps.
  eapply t_bind with (R := fun _ => running).
  - apply (@t_for_fold _ _ en (seq 0 (PC2.N_SAMPLES g)) (PC2.sample g vin)
             (fun _ _ => running) (fun _ => True) [] running).
    + intros w H. exact H.
    + intros done i acc. apply sample_running.
  - intros l. running_steps. apply t_ret. intros w H. exact H.
Qed.

Lemma sweep_left_running en (g : PC2.globals) :
  triple en (fun _ => True) (PC2.measure_resistance_for_all_voltages g)
    (fun r w => r <> None -> PC2.W1_VOLTAGES g <> [] -> running w)
    (fun _ => True).
Proof.
  unfold PC2.measure_resistance_for_all_voltages.
  unfold print at 1. unfold dwf_FDwfDeviceOpen.
  idle_step.
  eapply t_bind.
  { apply (@t_effect _ _ _ (fun _ => True) (fun _ _ => True)
                     (fun _ => True)); intros; exact I. }
  intros opened. destruct opened; cbn [negb].
  - apply (@t_try _ en _ _ _ (fun _ => True) (fun _ => True)).
    + intros; exact I.
    + eapply t_bind
        with (R := fun _ w => PC2.W1_VOLTAGES g <> [] -> running w).
      * apply (@t_for_fold _ _ en (PC2.W1_VOLTAGES g) (PC2.setpoint g)
                 (fun done _ w => done <> [] -> running w)
                 (fun _ => True) [] (fun _ => True)).
        -- intros w _ H. congruence.
        -- intros done vin d.
           eapply t_conseq; [ | | | apply setpoint_running ].
           ++ intros; exact I.
           ++ intros d' w H _. exact H.
           ++ intros; exact I.
      * intros d. apply t_ret. intros w H _. exact H.
    + intros r w H. exact H.
    + intros; exact I.
    + intros e h Eh. unfold on_KeyboardInterrupt in Eh.
      destruct (is_KeyboardInterrupt e); inversion Eh; subst.
      unfold print. idle_step. apply t_ret. intros w _ E. exfalso. apply E. reflexivity.
    + intros r. unfold dwf, print. eapply t_bind.
      { apply (@t_emit _ _ _
                 (fun _ w => r <> None -> PC2.W1_VOLTAGES g <> [] ->
                             running w)
                 (fun _ => True)).
        - intros; exact I.
        - intros w p H Hr Hv. eapply running_cons;
            [ reflexivity | intros ? E0; discriminate | exact (H Hr Hv) ]. }
      intros ?. apply t_emit.
      * intros; exact I.
      * intros w p H Hr Hv. eapply running_cons;
          [ reflexivity | intros ? E0; discriminate | exact (H Hr Hv) ].
    + unfold dwf, print. idle_step. apply t_emit; intros; exact I.
  - unfold print. idle_step. apply t_ret. intros w _ E. exfalso. apply E. reflexivity.
Qed.

Lemma run_left_running {A} (m : M (option A)) en (C : Prop) a :
  triple en (fun _ => True) m (fun r w => r <> None -> C -> running w)
         (fun _ => True) ->
  fst (run m en) = Ret (Some a) -> C ->
  wavegen_running (after (snd (run m en))) = true.
Proof.
  intros H. specialize (H initial I). unfold run.
  destruct (m en initial) as [o w]. simpl. intros -> HC.
  apply H; [discriminate | exact HC].
Qed.

(** X18, on PC2.py, min_1.py and PC3_test_min.py.  These scripts never
    command the waveform generator to stop: whenever a measurement is
    returned (with at least one set-point, for PC2.py), the last
    command to W1 before the device was closed was a start. *)
Theorem generator_left_running_after_a_measurement :
  (forall (g : PC2.globals) (en : env) d,
      fst (run (PC2.measure_resistance_for_all_voltages g) en)
      = Ret (Some d) ->
      PC2.W1_VOLTAGES g <> [] ->
      wavegen_running
        (after (snd (run (PC2.measure_resistance_for_all_voltages g) en)))
      = true) /\
  (forall (np_sqrt : Q -> Q) (g : Min1.globals) (en : env) r,
      fst (run (Min1.measure_resistance np_sqrt g) en) = Ret (Some r) ->
      wavegen_running
        (after (snd (run (Min1.measure_resistance np_sqrt g) en)))
      = true) /\
  (forall (g : PC3Test.globals) (en : env) p,
      fst (run (PC3Test.measure_rc_circuit g) en) = Ret (Some p) ->
      wavegen_running
        (after (snd (run (PC3Test.measure_rc_circuit g) en)))
      = true).
Proof.
  split; [|split].
  - intros g en d E Hv.
    apply (@run_left_running _ _ en (PC2.W1_VOLTAGES g <> []) d);
      [apply sweep_left_running | exact E | exact Hv].
  - intros np_sqrt g en r E.
    apply (@run_left_running _ _ en True r); [|exact E | exact I].
    eapply t_conseq; [ | | | apply min1_left_running ].
    + intros; exact I.
    + intros r0 w H Hr _. exact (H Hr).
    + intros; exact I.
  - intros g en p E.
    apply (@run_left_running _ _ en True p); [|exact E | exact I].
    eapply t_conseq; [ | | | apply rc_left_running ].
    + intros; exact I.
    + intros r0 w H Hr _. exact (H Hr).
    + intros; exact I.
Qed.

Lemma generator_left_running_after_a_measurement_witness :
  wavegen_running
    (after (snd (run (PC3Test.measure_rc_circuit small_rc) (bench None))))
  = true /\
  wavegen_running
    (after (snd (run (Min1.measure_resistance (fun q => q) small_min1)
                     divider_bench)))
  = true.
Proof.
  destruct generator_left_running_after_a_measurement as (_ & Hm & Hrc).
  split.
  - eapply (Hrc small_rc (bench None)). vm_compute. reflexivity.
  - eapply (Hm (fun q => q) small_min1 divider_bench). lazy. reflexivity.
Defined.

End LeftRunning.

(* ------------------------------------------------------------------ *)
(** ** led_blink.py: the blink loop *)

Section Blink.
Import Py LedBlink.

Lemma led_bind_eq {A B} (m : M A) (k : A -> M B) en w :
  bind m k en w =
  match m en w with
  | (Ret a, w') => k a en w'
  | (Raise e, w') => (Raise e, w')
  | (Diverge, w') => (Diverge, w')
  end.
Proof. reflexivity. Qed.

(** One turn of the loop under an armed interruption. *)
Lemma blink_cut en tr (k : nat) :
  (k < 6)%nat ->
  blink en {| trace := tr; pending := Some k |}
  = (Raise KeyboardInterrupt,
     {| trace := rev (firstn k blink_events) ++ tr; pending := None |}).
Proof.
  intros H.
  destruct k as [|[|[|[|[|[|k]]]]]]; try lia; reflexivity.
Qed.

Lemma blink_turn en tr (k : nat) :
  blink en {| trace := tr; pending := Some (6 + k)%nat |}
  = (Ret tt, {| trace := rev blink_events ++ tr; pending := Some k |}).
Proof. reflexivity. Qed.

Lemma blink_calm en tr :
  blink en {| trace := tr; pending := None |}
  = (Ret tt, {| trace := rev blink_events ++ tr; pending := None |}).
Proof. reflexivity. Qed.

Lemma forever_blink_cut en (fuel : nat) :
  forall tr k, (k < 6 * fuel)%nat ->
    forever fuel blink en {| trace := tr; pending := Some k |}
    = (Raise KeyboardInterrupt,
       {| trace := rev (firstn k (List.concat (repeat blink_events fuel))) ++ tr;
          pending := None |}).
Proof.
  induction fuel as [|fuel IH]; intros tr k H; [lia|].
  cbn [forever]. rewrite led_bind_eq.
  destruct (Nat.lt_ge_cases k 6) as [L|L].
  - rewrite (blink_cut en tr L). cbn [repeat List.concat].
    rewrite firstn_app.
    replace (k - List.length blink_events)%nat with 0%nat
      by (simpl; lia).
    rewrite firstn_O, app_nil_r. reflexivity.
  - replace k with (6 + (k - 6))%nat at 1 by lia.
    rewrite blink_turn. rewrite IH by lia.
    cbn [repeat List.concat]. rewrite firstn_app.
    rewrite (@firstn_all2 _ k blink_events) by (simpl; lia).
    replace (k - List.length blink_events)%nat with (k - 6)%nat
      by reflexivity.
    rewrite rev_app_distr, <- app_assoc. reflexivity.
Qed.

Lemma forever_blink_calm en (fuel : nat) :
  forall tr,
    fst (forever fuel blink en {| trace := tr; pending := None |})
    = Diverge.
Proof.
  induction fuel as [|fuel IH]; intros tr; [reflexivity|].
  cbn [forever]. rewrite led_bind_eq, blink_calm. apply IH.
Qed.

Lemma output_of_cut_loop (fuel : nat) :
  forall k acc, (k < 6 * fuel)%nat ->
    fold_left (fun acc e => match e with
                            | Driver (FDwfDigitalIOOutputSet mask) =>
                                Some mask
                            | _ => acc
                            end)
              (firstn k (List.concat (repeat blink_events fuel))) acc
    = match k with
      | O => acc
      | _ => if ((1 <=? k mod 6) && (k mod 6 <=? 3))%nat then Some 1%Z
             else Some 0%Z
      end.
Proof.
  induction fuel as [|fuel IH]; intros k acc H; [lia|].
  cbn [repeat List.concat]. rewrite firstn_app, fold_left_app.
  destruct (Nat.lt_ge_cases k 6) as [L|L].
  - replace (k - List.length blink_events)%nat with 0%nat by (simpl; lia).
    rewrite firstn_O.
    destruct k as [|[|[|[|[|[|k]]]]]]; try lia; reflexivity.
  - rewrite (@firstn_all2 _ k blink_events) by (simpl; lia).
    replace (k - List.length blink_events)%nat with (k - 6)%nat
      by reflexivity.
    rewrite IH by lia.
    assert (E : (k mod 6 = (k - 6) mod 6)%nat).
    { replace k with ((k - 6) + 1 * 6)%nat at 1 by lia.
      apply Nat.Div0.mod_add. }
    destruct k as [|k']; [lia|]. rewrite E.
    destruct (S k' - 6)%nat as [|j] eqn:Ej; [|reflexivity].
    reflexivity.
Qed.

Lemma script_on_open_device en :
  Run.device_opens en = true ->
  script en initial
  = match forever (Run.poll_bound en) blink en
            {| trace := rev blink_setup;
               pending := Run.interrupt_at en |} with
    | (Ret _, w1) =>
        (Ret tt,
         {| trace := Driver FDwfDeviceClose :: trace w1; pending := None |})
    | (Raise KeyboardInterrupt, w1) =>
        (Ret tt,
         {| trace := Driver FDwfDeviceClose
                     :: Print "Stopped by user" :: trace w1;
            pending := None |})
    | (Raise e, w1) => (Raise e, {| trace := trace w1; pending := None |})
    | (Diverge, w1) => (Diverge, w1)
    end.
Proof.
  intros Ho.
  unfold script, bind, print, dwf, emit, dwf_FDwfDeviceOpen, effect,
    try_except_KeyboardInterrupt, while_True.
  simpl. rewrite Ho. simpl.
  destruct (forever (Run.poll_bound en) blink en _) as [[[]|e|] w1];
    try reflexivity.
  destruct e; reflexivity.
Qed.

Lemma script_interrupted en k :
  Run.device_opens en = true -> Run.interrupt_at en = Some k ->
  (k < 6 * Run.poll_bound en)%nat ->
  run script en
  = (Ret tt,
     blink_setup
     ++ firstn k (List.concat (repeat blink_events (Run.poll_bound en)))
     ++ [Print "Stopped by user"; Driver FDwfDeviceClose]).
Proof.
  intros Ho Hi Hk. unfold run. rewrite (script_on_open_device Ho), Hi.
  rewrite (forever_blink_cut en (rev blink_setup) Hk).
  cbn [trace]. f_equal. cbn [rev].
  rewrite !rev_app_distr, !rev_involutive, <- !app_assoc. reflexivity.
Qed.

(** X19, on led_blink.py.  When the device does not open the script
    quits after the open attempt.  When it opens, the blink loop has no
    exit of its own: a run that is not interrupted goes on for as long
    as the model follows it, and an interruption after [k] steps of the
    loop ends the script normally, with these [k] steps, the message to
    the user and [FDwfDeviceClose] as its last events. *)
Theorem led_blink_runs_until_interrupted (en : Run.env) :
  (Run.device_opens en = false ->
   run script en
   = (Ret tt, [Print "Opening first device...";
               Driver (FDwfDeviceOpen (-1) false);
               Print "Failed to open device"; Quit])) /\
  (Run.device_opens en = true -> Run.interrupt_at en = None ->
   fst (run script en) = Diverge) /\
  (forall k,
      Run.device_opens en = true -> Run.interrupt_at en = Some k ->
      (k < 6 * Run.poll_bound en)%nat ->
      run script en
      = (Ret tt,
         blink_setup
         ++ firstn k (List.concat (repeat blink_events (Run.poll_bound en)))
         ++ [Print "Stopped by user"; Driver FDwfDeviceClose])).
Proof.
  split; [|split].
  - intros Ho. unfold run, script, bind, print, dwf, emit,
      dwf_FDwfDeviceOpen, effect.
    simpl. rewrite Ho. reflexivity.
  - intros Ho Hi. unfold run. rewrite (script_on_open_device Ho), Hi.
    pose proof (forever_blink_calm en (Run.poll_bound en)
                  (rev blink_setup)) as H.
    destruct (forever (Run.poll_bound en) blink en _) as [o w1].
    simpl in H. subst o. reflexivity.
  - intros k. apply script_interrupted.
Qed.

(** X20, on led_blink.py.  The script does not switch the LED off when
    it is stopped: the value last written to the output register is
    the one the interruption found: 1 when the loop was cut after the
    write of an on phase and before the next write, 0 when it was cut
    after the write of an off phase, and nothing at all when it was cut
    before the first write; the device is closed in every case. *)
Theorem led_is_left_as_the_interruption_found_it (en : Run.env) (k : nat) :
  Run.device_opens en = true -> Run.interrupt_at en = Some k ->
  (k < 6 * Run.poll_bound en)%nat ->
  last_output (snd (run script en)) = output_after k /\
  last_call (snd (run script en)) = Some FDwfDeviceClose.
Proof.
  intros Ho Hi Hk. rewrite (script_interrupted Ho Hi Hk). cbn [snd].
  split.
  - unfold last_output. rewrite !fold_left_app.
    rewrite (output_of_cut_loop (fuel := Run.poll_bound en) _ Hk).
    destruct k; reflexivity.
  - unfold last_call. rewrite !fold_left_app. reflexivity.
Qed.

Lemma led_blink_runs_until_interrupted_witness :
  fst (run script (bench None)) = Diverge /\
  run script (bench (Some 2%nat))
  = (Ret tt,
     blink_setup
     ++ [Driver (FDwfDigitalIOOutputSet 1); Driver FDwfDigitalIOConfigure]
     ++ [Print "Stopped by user"; Driver FDwfDeviceClose]).
Proof.
  destruct (led_blink_runs_until_interrupted (bench None))
    as (_ & Hd & _).
  destruct (led_blink_runs_until_interrupted (bench (Some 2%nat)))
    as (_ & _ & Hc).
  split.
  - apply Hd; reflexivity.
  - apply (Hc 2%nat); [reflexivity | reflexivity | simpl; lia].
Defined.

Lemma led_is_left_as_the_interruption_found_it_witness :
  last_output (snd (run script (bench (Some 2%nat)))) = Some 1%Z /\
  last_call (snd (run script (bench (Some 2%nat))))
  = Some FDwfDeviceClose.
Proof.
  apply (@led_is_left_as_the_interruption_found_it
           (bench (Some 2%nat)) 2%nat).
  - reflexivity.
  - reflexivity.
  - simpl. lia.
Defined.

End Blink.

(* ------------------------------------------------------------------ *)
(** ** diode_character_test.py: the entry point *)

Section DiodeMain.
Import Py Dwf Run Builtins Logic Hoare Traces Escapes Budget Yields Instrument.

Lemma trimmed_same_length (g : Diode.globals) v i :
  trimmed_iv g v i -> List.length v = List.length i.
Proof.
  intros (b1 & b2 & il & L1 & L2 & E & L3 & -> & ->).
  rewrite !length_skipn, !length_firstn, L1, L3. reflexivity.
Qed.

Lemma length_multiply_scalar (a : list Numpy.float64) (c : Q) :
  List.length (DiodeFigure.multiply_scalar a c) = List.length a.
Proof. unfold DiodeFigure.multiply_scalar. apply length_map. Qed.

Lemma diode_returns_calm (g : Diode.globals) (en : env) r w :
  Diode.measure_led_iv_curve g en initial = (Ret r, w) ->
  pending w = None.
Proof.
  unfold Diode.measure_led_iv_curve.
  rewrite bind_eq. unfold print at 1. unfold emit, effect at 1.
  simpl pending. cbv iota.
  rewrite bind_eq. unfold dwf_FDwfDeviceOpen at 1. unfold effect at 1.
  simpl pending. cbv iota.
  destruct (device_opens en); cbn [negb].
  - unfold try_except_finally.
    match goal with
    | |- context [let '(o, w1) := ?body en ?w in _] =>
        destruct (body en w) as [[a|e|] w1]
    end.
    + simpl. intros E. inversion E; subst. reflexivity.
    + unfold on_KeyboardInterrupt. destruct e; simpl;
        intros E; inversion E; subst; reflexivity.
    + simpl. discriminate.
  - simpl. intros E. inversion E; subst. reflexivity.
Qed.

(** X21, on diode_character_test.py.  The entry point draws the I-V
    curve exactly when the measurement returned data: the figure shows
    the returned voltages against the returned currents in mA (times
    1000), after the device was closed.  The two lists have the same
    length, so the plot cannot be refused; when the measurement
    returned [None, None] nothing more happens, and
    ["No data to plot."] is never printed. *)
Theorem iv_curve_is_drawn_when_measured (g : Diode.globals) (en : env)
    (r : option (list Q * list Numpy.float64)) :
  fst (run (Diode.measure_led_iv_curve g) en) = Ret r ->
  run (DiodeFigure.main g) en
  = (Ret tt,
     snd (run (Diode.measure_led_iv_curve g) en)
     ++ match r with
        | Some (v, i) =>
            [Plot (map Numpy.Float v)
                  (DiodeFigure.multiply_scalar i 1000)]
        | None => []
        end).
Proof.
  unfold run.
  destruct (Diode.measure_led_iv_curve g en initial) as [o w] eqn:E.
  simpl. intros ->.
  pose proof (diode_returns_calm E) as Hp.
  pose proof (@measure_led_returns g en initial r w E) as Ht.
  unfold DiodeFigure.main. cbv zeta. rewrite bind_eq, E.
  destruct r as [[v i]|]; [|simpl; rewrite app_nil_r; reflexivity].
  cbn [DiodeFigure.plot_iv_curve]. unfold DiodeFigure.plt_plot.
  rewrite length_map, length_multiply_scalar.
  rewrite (trimmed_same_length (Ht v i eq_refl)), Nat.eqb_refl.
  unfold emit, effect. rewrite Hp. simpl. reflexivity.
Qed.

Lemma iv_curve_is_drawn_when_measured_witness :
  exists v i,
    run (DiodeFigure.main small_diode) (bench None)
    = (Ret tt,
       snd (run (Diode.measure_led_iv_curve small_diode) (bench None))
       ++ [Plot (map Numpy.Float v) (DiodeFigure.multiply_scalar i 1000)]).
Proof.
  eexists _, _.
  apply (@iv_curve_is_drawn_when_measured small_diode (bench None)
           (Some (_, _))).
  lazy. reflexivity.
Defined.

End DiodeMain.
